(** * woke.testing.transactions: lazily resolved transaction handles

    A shallow embedding of [src/woke/testing/transactions.py] and proofs of
    the properties its specification states about the status accessor, the
    [wait] protocol, the per-handle caches and the return-value, error and
    event resolvers.

    Python objects are mutable and every accessor may talk to the attached
    development chain, so the accessors live in a small state-and-exception
    monad: the state is the handle's own fields together with the history of
    everything the client asked of the backend (requests and sleeps). *)

From Stdlib Require Import ZArith Ascii String List Bool Lia.
From stdpp Require Import base tactics option list.
Import ListNotations.

Set Warnings "-register-all".

#[local] Open Scope string_scope.
#[local] Open Scope Z_scope.

(* ===================================================================== *)
(** ** Python values and built-ins used by the module *)
(* ===================================================================== *)

(** JSON-shaped Python values ([Any] in the annotations).  A [dict] keeps its
    insertion order, as Python's does; a well-formed one has no duplicate key
    and subscripting returns the binding of the key. *)
Inductive pyval : Type :=
  | PyNone
  | PyBool (b : bool)
  | PyInt (z : Z)
  | PyStr (s : string)
  | PyList (l : list pyval)
  | PyDict (d : list (string * pyval)).

Abbreviation dict := (list (string * pyval)).

(** Exceptions that the module raises, catches or lets through. *)
Inductive exn : Type :=
  | AssertionError (msg : string)
  | KeyError (key : string)
  | TypeError
  | ValueError
  | AttributeError
  | IndexError
  | NotImplementedError
  | JsonRpcError (data : pyval)
  | TransactionRevertedError (err : pyval)
  | TransportError (msg : string).

(** Result of evaluating a Python expression: a value or a raised
    exception. *)
Inductive result (A : Type) : Type :=
  | Ok (a : A)
  | Raise (e : exn).
Arguments Ok {A} a.
Arguments Raise {A} e.

Definition rbind {A B} (r : result A) (k : A -> result B) : result B :=
  match r with
  | Ok a => k a
  | Raise e => Raise e
  end.

Declare Scope result_scope.
Delimit Scope result_scope with res.
Notation "x <~ r ; k" := (rbind r (fun x => k))
  (at level 100, r at next level, right associativity) : result_scope.

Module Py.

(** [Py_ISSPACE] on ASCII: space and the controls 9..13. *)
Definition isspace (c : ascii) : bool :=
  let n := N_of_ascii c in
  (n =? 32)%N || ((9 <=? n)%N && (n <=? 13)%N).

(** [_PyLong_DigitValue] restricted to base 16. *)
Definition hex_digit (c : ascii) : option Z :=
  let n := Z.of_N (N_of_ascii c) in
  if (48 <=? n) && (n <=? 57) then Some (n - 48)
  else if (97 <=? n) && (n <=? 102) then Some (n - 87)
  else if (65 <=? n) && (n <=? 70) then Some (n - 55)
  else None.

Fixpoint skip_spaces (s : string) : string :=
  match s with
  | String c s' => if isspace c then skip_spaces s' else s
  | EmptyString => s
  end.

(** The digit loop of [PyLong_FromString]: hexadecimal digits separated by
    single underscores.  [prev] tells that the previous character was an
    underscore; the result is the value, the number of digits read and the
    unread rest. *)
Fixpoint hex_run (s : string) (prev : bool) (n : nat) (acc : Z)
  : option (Z * nat * string) :=
  match s with
  | EmptyString => if prev then None else Some (acc, n, s)
  | String c s' =>
      if Ascii.eqb c "_" then
        if prev then None else hex_run s' true n acc
      else
        match hex_digit c with
        | Some d => hex_run s' false (S n) (16 * acc + d)
        | None => if prev then None else Some (acc, n, s)
        end
  end.

Definition strip_sign (s : string) : Z * string :=
  match s with
  | String "+" s' => (1, s')
  | String "-" s' => (-1, s')
  | _ => (1, s)
  end.

Definition strip_0x (s : string) : string :=
  match s with
  | String "0" (String c s') =>
      if Ascii.eqb c "x" || Ascii.eqb c "X" then
        match s' with
        | String "_" s'' => s''
        | _ => s'
        end
      else s
  | _ => s
  end.

(** [int(s, 16)] on an ASCII [str]: surrounding whitespace, an optional
    sign, an optional [0x] prefix, then digits. *)
Definition int16_str (s : string) : result Z :=
  let '(sign, s1) := strip_sign (skip_spaces s) in
  let s2 := strip_0x s1 in
  match s2 with
  | String "_" _ => Raise ValueError
  | _ =>
      match hex_run s2 false 0 0 with
      | Some (v, S _, rest) =>
          match skip_spaces rest with
          | EmptyString => Ok (sign * v)
          | _ => Raise ValueError
          end
      | _ => Raise ValueError
      end
  end.

(** [int(x, 16)]: an explicit base needs a string. *)
Definition int16 (x : pyval) : result Z :=
  match x with
  | PyStr s => int16_str s
  | _ => Raise TypeError
  end.

Definition byte_of_nibbles (hi lo : Z) : Byte.byte :=
  byte_of_ascii (ascii_of_N (Z.to_N (16 * hi + lo))).

(** [bytes.fromhex(s)]: pairs of hexadecimal digits, whitespace allowed
    between pairs only.  [fuel] bounds the recursion by the length. *)
Fixpoint fromhex_go (fuel : nat) (s : string) : result (list Byte.byte) :=
  match fuel with
  | O => Ok []
  | S fuel' =>
      match skip_spaces s with
      | EmptyString => Ok []
      | String c1 (String c2 s') =>
          match hex_digit c1, hex_digit c2 with
          | Some hi, Some lo =>
              (bs <~ fromhex_go fuel' s' ; Ok (byte_of_nibbles hi lo :: bs))%res
          | _, _ => Raise ValueError
          end
      | String _ EmptyString => Raise ValueError
      end
  end.

Definition bytes_fromhex_str (s : string) : result (list Byte.byte) :=
  fromhex_go (S (String.length s)) s.

Definition bytes_fromhex (x : pyval) : result (list Byte.byte) :=
  match x with
  | PyStr s => bytes_fromhex_str s
  | _ => Raise TypeError
  end.

(** [s[n:]] on a string. *)
Fixpoint str_from (n : nat) (s : string) : string :=
  match n, s with
  | O, _ => s
  | S n', String _ s' => str_from n' s'
  | S _, EmptyString => EmptyString
  end.

Definition startswith (p s : string) : bool := String.prefix p s.

(** [x.startswith(p)]: only [str] has the method among JSON values. *)
Definition startswith_val (p : string) (x : pyval) : result bool :=
  match x with
  | PyStr s => Ok (startswith p s)
  | _ => Raise AttributeError
  end.

(** [x[n:]]: strings and lists can be sliced. *)
Definition slice_from (n : nat) (x : pyval) : result pyval :=
  match x with
  | PyStr s => Ok (PyStr (str_from n s))
  | PyList l => Ok (PyList (drop n l))
  | _ => Raise TypeError
  end.

Fixpoint dict_get (d : dict) (k : string) : option pyval :=
  match d with
  | [] => None
  | (k', v) :: d' => if String.eqb k' k then Some v else dict_get d' k
  end.

(** [d[k]] on a dict. *)
Definition dict_getitem (d : dict) (k : string) : result pyval :=
  match dict_get d k with
  | Some v => Ok v
  | None => Raise (KeyError k)
  end.

(** [x[k]] with a string key, on any value. *)
Definition getitem (x : pyval) (k : string) : result pyval :=
  match x with
  | PyDict d => dict_getitem d k
  | _ => Raise TypeError
  end.

(** [d[k]] where [d] is an optional dict slot: [None] is not
    subscriptable. *)
Definition slot_getitem (d : option dict) (k : string) : result pyval :=
  match d with
  | Some d => dict_getitem d k
  | None => Raise TypeError
  end.

(** [len(x)]. *)
Definition len (x : pyval) : result nat :=
  match x with
  | PyStr s => Ok (String.length s)
  | PyList l => Ok (List.length l)
  | PyDict d => Ok (List.length d)
  | _ => Raise TypeError
  end.

Fixpoint chars (s : string) : list pyval :=
  match s with
  | EmptyString => []
  | String c s' => PyStr (String c EmptyString) :: chars s'
  end.

(** The items [for x in v] goes through. *)
Definition iter (x : pyval) : result (list pyval) :=
  match x with
  | PyList l => Ok l
  | PyStr s => Ok (chars s)
  | PyDict d => Ok (map (fun kv => PyStr (fst kv)) d)
  | _ => Raise TypeError
  end.

(** [[f(x) for x in l]], stopping at the first exception. *)
Fixpoint mapM {A B} (f : A -> result B) (l : list A) : result (list B) :=
  match l with
  | [] => Ok []
  | x :: l' => (y <~ f x ; ys <~ mapM f l' ; Ok (y :: ys))%res
  end.

End Py.

(* ===================================================================== *)
(** ** The development chain and the chain interface *)
(* ===================================================================== *)

(** The classes the module tests the backend against with [isinstance];
    [OtherDevChain] is a backend that is an instance of none of them. *)
Inductive dev_chain_class : Type :=
  | AnvilDevChain
  | GanacheDevChain
  | HardhatDevChain
  | OtherDevChain.

(** What the client did to the outside world: a JSON-RPC request through
    the development chain, or a [time.sleep].  [0.25] seconds is recorded as
    250 milliseconds. *)
Inductive event : Type :=
  | GetTransaction (tx_hash : string)
  | GetTransactionReceipt (tx_hash : string)
  | Call (params : dict)
  | TraceTransaction (tx_hash : string)
  | DebugTraceTransaction (tx_hash : string) (options : dict)
  | Sleep (millis : N).

(** The backend is not part of the module.  Its answer to a request may
    depend on everything that happened before (a receipt appears once the
    transaction is mined), so every method reads the history, newest event
    first, that precedes the request.  A method may also raise. *)
Record DevChain : Type := {
  dev_class : dev_chain_class;
  get_transaction : list event -> string -> result (option dict);
  get_transaction_receipt : list event -> string -> result (option dict);
  call : list event -> dict -> result pyval;
  trace_transaction : list event -> string -> result (option (list dict));
  debug_trace_transaction :
    list event -> string -> dict -> result (option dict)
}.

(** [ChainInterface]: the backend and the codec entry points the handle
    calls.  They are defined outside the module and are taken here as
    functions of their arguments, which return or raise. *)
Record ChainInterface : Type := {
  dev_chain : DevChain;
  _process_console_logs : list dict -> result (list pyval);
  _process_events : string -> pyval -> string -> result (list pyval);
  _process_revert_data : string -> list Byte.byte -> string -> result unit;
  _process_return_data : list Byte.byte -> dict -> string -> result pyval
}.

Inductive TransactionStatusEnum : Type :=
  | PENDING
  | SUCCESS
  | FAILURE.

Definition TransactionStatusEnum_value (s : TransactionStatusEnum) : Z :=
  match s with
  | PENDING => -1
  | SUCCESS => 1
  | FAILURE => 0
  end.

Definition status_eqb (a b : TransactionStatusEnum) : bool :=
  TransactionStatusEnum_value a =? TransactionStatusEnum_value b.

Inductive TransactionTypeEnum : Type :=
  | LEGACY
  | EIP2930
  | EIP1559.

Definition TransactionTypeEnum_value (t : TransactionTypeEnum) : Z :=
  match t with
  | LEGACY => 0
  | EIP2930 => 1
  | EIP1559 => 2
  end.

(** [Account(address, chain)]; the chain is the handle's own. *)
Inductive Account : Type :=
  | mkAccount (address : pyval).

(** [UnknownEvent(topics, data)]. *)
Record UnknownEvent : Type := {
  topics : list (list Byte.byte);
  data : list Byte.byte
}.

(** What [return_value] can return: [return_type(address, chain)] for a
    created contract, or whatever the codec decoded. *)
Inductive return_value_t : Type :=
  | Instance_of (return_type : string) (address : pyval)
  | Decoded (v : pyval).

(* ===================================================================== *)
(** ** The handle *)
(* ===================================================================== *)

(** The fields of [TransactionAbc].  The six slots after [_chain] start as
    [None]; [_error] holds the payload of the cached
    [TransactionRevertedError]. *)
Record TransactionAbc : Type := {
  _tx_hash : string;
  _tx_params : dict;
  _abi : option dict;
  _return_type : string;
  _recipient_fqn : option string;
  _chain : ChainInterface;
  _tx_data : option dict;
  _tx_receipt : option dict;
  _trace_transaction : option (list dict);
  _debug_trace_transaction : option dict;
  _error : option pyval;
  _events : option (list pyval)
}.

(** [__init__]; the default chain is passed explicitly. *)
Definition init (tx_hash : string) (tx_params : dict) (abi : option dict)
    (return_type : string) (recipient_fqn : option string)
    (chain : ChainInterface) : TransactionAbc :=
  {| _tx_hash := tx_hash; _tx_params := tx_params; _abi := abi;
     _return_type := return_type; _recipient_fqn := recipient_fqn;
     _chain := chain;
     _tx_data := None; _tx_receipt := None; _trace_transaction := None;
     _debug_trace_transaction := None; _error := None; _events := None |}.

Definition set_tx_data (v : option dict) (h : TransactionAbc) :=
  {| _tx_hash := _tx_hash h; _tx_params := _tx_params h; _abi := _abi h;
     _return_type := _return_type h; _recipient_fqn := _recipient_fqn h;
     _chain := _chain h;
     _tx_data := v; _tx_receipt := _tx_receipt h;
     _trace_transaction := _trace_transaction h;
     _debug_trace_transaction := _debug_trace_transaction h;
     _error := _error h; _events := _events h |}.

Definition set_tx_receipt (v : option dict) (h : TransactionAbc) :=
  {| _tx_hash := _tx_hash h; _tx_params := _tx_params h; _abi := _abi h;
     _return_type := _return_type h; _recipient_fqn := _recipient_fqn h;
     _chain := _chain h;
     _tx_data := _tx_data h; _tx_receipt := v;
     _trace_transaction := _trace_transaction h;
     _debug_trace_transaction := _debug_trace_transaction h;
     _error := _error h; _events := _events h |}.

Definition set_trace_transaction (v : option (list dict)) (h : TransactionAbc) :=
  {| _tx_hash := _tx_hash h; _tx_params := _tx_params h; _abi := _abi h;
     _return_type := _return_type h; _recipient_fqn := _recipient_fqn h;
     _chain := _chain h;
     _tx_data := _tx_data h; _tx_receipt := _tx_receipt h;
     _trace_transaction := v;
     _debug_trace_transaction := _debug_trace_transaction h;
     _error := _error h; _events := _events h |}.

Definition set_debug_trace_transaction (v : option dict) (h : TransactionAbc) :=
  {| _tx_hash := _tx_hash h; _tx_params := _tx_params h; _abi := _abi h;
     _return_type := _return_type h; _recipient_fqn := _recipient_fqn h;
     _chain := _chain h;
     _tx_data := _tx_data h; _tx_receipt := _tx_receipt h;
     _trace_transaction := _trace_transaction h;
     _debug_trace_transaction := v;
     _error := _error h; _events := _events h |}.

Definition set_error (v : option pyval) (h : TransactionAbc) :=
  {| _tx_hash := _tx_hash h; _tx_params := _tx_params h; _abi := _abi h;
     _return_type := _return_type h; _recipient_fqn := _recipient_fqn h;
     _chain := _chain h;
     _tx_data := _tx_data h; _tx_receipt := _tx_receipt h;
     _trace_transaction := _trace_transaction h;
     _debug_trace_transaction := _debug_trace_transaction h;
     _error := v; _events := _events h |}.

Definition set_events (v : option (list pyval)) (h : TransactionAbc) :=
  {| _tx_hash := _tx_hash h; _tx_params := _tx_params h; _abi := _abi h;
     _return_type := _return_type h; _recipient_fqn := _recipient_fqn h;
     _chain := _chain h;
     _tx_data := _tx_data h; _tx_receipt := _tx_receipt h;
     _trace_transaction := _trace_transaction h;
     _debug_trace_transaction := _debug_trace_transaction h;
     _error := _error h; _events := v |}.

(* ===================================================================== *)
(** ** The monad of accessors *)
(* ===================================================================== *)

(** The handle as it is now, and what the client has done so far (newest
    first). *)
Record state : Type := {
  self : TransactionAbc;
  history : list event
}.

(** An accessor maps a state to a result and the state at the moment it
    returned or raised.  It gives [None] when the polling loop of [wait] is
    still running after the allowed number of iterations. *)
Definition M (A : Type) : Type := state -> option (result A * state).

Definition ret {A} (a : A) : M A := fun s => Some (Ok a, s).

Definition raise {A} (e : exn) : M A := fun s => Some (Raise e, s).

Definition bind {A B} (m : M A) (k : A -> M B) : M B :=
  fun s =>
    match m s with
    | Some (Ok a, s') => k a s'
    | Some (Raise e, s') => Some (Raise e, s')
    | None => None
    end.

Definition lift {A} (r : result A) : M A := fun s => Some (r, s).

Definition still_running {A} : M A := fun _ => None.

Definition get_self : M TransactionAbc := fun s => Some (Ok (self s), s).

Definition update_self (f : TransactionAbc -> TransactionAbc) : M unit :=
  fun s => Some (Ok tt, {| self := f (self s); history := history s |}).

(** One request to the backend: the answer is computed from the history
    before the request, and the request is recorded. *)
Definition request {A} (ev : event)
    (answer : DevChain -> list event -> result A) : M A :=
  fun s =>
    Some (answer (dev_chain (_chain (self s))) (history s),
          {| self := self s; history := ev :: history s |}).

(** [time.sleep]. *)
Definition sleep (millis : N) : M unit :=
  fun s => Some (Ok tt, {| self := self s; history := Sleep millis :: history s |}).

(** [try: m  except ...]: [handler] picks the exceptions it catches. *)
Definition try_except {A} (m : M A) (handler : exn -> option (M A)) : M A :=
  fun s =>
    match m s with
    | Some (Raise e, s') =>
        match handler e with
        | Some h => h s'
        | None => Some (Raise e, s')
        end
    | r => r
    end.

(** [assert b, msg]. *)
Definition assert (b : bool) (msg : string) : M unit :=
  if b then ret tt else raise (AssertionError msg).

Declare Scope handle_scope.
Delimit Scope handle_scope with M.
Notation "x <- m ;; k" := (bind m (fun x => k))
  (at level 100, m at next level, right associativity) : handle_scope.
Notation "m ;; k" := (bind m (fun _ => k))
  (at level 100, right associativity) : handle_scope.
#[local] Open Scope handle_scope.

(* ===================================================================== *)
(** ** [TransactionAbc]: decorators, accessors and resolvers *)
(* ===================================================================== *)

Module Transaction.

(** Calls on [self._chain.dev_chain]. *)
Definition dev_get_transaction (tx_hash : string) : M (option dict) :=
  request (GetTransaction tx_hash)
    (fun dc hist => get_transaction dc hist tx_hash).

Definition dev_get_transaction_receipt (tx_hash : string) : M (option dict) :=
  request (GetTransactionReceipt tx_hash)
    (fun dc hist => get_transaction_receipt dc hist tx_hash).

Definition dev_call (params : dict) : M pyval :=
  request (Call params) (fun dc hist => call dc hist params).

Definition dev_trace_transaction (tx_hash : string) : M (option (list dict)) :=
  request (TraceTransaction tx_hash)
    (fun dc hist => trace_transaction dc hist tx_hash).

Definition dev_debug_trace_transaction (tx_hash : string) (options : dict)
  : M (option dict) :=
  request (DebugTraceTransaction tx_hash options)
    (fun dc hist => debug_trace_transaction dc hist tx_hash options).

Definition is_anvil (c : dev_chain_class) : bool :=
  match c with AnvilDevChain => true | _ => false end.

(** [int(self._tx_receipt["status"], 16) == 0] and the two returns that
    follow it. *)
Definition status_of_receipt (receipt : option dict)
  : result TransactionStatusEnum :=
  (flag <~ Py.slot_getitem receipt "status" ;
   z <~ Py.int16 flag ;
   if z =? 0 then Ok FAILURE else Ok SUCCESS)%res.

(** The [status] property. *)
Definition status : M TransactionStatusEnum :=
  h <- get_self ;;
  match _tx_receipt h with
  | None =>
      receipt <- dev_get_transaction_receipt (_tx_hash h) ;;
      match receipt with
      | None => ret PENDING
      | Some _ =>
          update_self (set_tx_receipt receipt) ;;
          h <- get_self ;;
          lift (status_of_receipt (_tx_receipt h))
      end
  | Some _ => lift (status_of_receipt (_tx_receipt h))
  end.

(** [for _ in range(n): if self.status != PENDING: return]; the result
    tells whether the loop returned from [wait]. *)
Fixpoint wait_checks (n : nat) : M bool :=
  match n with
  | O => ret false
  | S n' =>
      st <- status ;;
      if negb (status_eqb st PENDING) then ret true else wait_checks n'
  end.

(** [while self.status == PENDING: time.sleep(0.25)], for at most [fuel]
    evaluations of the loop condition. *)
Fixpoint wait_poll (fuel : nat) : M unit :=
  match fuel with
  | O => still_running
  | S fuel' =>
      st <- status ;;
      if status_eqb st PENDING then sleep 250 ;; wait_poll fuel' else ret tt
  end.

Definition wait (fuel : nat) : M unit :=
  returned <- wait_checks 40 ;;
  if returned then ret tt else wait_poll fuel.

(** The decorator [_fetch_tx_data]. *)
Definition _fetch_tx_data {A} (f : M A) : M A :=
  h <- get_self ;;
  match _tx_data h with
  | None =>
      d <- dev_get_transaction (_tx_hash h) ;;
      update_self (set_tx_data d)
  | Some _ => ret tt
  end ;;
  f.

(** The decorator [_fetch_tx_receipt]. *)
Definition _fetch_tx_receipt {A} (fuel : nat) (f : M A) : M A :=
  h <- get_self ;;
  match _tx_receipt h with
  | None => wait fuel
  | Some _ => ret tt
  end ;;
  h <- get_self ;;
  assert (bool_decide (is_Some (_tx_receipt h))) "" ;;
  f.

Definition tx_data_field (k : string) : M pyval :=
  h <- get_self ;; lift (Py.slot_getitem (_tx_data h) k).

Definition tx_data_int (k : string) : M Z :=
  x <- tx_data_field k ;; lift (Py.int16 x).

Definition tx_receipt_field (k : string) : M pyval :=
  h <- get_self ;; lift (Py.slot_getitem (_tx_receipt h) k).

Definition tx_receipt_int (k : string) : M Z :=
  x <- tx_receipt_field k ;; lift (Py.int16 x).

Definition tx_hash : M string := h <- get_self ;; ret (_tx_hash h).

Definition chain : M ChainInterface := h <- get_self ;; ret (_chain h).

Definition block_hash : M pyval := _fetch_tx_data (tx_data_field "blockHash").

Definition block_number : M Z := _fetch_tx_data (tx_data_int "blockNumber").

Definition from_ : M Account :=
  _fetch_tx_data (a <- tx_data_field "from" ;; ret (mkAccount a)).

Definition to : M Account :=
  _fetch_tx_data (a <- tx_data_field "to" ;; ret (mkAccount a)).

Definition gas : M Z := _fetch_tx_data (tx_data_int "gas").

Definition nonce : M Z := _fetch_tx_data (tx_data_int "nonce").

Definition tx_index : M Z := _fetch_tx_data (tx_data_int "transactionIndex").

Definition value : M Z := _fetch_tx_data (tx_data_int "value").

Definition r : M Z := _fetch_tx_data (tx_data_int "r").

Definition s : M Z := _fetch_tx_data (tx_data_int "s").

Definition gas_used (fuel : nat) : M Z :=
  _fetch_tx_receipt fuel (tx_receipt_int "gasUsed").

Definition cumulative_gas_used (fuel : nat) : M Z :=
  _fetch_tx_receipt fuel (tx_receipt_int "cumulativeGasUsed").

Definition _fetch_trace_transaction : M unit :=
  h <- get_self ;;
  match _trace_transaction h with
  | None =>
      assert (is_anvil (dev_class (dev_chain (_chain h)))) "" ;;
      t <- dev_trace_transaction (_tx_hash h) ;;
      update_self (set_trace_transaction t)
  | Some _ => ret tt
  end.

Definition _fetch_debug_trace_transaction : M unit :=
  h <- get_self ;;
  match _debug_trace_transaction h with
  | None =>
      t <- dev_debug_trace_transaction (_tx_hash h)
             [("enableMemory", PyBool true)] ;;
      update_self (set_debug_trace_transaction t)
  | Some _ => ret tt
  end.

Definition console_logs (fuel : nat) : M (list pyval) :=
  _fetch_tx_receipt fuel (
    h <- get_self ;;
    if is_anvil (dev_class (dev_chain (_chain h))) then
      _fetch_trace_transaction ;;
      h <- get_self ;;
      match _trace_transaction h with
      | None => raise (AssertionError "")
      | Some trace => lift (_process_console_logs (_chain h) trace)
      end
    else raise NotImplementedError).

Definition events (fuel : nat) : M (list pyval) :=
  _fetch_tx_receipt fuel (
    h <- get_self ;;
    match _events h with
    | Some evs => ret evs
    | None =>
        assert (bool_decide (is_Some (_tx_receipt h))) "" ;;
        match _recipient_fqn h with
        | None =>
            logs <- tx_receipt_field "logs" ;;
            n <- lift (Py.len logs) ;;
            assert (Nat.eqb n 0) "" ;;
            update_self (set_events (Some [])) ;;
            ret []
        | Some fqn =>
            logs <- tx_receipt_field "logs" ;;
            evs <- lift (_process_events (_chain h) (_tx_hash h) logs fqn) ;;
            update_self (set_events (Some evs)) ;;
            ret evs
        end
    end).

(** [bytes.fromhex(x[2:]) if x.startswith("0x") else bytes.fromhex(x)]. *)
Definition hex_to_bytes (x : pyval) : result (list Byte.byte) :=
  (b <~ Py.startswith_val "0x" x ;
   if b : bool then (y <~ Py.slice_from 2 x ; Py.bytes_fromhex y)
   else Py.bytes_fromhex x)%res.

Definition raw_event_of_log (log : pyval) : result UnknownEvent :=
  (ts <~ Py.getitem log "topics" ;
   ts <~ Py.iter ts ;
   topics <~ Py.mapM hex_to_bytes ts ;
   d <~ Py.getitem log "data" ;
   data <~ hex_to_bytes d ;
   Ok {| topics := topics; data := data |})%res.

Definition raw_events (fuel : nat) : M (list UnknownEvent) :=
  _fetch_tx_receipt fuel (
    h <- get_self ;;
    assert (bool_decide (is_Some (_tx_receipt h))) "" ;;
    logs <- tx_receipt_field "logs" ;;
    logs <- lift (Py.iter logs) ;;
    lift (Py.mapM raw_event_of_log logs)).

(** The inner [try] of [error]: where the revert payload sits in the
    data of the backend's error, and the removal of a [0x] prefix. *)
Definition revert_data_of (c : dev_chain_class) (e_data : pyval)
  : result pyval :=
  (revert_data <~
     match c with
     | AnvilDevChain | GanacheDevChain => Py.getitem e_data "data"
     | HardhatDevChain =>
         (d <~ Py.getitem e_data "data" ; Py.getitem d "data")
     | OtherDevChain => Raise NotImplementedError
     end ;
   b <~ Py.startswith_val "0x" revert_data ;
   if b : bool then Py.slice_from 2 revert_data else Ok revert_data)%res.

(** The first [try] of [error]: replay the call, which should revert. *)
Definition replay : M pyval :=
  h <- get_self ;;
  try_except
    (dev_call (_tx_params h) ;;
     raise (AssertionError "Call should have reverted"))
    (fun e =>
       match e with
       | JsonRpcError e_data =>
           Some
             match revert_data_of (dev_class (dev_chain (_chain h))) e_data with
             | Ok revert_data => ret revert_data
             | Raise _ => raise e
             end
       | _ => None
       end).

(** The second [try] of [error]: decode, and cache what the codec
    raises. *)
Definition decode_revert (revert_data : pyval) : M (option pyval) :=
  h <- get_self ;;
  try_except
    (match _recipient_fqn h with
     | None => raise (AssertionError "")
     | Some fqn =>
         payload <- lift (Py.bytes_fromhex revert_data) ;;
         lift (_process_revert_data (_chain h) (_tx_hash h) payload fqn) ;;
         ret None
     end)
    (fun e =>
       match e with
       | TransactionRevertedError err =>
           Some (update_self (set_error (Some err)) ;; ret (Some err))
       | _ => None
       end).

(** The [error] property. *)
Definition error (fuel : nat) : M (option pyval) :=
  _fetch_tx_receipt fuel (
    st <- status ;;
    if status_eqb st SUCCESS then ret None
    else
      h <- get_self ;;
      match _error h with
      | Some err => ret (Some err)
      | None => revert_data <- replay ;; decode_revert revert_data
      end).

(** ["contractAddress" in receipt and receipt["contractAddress"] is not
    None]: the address when the test holds. *)
Definition created_contract (receipt : option dict) : option pyval :=
  match receipt with
  | Some d =>
      match Py.dict_get d "contractAddress" with
      | Some PyNone => None
      | Some address => Some address
      | None => None
      end
  | None => None
  end.

Definition trace_output (trace : list dict) : result (list Byte.byte) :=
  (frame <~ match trace with
            | frame :: _ => Ok frame
            | [] => Raise IndexError
            end ;
   res <~ Py.dict_getitem frame "result" ;
   out <~ Py.getitem res "output" ;
   hex <~ Py.slice_from 2 out ;
   Py.bytes_fromhex hex)%res.

Definition debug_trace_output (trace : dict) : result (list Byte.byte) :=
  (rv <~ Py.dict_getitem trace "returnValue" ; Py.bytes_fromhex rv)%res.

(** The [return_value] property. *)
Definition return_value (fuel : nat) : M return_value_t :=
  _fetch_tx_receipt fuel (
    st <- status ;;
    if negb (status_eqb st SUCCESS) then
      e <- error fuel ;;
      match e with
      | None => raise (AssertionError "")
      | Some err => raise (TransactionRevertedError err)
      end
    else
      h <- get_self ;;
      assert (bool_decide (is_Some (_tx_receipt h))) "" ;;
      match created_contract (_tx_receipt h) with
      | Some address => ret (Instance_of (_return_type h) address)
      | None =>
          match _abi h with
          | None => raise (AssertionError "")
          | Some abi =>
              if is_anvil (dev_class (dev_chain (_chain h))) then
                _fetch_trace_transaction ;;
                h <- get_self ;;
                match _trace_transaction h with
                | None => raise (AssertionError "")
                | Some trace =>
                    output <- lift (trace_output trace) ;;
                    v <- lift (_process_return_data (_chain h) output abi
                                 (_return_type h)) ;;
                    ret (Decoded v)
                end
              else
                _fetch_debug_trace_transaction ;;
                h <- get_self ;;
                match _debug_trace_transaction h with
                | None => raise (AssertionError "")
                | Some trace =>
                    output <- lift (debug_trace_output trace) ;;
                    v <- lift (_process_return_data (_chain h) output abi
                                 (_return_type h)) ;;
                    ret (Decoded v)
                end
          end
      end).

End Transaction.

(** ** [LegacyTransaction] *)

Module LegacyTransaction.

Definition v : M Z :=
  Transaction._fetch_tx_data (Transaction.tx_data_int "v").

Definition gas_price : M Z :=
  Transaction._fetch_tx_data (Transaction.tx_data_int "gasPrice").

Definition type : M TransactionTypeEnum :=
  Transaction._fetch_tx_data (
    t <- Transaction.tx_data_int "type" ;;
    assert (t =? 0) "" ;;
    ret LEGACY).

End LegacyTransaction.

(* ===================================================================== *)
(** ** Every accessor of a handle, under one name *)
(* ===================================================================== *)

Inductive accessor : Type :=
  | A_tx_hash | A_chain
  | A_block_hash | A_block_number | A_from_ | A_to | A_gas | A_nonce
  | A_tx_index | A_value | A_r | A_s
  | A_gas_used | A_cumulative_gas_used
  | A_status | A_wait
  | A_console_logs | A_events | A_raw_events | A_error | A_return_value
  | A_v | A_gas_price | A_type.

(** What an accessor hands back. *)
Inductive observed : Type :=
  | ObsNone
  | ObsStr (x : string)
  | ObsChain (x : ChainInterface)
  | ObsVal (x : pyval)
  | ObsInt (x : Z)
  | ObsAccount (x : Account)
  | ObsStatus (x : TransactionStatusEnum)
  | ObsList (x : list pyval)
  | ObsRaw (x : list UnknownEvent)
  | ObsError (x : option pyval)
  | ObsReturn (x : return_value_t)
  | ObsType (x : TransactionTypeEnum).

Definition fmap_M {A B} (f : A -> B) (m : M A) : M B :=
  x <- m ;; ret (f x).

(** Reading an accessor of a [LegacyTransaction], the one concrete class of
    the module; [fuel] bounds the polling loop of [wait]. *)
Definition read (a : accessor) (fuel : nat) : M observed :=
  match a with
  | A_tx_hash => fmap_M ObsStr Transaction.tx_hash
  | A_chain => fmap_M ObsChain Transaction.chain
  | A_block_hash => fmap_M ObsVal Transaction.block_hash
  | A_block_number => fmap_M ObsInt Transaction.block_number
  | A_from_ => fmap_M ObsAccount Transaction.from_
  | A_to => fmap_M ObsAccount Transaction.to
  | A_gas => fmap_M ObsInt Transaction.gas
  | A_nonce => fmap_M ObsInt Transaction.nonce
  | A_tx_index => fmap_M ObsInt Transaction.tx_index
  | A_value => fmap_M ObsInt Transaction.value
  | A_r => fmap_M ObsInt Transaction.r
  | A_s => fmap_M ObsInt Transaction.s
  | A_gas_used => fmap_M ObsInt (Transaction.gas_used fuel)
  | A_cumulative_gas_used => fmap_M ObsInt (Transaction.cumulative_gas_used fuel)
  | A_status => fmap_M ObsStatus Transaction.status
  | A_wait => fmap_M (fun _ => ObsNone) (Transaction.wait fuel)
  | A_console_logs => fmap_M ObsList (Transaction.console_logs fuel)
  | A_events => fmap_M ObsList (Transaction.events fuel)
  | A_raw_events => fmap_M ObsRaw (Transaction.raw_events fuel)
  | A_error => fmap_M ObsError (Transaction.error fuel)
  | A_return_value => fmap_M ObsReturn (Transaction.return_value fuel)
  | A_v => fmap_M ObsInt LegacyTransaction.v
  | A_gas_price => fmap_M ObsInt LegacyTransaction.gas_price
  | A_type => fmap_M ObsType LegacyTransaction.type
  end.

(** The six lazily populated slots of a handle. *)
Inductive slot : Type :=
  | TxData | Receipt | Trace | DebugTrace | DecodedError | DecodedEvents.

Definition populated (sl : slot) (h : TransactionAbc) : bool :=
  match sl with
  | TxData => bool_decide (is_Some (_tx_data h))
  | Receipt => bool_decide (is_Some (_tx_receipt h))
  | Trace => bool_decide (is_Some (_trace_transaction h))
  | DebugTrace => bool_decide (is_Some (_debug_trace_transaction h))
  | DecodedError => bool_decide (is_Some (_error h))
  | DecodedEvents => bool_decide (is_Some (_events h))
  end.

(** [kept sl h h']: what slot [sl] holds in [h], it still holds in [h']. *)
Definition kept (sl : slot) (h h' : TransactionAbc) : Prop :=
  match sl with
  | TxData => forall x, _tx_data h = Some x -> _tx_data h' = Some x
  | Receipt => forall x, _tx_receipt h = Some x -> _tx_receipt h' = Some x
  | Trace => forall x, _trace_transaction h = Some x -> _trace_transaction h' = Some x
  | DebugTrace =>
      forall x, _debug_trace_transaction h = Some x ->
                _debug_trace_transaction h' = Some x
  | DecodedError => forall x, _error h = Some x -> _error h' = Some x
  | DecodedEvents => forall x, _events h = Some x -> _events h' = Some x
  end.

(** The request that brings the data of a slot.  The decoded error comes
    from replaying the call; the decoded events are computed from the
    receipt and need no request of their own. *)
Definition fetches (sl : slot) (ev : event) : bool :=
  match sl, ev with
  | TxData, GetTransaction _ => true
  | Receipt, GetTransactionReceipt _ => true
  | Trace, TraceTransaction _ => true
  | DebugTrace, DebugTraceTransaction _ _ => true
  | DecodedError, Call _ => true
  | _, _ => false
  end.

(** ** The moves a handle makes

    Every effect in the module is one of these: a request or a sleep made
    while the slot it serves is empty, or the filling of an empty slot.  A
    handle without recipient only ever caches the empty event list, and
    only after seeing an empty log list in its receipt. *)

Definition asked (ev : event) (st : state) : state :=
  {| self := self st; history := ev :: history st |}.

Definition updated (f : TransactionAbc -> TransactionAbc) (st : state) : state :=
  {| self := f (self st); history := history st |}.

Definition logs_empty (h : TransactionAbc) : Prop :=
  exists rc logs,
    _tx_receipt h = Some rc /\ Py.dict_get rc "logs" = Some logs
    /\ Py.len logs = Ok O.

Inductive move : state -> state -> Prop :=
  | move_ask_tx_data st x :
      _tx_data (self st) = None -> move st (asked (GetTransaction x) st)
  | move_set_tx_data st d :
      _tx_data (self st) = None -> move st (updated (set_tx_data d) st)
  | move_ask_receipt st x :
      _tx_receipt (self st) = None ->
      move st (asked (GetTransactionReceipt x) st)
  | move_set_receipt st rc :
      _tx_receipt (self st) = None ->
      move st (updated (set_tx_receipt (Some rc)) st)
  | move_sleep st :
      _tx_receipt (self st) = None -> move st (asked (Sleep 250) st)
  | move_ask_trace st x :
      _trace_transaction (self st) = None ->
      move st (asked (TraceTransaction x) st)
  | move_set_trace st t :
      _trace_transaction (self st) = None ->
      move st (updated (set_trace_transaction t) st)
  | move_ask_debug_trace st x o :
      _debug_trace_transaction (self st) = None ->
      move st (asked (DebugTraceTransaction x o) st)
  | move_set_debug_trace st t :
      _debug_trace_transaction (self st) = None ->
      move st (updated (set_debug_trace_transaction t) st)
  | move_ask_call st p :
      _error (self st) = None -> move st (asked (Call p) st)
  | move_set_error st err :
      _error (self st) = None -> move st (updated (set_error (Some err)) st)
  | move_set_events st evs :
      _events (self st) = None ->
      (_recipient_fqn (self st) = None -> evs = [] /\ logs_empty (self st)) ->
      move st (updated (set_events (Some evs)) st).

(** Zero or more moves. *)
Inductive moves : state -> state -> Prop :=
  | moves_refl st : moves st st
  | moves_step st1 st2 st3 : move st1 st2 -> moves st2 st3 -> moves st1 st3.

(** A handle's life: created by [init] at some point of the backend's
    history, then read through its accessors. *)
Inductive reachable : state -> Prop :=
  | reachable_init tx_hash tx_params abi return_type recipient_fqn chain hist :
      reachable
        {| self := init tx_hash tx_params abi return_type recipient_fqn chain;
           history := hist |}
  | reachable_read a fuel st out st' :
      reachable st -> read a fuel st = Some (out, st') -> reachable st'.

(** The history right before the poll that follows [k] polls answered with
    no receipt, in [wait]: the first forty polls follow each other at
    once, each later one is followed by a sleep of 250 ms. *)
Fixpoint pending_history (tx_hash : string) (k : nat) (hist : list event)
  : list event :=
  match k with
  | O => hist
  | S k' =>
      (if (40 <=? k')%nat then [Sleep 250] else [])
        ++ GetTransactionReceipt tx_hash :: pending_history tx_hash k' hist
  end.

(** The state of a handle still without receipt after [k] such polls. *)
Definition polled (st : state) (k : nat) : state :=
  {| self := self st;
     history := pending_history (_tx_hash (self st)) k (history st) |}.

Definition is_sleep (ev : event) : bool :=
  match ev with Sleep _ => true | _ => false end.

Definition is_receipt_request (ev : event) : bool :=
  match ev with GetTransactionReceipt _ => true | _ => false end.

Definition is_call (ev : event) : bool :=
  match ev with Call _ => true | _ => false end.

Fixpoint count_events (p : event -> bool) (hist : list event) : nat :=
  match hist with
  | [] => O
  | ev :: hist' => ((if p ev then 1 else 0) + count_events p hist')%nat
  end.

(** The state after the receipt request whose answer was stored. *)
Definition receipt_stored (rc : dict) (st : state) : state :=
  {| self := set_tx_receipt (Some rc) (self st);
     history := GetTransactionReceipt (_tx_hash (self st)) :: history st |}.

(** The backend's answer to a receipt request made in [st]. *)
Definition receipt_answer (st : state) : result (option dict) :=
  get_transaction_receipt (dev_chain (_chain (self st))) (history st)
    (_tx_hash (self st)).

(** A state in which the raw transaction data [d] is at hand, [st1]: the
    slot of [st] holds it, or the slot is empty and the backend returns it
    to the one request made. *)
Definition tx_data_at_hand (st : state) (d : dict) (st1 : state) : Prop :=
  (_tx_data (self st) = Some d /\ st1 = st)
  \/ (_tx_data (self st) = None
      /\ get_transaction (dev_chain (_chain (self st))) (history st)
           (_tx_hash (self st)) = Ok (Some d)
      /\ st1 = {| self := set_tx_data (Some d) (self st);
                  history := GetTransaction (_tx_hash (self st)) :: history st |}).

(** The same for the call trace and for the debug trace, which is asked
    with the option [enableMemory]. *)
Definition trace_at_hand (st : state) (trace : list dict) (st1 : state) : Prop :=
  (_trace_transaction (self st) = Some trace /\ st1 = st)
  \/ (_trace_transaction (self st) = None
      /\ trace_transaction (dev_chain (_chain (self st))) (history st)
           (_tx_hash (self st)) = Ok (Some trace)
      /\ st1 = {| self := set_trace_transaction (Some trace) (self st);
                  history := TraceTransaction (_tx_hash (self st)) :: history st |}).

Definition debug_trace_at_hand (st : state) (trace : dict) (st1 : state) : Prop :=
  (_debug_trace_transaction (self st) = Some trace /\ st1 = st)
  \/ (_debug_trace_transaction (self st) = None
      /\ debug_trace_transaction (dev_chain (_chain (self st))) (history st)
           (_tx_hash (self st)) [("enableMemory", PyBool true)] = Ok (Some trace)
      /\ st1 = {| self := set_debug_trace_transaction (Some trace) (self st);
                  history :=
                    DebugTraceTransaction (_tx_hash (self st))
                      [("enableMemory", PyBool true)] :: history st |}).

(** [s] without a leading [0x]. *)
Definition without_0x (s : string) : string :=
  if Py.startswith "0x" s then Py.str_from 2 s else s.

(** ** Vocabulary of the proofs *)

(** Run from [st], [m] ends in a state that [st] reaches by moves. *)
Definition walks_at {A} (st : state) (m : M A) : Prop :=
  forall out st', m st = Some (out, st') -> moves st st'.

Definition walks {A} (m : M A) : Prop := forall st, walks_at st m.

(** [m] never changes the state. *)
Definition pure {A} (m : M A) : Prop :=
  forall st out st', m st = Some (out, st') -> st' = st.

(** The fields given to the constructor never change. *)
Definition same_identity (h h' : TransactionAbc) : Prop :=
  _tx_hash h' = _tx_hash h /\ _tx_params h' = _tx_params h
  /\ _abi h' = _abi h /\ _return_type h' = _return_type h
  /\ _recipient_fqn h' = _recipient_fqn h /\ _chain h' = _chain h.

(** A handle without recipient caches no event list but the empty one,
    and only next to a receipt whose log list is empty. *)
Definition events_inv (h : TransactionAbc) : Prop :=
  _recipient_fqn h = None ->
  forall evs, _events h = Some evs -> evs = [] /\ logs_empty h.

(** [f] returns only when the raw transaction data is there. *)
Definition reads_tx_data {A} (f : M A) : Prop :=
  forall st v st', f st = Some (Ok v, st') -> is_Some (_tx_data (self st')).

(** What the codec makes of the output bytes, as [return_value] returns
    it. *)
Definition decoded_output (h : TransactionAbc) (abi : dict)
    (output : list Byte.byte) : result return_value_t :=
  (v <~ _process_return_data (_chain h) output abi (_return_type h) ;
   Ok (Decoded v))%res.

(** What [error] does with the payload the codec is given. *)
Definition decoded_error (st : state) (payload : list Byte.byte) (fqn : string)
  : option (result (option pyval) * state) :=
  let replayed := asked (Call (_tx_params (self st))) st in
  match _process_revert_data (_chain (self st)) (_tx_hash (self st)) payload fqn with
  | Raise (TransactionRevertedError err) =>
      Some (Ok (Some err), updated (set_error (Some err)) replayed)
  | Raise e => Some (Raise e, replayed)
  | Ok _ => Some (Ok None, replayed)
  end.

(* ===================================================================== *)
(** ** Sample backends, codec and handles *)
(* ===================================================================== *)

Module Sample.

Definition tx_hash : string := "0xabc".

Definition tx_params : dict :=
  [("from", PyStr "0xf39f"); ("to", PyStr "0x5fbd"); ("data", PyStr "0x2e64cec1")].

Definition abi : dict := [("type", PyStr "function"); ("name", PyStr "retrieve")].

Definition fqn : string := "contracts/Storage.sol:Storage".

Definition tx_data : dict :=
  [("blockHash", PyStr "0x9b1f"); ("blockNumber", PyStr "0x10");
   ("type", PyStr "0x0"); ("gasPrice", PyStr "0x3b9aca00"); ("v", PyStr "0x1b")].

(** The raw data of a fee-market transaction. *)
Definition tx_data_eip1559 : dict :=
  [("blockHash", PyStr "0x9b1f"); ("type", PyStr "0x2"); ("v", PyStr "0x1")].

Definition receipt (flag : string) (address : pyval) (logs : list pyval) : dict :=
  [("status", PyStr flag); ("contractAddress", address); ("logs", PyList logs);
   ("gasUsed", PyStr "0x5208")].

Definition a_log : pyval :=
  PyDict [("topics", PyList [PyStr "0xddf2"]); ("data", PyStr "0x01")].

(** The data of the error the replayed call fails with: the [n]-th replay
    reverts with a different payload than the first, and the payload sits
    where the backend of class [c] puts it. *)
Definition revert_hex (n : nat) : pyval :=
  match n with
  | O => PyStr "0x08c379a0"
  | S _ => PyStr "0x4e487b71"
  end.

Definition error_data (c : dev_chain_class) (n : nat) : pyval :=
  match c with
  | HardhatDevChain =>
      PyDict [("message", PyStr "reverted");
              ("data", PyDict [("data", revert_hex n)])]
  | _ => PyDict [("message", PyStr "reverted"); ("data", revert_hex n)]
  end.

Definition call_trace : list dict :=
  [[("result", PyDict [("output", PyStr "0x002a")])]].

Definition debug_trace : dict := [("returnValue", PyStr "002a")].

(** A backend of class [c] on which the transaction is mined, with receipt
    [rc], once [mined_at] receipt requests have been answered with no
    receipt. *)
Definition node (c : dev_chain_class) (mined_at : nat) (rc : dict) : DevChain :=
  {| dev_class := c;
     get_transaction := fun _ _ => Ok (Some tx_data);
     get_transaction_receipt := fun hist _ =>
       if (count_events is_receipt_request hist <? mined_at)%nat
       then Ok None else Ok (Some rc);
     call := fun hist _ =>
       Raise (JsonRpcError (error_data c (count_events is_call hist)));
     trace_transaction := fun _ _ => Ok (Some call_trace);
     debug_trace_transaction := fun _ _ _ => Ok (Some debug_trace) |}.

(** A backend on which the transaction is never mined. *)
Definition stuck_node : DevChain :=
  {| dev_class := AnvilDevChain;
     get_transaction := fun _ _ => Ok (Some tx_data);
     get_transaction_receipt := fun _ _ => Ok None;
     call := fun _ _ => Ok PyNone;
     trace_transaction := fun _ _ => Ok None;
     debug_trace_transaction := fun _ _ _ => Ok None |}.

Definition bytes_val (bs : list Byte.byte) : pyval :=
  PyList (map (fun b => PyInt (Z.of_N (Byte.to_N b))) bs).

(** A codec: the revert decoder raises the error it decoded, as a value
    that shows the payload. *)
Definition chain_of (dc : DevChain) : ChainInterface :=
  {| dev_chain := dc;
     _process_console_logs := fun _ => Ok [];
     _process_events := fun _ logs _ =>
       match logs with PyList l => Ok l | _ => Raise TypeError end;
     _process_revert_data := fun _ payload _ =>
       Raise (TransactionRevertedError (bytes_val payload));
     _process_return_data := fun output _ _ => Ok (bytes_val output) |}.

Definition success_receipt : dict := receipt "0x1" PyNone [].

Definition failure_receipt : dict := receipt "0x0" PyNone [].

Definition created_receipt : dict := receipt "0x1" (PyStr "0x5fbd") [].

(** The receipt of a contract creation that reverted: the address the
    contract would have had, and a zero status flag. *)
Definition failed_creation_receipt : dict := receipt "0x0" (PyStr "0x5fbd") [].

Definition receipt_with_log : dict := receipt "0x1" (PyStr "0x5fbd") [a_log].

(** A fresh handle on such a chain. *)
Definition fresh (dc : DevChain) (recipient : option string) : state :=
  {| self := init tx_hash tx_params (Some abi) "Storage" recipient (chain_of dc);
     history := [] |}.

(** The same handle with receipt [rc] already cached. *)
Definition resolved (dc : DevChain) (recipient : option string) (rc : dict)
  : state :=
  updated (set_tx_receipt (Some rc)) (fresh dc recipient).

End Sample.

(* ===================================================================== *)
(** ** [wake.compiler.build_data_model]: hexadecimal byte fields *)
(* ===================================================================== *)

Module Hex.

(** One digit of [bytes.hex()], from ["0123456789abcdef"]. *)
Definition hex_char (n : N) : ascii :=
  match n with
  | 0 => "0" | 1 => "1" | 2 => "2" | 3 => "3" | 4 => "4" | 5 => "5"
  | 6 => "6" | 7 => "7" | 8 => "8" | 9 => "9" | 10 => "a" | 11 => "b"
  | 12 => "c" | 13 => "d" | 14 => "e" | _ => "f"
  end%N%char.

Definition byte_hex (b : Byte.byte) (rest : string) : string :=
  let n := Byte.to_N b in
  String (hex_char (n / 16)) (String (hex_char (n mod 16)) rest).

(** [b.hex()]: two lower-case digits for each byte. *)
Fixpoint bytes_hex (bs : list Byte.byte) : string :=
  match bs with
  | [] => EmptyString
  | b :: bs' => byte_hex b (bytes_hex bs')
  end.

(** ASCII [str.lower] on one character. *)
Definition lower (c : ascii) : ascii :=
  let n := N_of_ascii c in
  if ((65 <=? n) && (n <=? 90))%N then ascii_of_N (n + 32) else c.

(** [s] without its ASCII whitespace, in lower case. *)
Fixpoint canonical (s : string) : string :=
  match s with
  | EmptyString => EmptyString
  | String c s' =>
      if Py.isspace c then canonical s' else String (lower c) (canonical s')
  end.

End Hex.

Module BuildDataModel.

(** What a field of type [HexBytes] can be given ([val: Any]): a [bytes],
    a [bytearray], or anything else, of which a JSON value stands for the
    kind. *)
Inductive any : Type :=
  | Bytes (b : list Byte.byte)
  | Bytearray (b : list Byte.byte)
  | Other (v : pyval).

(** The outcome of a validator: the value, an exception of a built-in, or
    pydantic's [BytesError]. *)
Inductive validation (A : Type) : Type :=
  | Valid (a : A)
  | Raised (e : exn)
  | BytesError.
Arguments Valid {A} a.
Arguments Raised {A} e.
Arguments BytesError {A}.

Definition hex_bytes_validator (val : any) : validation (list Byte.byte) :=
  match val with
  | Bytes b => Valid b
  | Bytearray b => Valid b
  | Other (PyStr s) =>
      match Py.bytes_fromhex_str s with
      | Ok b => Valid b
      | Raise e => Raised e
      end
  | Other _ => BytesError
  end.

(** The serializer of [HexBytes]: [lambda b: b.hex()]. *)
Definition hex_bytes_serializer (b : list Byte.byte) : string := Hex.bytes_hex b.

End BuildDataModel.

(* ===================================================================== *)
(** ** Vocabulary for the accessors as a family *)
(* ===================================================================== *)

(** The accessors decorated with [_fetch_tx_data]. *)
Definition is_tx_data_accessor (a : accessor) : bool :=
  match a with
  | A_block_hash | A_block_number | A_from_ | A_to | A_gas | A_nonce
  | A_tx_index | A_value | A_r | A_s | A_v | A_gas_price | A_type => true
  | _ => false
  end.

(** The accessors decorated with [_fetch_tx_receipt]. *)
Definition is_receipt_accessor (a : accessor) : bool :=
  match a with
  | A_gas_used | A_cumulative_gas_used | A_console_logs | A_events
  | A_raw_events | A_error | A_return_value => true
  | _ => false
  end.

(** The accessors that return [int(field, 16)], and the key of the field:
    in the raw transaction data for the first nine, in the receipt for the
    last two. *)
Definition int_field (a : accessor) : option string :=
  match a with
  | A_block_number => Some "blockNumber"
  | A_gas => Some "gas"
  | A_nonce => Some "nonce"
  | A_tx_index => Some "transactionIndex"
  | A_value => Some "value"
  | A_r => Some "r"
  | A_s => Some "s"
  | A_v => Some "v"
  | A_gas_price => Some "gasPrice"
  | A_gas_used => Some "gasUsed"
  | A_cumulative_gas_used => Some "cumulativeGasUsed"
  | _ => None
  end.

(** A read whose answer stays: everything but a PENDING status, and but
    the missing error of a transaction that did not succeed. *)
Definition settled (a : accessor) (v : observed) (h : TransactionAbc) : Prop :=
  match a, v with
  | A_status, ObsStatus PENDING => False
  | A_error, ObsError None =>
      Transaction.status_of_receipt (_tx_receipt h) = Ok SUCCESS
  | _, _ => True
  end.

(** [after_reads st st']: [st'] comes from [st] by reads of accessors. *)
Inductive after_reads : state -> state -> Prop :=
  | after_no_read st : after_reads st st
  | after_one_more st st1 a fuel out st2 :
      after_reads st st1 -> read a fuel st1 = Some (out, st2) ->
      after_reads st st2.

(** [m] always comes back: it does not go through the polling loop. *)
Definition total {A} (m : M A) : Prop := forall st, m st <> None.

(** [int(d[k], 16)] as an accessor hands it back. *)
Definition parsed_field (d : dict) (k : string) : result observed :=
  match Py.dict_get d k with
  | None => Raise (KeyError k)
  | Some x =>
      match Py.int16 x with
      | Ok z => Ok (ObsInt z)
      | Raise e => Raise e
      end
  end.

(** A hexadecimal string as a node writes bytes, with or without [0x]. *)
Definition hex_str (prefixed : bool) (b : list Byte.byte) : pyval :=
  PyStr (if prefixed then String "0" (String "x" (Hex.bytes_hex b))
         else Hex.bytes_hex b).

Definition encodes_bytes (x : pyval) (b : list Byte.byte) : Prop :=
  exists prefixed, x = hex_str prefixed b.

(** A log entry of a receipt that spells the topics and the data of [e],
    whatever else it carries. *)
Definition encodes_event (log : pyval) (e : UnknownEvent) : Prop :=
  exists d ts x,
    log = PyDict d
    /\ Py.dict_get d "topics" = Some (PyList ts)
    /\ Forall2 encodes_bytes ts (topics e)
    /\ Py.dict_get d "data" = Some x
    /\ encodes_bytes x (data e).

(* ===================================================================== *)
(** ** What the backend's answers bring to the slots *)
(* ===================================================================== *)

(** What a slot holds. *)
Inductive content : Type :=
  | RawData (d : dict)
  | ReceiptData (rc : dict)
  | TraceData (trace : list dict)
  | DebugTraceData (trace : dict)
  | RevertError (err : pyval)
  | EventList (evs : list pyval).

Definition held (sl : slot) (h : TransactionAbc) : option content :=
  match sl with
  | TxData => option_map RawData (_tx_data h)
  | Receipt => option_map ReceiptData (_tx_receipt h)
  | Trace => option_map TraceData (_trace_transaction h)
  | DebugTrace => option_map DebugTraceData (_debug_trace_transaction h)
  | DecodedError => option_map RevertError (_error h)
  | DecodedEvents => option_map EventList (_events h)
  end.

(** The revert error that the answer of the backend to the replayed call
    carries for handle [h]: the call failed with a JSON-RPC error, the
    payload is where the backend class puts it, the handle has a recipient,
    and the codec, given the payload bytes, raises the error. *)
Definition replayed_error (h : TransactionAbc) (answer : result pyval)
  : option pyval :=
  match answer with
  | Raise (JsonRpcError e_data) =>
      match Transaction.revert_data_of (dev_class (dev_chain (_chain h))) e_data,
            _recipient_fqn h with
      | Ok revert_data, Some fqn =>
          match (payload <~ Py.bytes_fromhex revert_data ;
                 _process_revert_data (_chain h) (_tx_hash h) payload fqn)%res with
          | Raise (TransactionRevertedError err) => Some err
          | _ => None
          end
      | _, _ => None
      end
  | _ => None
  end.

(** The data that the backend's answer to the request [ev], made after
    [hist], brings: a transaction, receipt or trace that is not null, or
    the revert error of a replayed call.  A null answer, an exception, a
    sleep bring nothing. *)
Definition brought (h : TransactionAbc) (hist : list event) (ev : event)
  : option content :=
  match ev with
  | GetTransaction x =>
      match get_transaction (dev_chain (_chain h)) hist x with
      | Ok (Some d) => Some (RawData d)
      | _ => None
      end
  | GetTransactionReceipt x =>
      match get_transaction_receipt (dev_chain (_chain h)) hist x with
      | Ok (Some rc) => Some (ReceiptData rc)
      | _ => None
      end
  | TraceTransaction x =>
      match trace_transaction (dev_chain (_chain h)) hist x with
      | Ok (Some trace) => Some (TraceData trace)
      | _ => None
      end
  | DebugTraceTransaction x options =>
      match debug_trace_transaction (dev_chain (_chain h)) hist x options with
      | Ok (Some trace) => Some (DebugTraceData trace)
      | _ => None
      end
  | Call params =>
      option_map RevertError
        (replayed_error h (call (dev_chain (_chain h)) hist params))
  | Sleep _ => None
  end.

(** [answers_stored st st']: of the requests made since [st], each one
    whose answer brought data for a slot left that data in the slot, and
    was the last request for the slot. *)
Definition answers_stored (st st' : state) : Prop :=
  forall sl post ev pre x,
    history st' = (post ++ ev :: pre ++ history st)%list ->
    fetches sl ev = true ->
    brought (self st) (pre ++ history st) ev = Some x ->
    held sl (self st') = Some x
    /\ Forall (fun ev' => fetches sl ev' = false) post.

(** [answers_only st st']: what a slot other than the event list holds in
    [st'], it held in [st] or the answer to a request made since brought
    it. *)
Definition answers_only (st st' : state) : Prop :=
  forall sl x,
    sl <> DecodedEvents ->
    held sl (self st') = Some x ->
    held sl (self st) = Some x
    \/ exists post ev pre,
         history st' = (post ++ ev :: pre ++ history st)%list
         /\ fetches sl ev = true
         /\ brought (self st) (pre ++ history st) ev = Some x.

(** [st'] comes from [st] by moves that store the answers, and nothing
    else. *)
Definition orderly (st st' : state) : Prop :=
  moves st st' /\ answers_stored st st' /\ answers_only st st'.

Definition orderly_at {A} (st : state) (m : M A) : Prop :=
  forall out st', m st = Some (out, st') -> orderly st st'.

(** More sample data. *)
Module Fixture.

(** A backend whose connection breaks once [fails_at] polls have been
    answered with no receipt. *)
Definition flaky_node (fails_at : nat) : DevChain :=
  {| dev_class := GanacheDevChain;
     get_transaction := fun _ _ => Raise (TransportError "connection reset");
     get_transaction_receipt := fun hist _ =>
       if (count_events is_receipt_request hist <? fails_at)%nat
       then Ok None else Raise (TransportError "connection reset");
     call := fun _ _ => Raise (TransportError "connection reset");
     trace_transaction := fun _ _ => Raise (TransportError "connection reset");
     debug_trace_transaction := fun _ _ _ =>
       Raise (TransportError "connection reset") |}.

(** A receipt from before the status flag existed: a state root instead. *)
Definition receipt_with_root : dict :=
  [("root", PyStr "0x2f0e"); ("gasUsed", PyStr "0x5208"); ("logs", PyList [])].

(** The raw data of a transaction that is not mined yet: no block. *)
Definition pending_tx_data : dict :=
  [("blockHash", PyNone); ("blockNumber", PyNone); ("nonce", PyStr "0x7");
   ("gas", PyStr "0x5208"); ("type", PyStr "0x0")].

Definition receipt_without_logs : dict :=
  [("status", PyStr "0x1"); ("gasUsed", PyStr "0x5208")].

(** A handle created without ABI, its receipt cached. *)
Definition without_abi : state :=
  updated (set_tx_receipt (Some Sample.success_receipt))
    {| self := init Sample.tx_hash Sample.tx_params None "Storage"
                 (Some Sample.fqn) (Sample.chain_of Sample.stuck_node);
       history := [] |}.

(** A debug trace whose return value carries the prefix. *)
Definition prefixed_debug_trace : dict := [("returnValue", PyStr "0x002a")].

(** A backend that does not know the transaction: its data is null. *)
Definition forgetful_node : DevChain :=
  {| dev_class := GanacheDevChain;
     get_transaction := fun _ _ => Ok None;
     get_transaction_receipt := fun _ _ => Ok None;
     call := fun _ _ => Ok PyNone;
     trace_transaction := fun _ _ => Ok None;
     debug_trace_transaction := fun _ _ _ => Ok None |}.

(** The handle of a contract creation that reverted, its receipt cached:
    no recipient. *)
Definition failed_creation : state :=
  Sample.resolved (Sample.node AnvilDevChain 0 Sample.failed_creation_receipt)
    None Sample.failed_creation_receipt.

(** A fresh handle of a failed transaction after five reads: the block
    number twice, the error twice, the status. *)
Definition read_five_times : state :=
  updated
    (set_error (Some (PyList [PyInt 8; PyInt 195; PyInt 121; PyInt 160])))
    (asked (Call Sample.tx_params)
       (receipt_stored Sample.failure_receipt
          (updated (set_tx_data (Some Sample.tx_data))
             (asked (GetTransaction Sample.tx_hash)
                (Sample.fresh
                   (Sample.node AnvilDevChain 0 Sample.failure_receipt)
                   (Some Sample.fqn)))))).

End Fixture.

(* ===================================================================== *)
(** ** The built-ins on a few inputs *)
(* ===================================================================== *)

Example int16_0x1 : Py.int16 (PyStr "0x1") = Ok 1.
Proof. reflexivity. Qed.
Example int16_0x0 : Py.int16 (PyStr "0x0") = Ok 0.
Proof. reflexivity. Qed.
Example int16_ff : Py.int16 (PyStr " -0X_fF ") = Ok (-255).
Proof. reflexivity. Qed.
Example int16_bad : Py.int16 (PyStr "0x") = Raise ValueError.
Proof. reflexivity. Qed.
Example int16_bad2 : Py.int16 (PyStr "1__2") = Raise ValueError.
Proof. reflexivity. Qed.
Example int16_int : Py.int16 (PyInt 1) = Raise TypeError.
Proof. reflexivity. Qed.
Example fromhex_ok :
  Py.bytes_fromhex (PyStr "08c3 79a0") = Ok [Byte.x08; Byte.xc3; Byte.x79; Byte.xa0].
Proof. reflexivity. Qed.
Example fromhex_odd : Py.bytes_fromhex (PyStr "08c") = Raise ValueError.
Proof. reflexivity. Qed.
Example int16_underscore : Py.int16 (PyStr "0x_1f") = Ok 31.
Proof. reflexivity. Qed.
Example int16_leading_underscore : Py.int16 (PyStr "_1") = Raise ValueError.
Proof. reflexivity. Qed.
Example int16_sign_space : Py.int16 (PyStr "- 1") = Raise ValueError.
Proof. reflexivity. Qed.
Example int16_empty : Py.int16 (PyStr "") = Raise ValueError.
Proof. reflexivity. Qed.
Example int16_inner_space : Py.int16 (PyStr "1 2") = Raise ValueError.
Proof. reflexivity. Qed.
Example fromhex_split_pair : Py.bytes_fromhex (PyStr "0 8") = Raise ValueError.
Proof. reflexivity. Qed.
Example fromhex_prefix : Py.bytes_fromhex (PyStr "0x08") = Raise ValueError.
Proof. reflexivity. Qed.

(* ===================================================================== *)
(** ** Running accessors: the equations the proofs rewrite with *)
(* ===================================================================== *)

Ltac run_m :=
  unfold bind, ret, raise, lift, get_self, update_self, request, sleep,
    try_except, assert, still_running, fmap_M in *.

Arguments Transaction.wait_checks : simpl never.
Arguments Transaction.wait_poll : simpl never.

Lemma status_cached (st : state) (rc : dict) :
  _tx_receipt (self st) = Some rc ->
  Transaction.status st = Some (Transaction.status_of_receipt (Some rc), st).
Proof.
  intros Hrc. unfold Transaction.status. run_m. rewrite Hrc. reflexivity.
Qed.

Lemma status_uncached (st : state) :
  _tx_receipt (self st) = None ->
  Transaction.status st =
    match receipt_answer st with
    | Ok None => Some (Ok PENDING, asked (GetTransactionReceipt (_tx_hash (self st))) st)
    | Ok (Some rc) =>
        Some (Transaction.status_of_receipt (Some rc), receipt_stored rc st)
    | Raise e => Some (Raise e, asked (GetTransactionReceipt (_tx_hash (self st))) st)
    end.
Proof.
  intros Hrc.
  unfold Transaction.status, Transaction.dev_get_transaction_receipt, receipt_answer.
  run_m. rewrite Hrc.
  destruct (get_transaction_receipt _ _ _) as [[rc|]|e]; reflexivity.
Qed.

Lemma status_of_receipt_flag (rc : dict) (flag : pyval) (z : Z) :
  Py.dict_get rc "status" = Some flag ->
  Py.int16 flag = Ok z ->
  Transaction.status_of_receipt (Some rc) = Ok (if z =? 0 then FAILURE else SUCCESS).
Proof.
  intros Hflag Hz.
  unfold Transaction.status_of_receipt, Py.slot_getitem, Py.dict_getitem.
  rewrite Hflag. simpl. rewrite Hz. simpl. destruct (z =? 0); reflexivity.
Qed.

Lemma status_of_receipt_not_pending (rc : option dict) :
  Transaction.status_of_receipt rc <> Ok PENDING.
Proof.
  unfold Transaction.status_of_receipt.
  destruct (Py.slot_getitem rc "status") as [flag|]; simpl; [|discriminate].
  destruct (Py.int16 flag) as [z|]; simpl; [|discriminate].
  destruct (z =? 0); discriminate.
Qed.

(** A status other than PENDING is read off a receipt that is cached from
    then on. *)
Lemma status_settles (st st1 : state) (s : TransactionStatusEnum) :
  Transaction.status st = Some (Ok s, st1) ->
  s <> PENDING ->
  exists rc, _tx_receipt (self st1) = Some rc
             /\ Transaction.status_of_receipt (Some rc) = Ok s.
Proof.
  intros Hrun Hs.
  destruct (_tx_receipt (self st)) as [rc|] eqn:Hrc.
  - rewrite (status_cached st rc Hrc) in Hrun. inversion Hrun; subst. eauto.
  - rewrite (status_uncached st Hrc) in Hrun.
    destruct (receipt_answer st) as [[rc|]|e]; inversion Hrun; subst.
    + exists rc. split; [reflexivity | congruence].
    + congruence.
Qed.

Lemma status_pending (st st1 : state) :
  Transaction.status st = Some (Ok PENDING, st1) ->
  _tx_receipt (self st) = None
  /\ receipt_answer st = Ok None
  /\ st1 = asked (GetTransactionReceipt (_tx_hash (self st))) st.
Proof.
  intros Hrun.
  destruct (_tx_receipt (self st)) as [rc|] eqn:Hrc.
  - rewrite (status_cached st rc Hrc) in Hrun. inversion Hrun; subst.
    exfalso. eapply status_of_receipt_not_pending; eauto.
  - rewrite (status_uncached st Hrc) in Hrun.
    destruct (receipt_answer st) as [[rc|]|e]; inversion Hrun; subst; auto.
    exfalso. eapply status_of_receipt_not_pending; eauto.
Qed.

Lemma wait_checks_S (n : nat) :
  Transaction.wait_checks (S n) =
    (st <- Transaction.status ;;
     if negb (status_eqb st PENDING) then ret true else Transaction.wait_checks n).
Proof. reflexivity. Qed.

Lemma wait_poll_S (fuel : nat) :
  Transaction.wait_poll (S fuel) =
    (st <- Transaction.status ;;
     if status_eqb st PENDING then sleep 250 ;; Transaction.wait_poll fuel
     else ret tt).
Proof. reflexivity. Qed.

(** [wait] returns at its first check when the status is not PENDING. *)
Lemma wait_returns_at_once (fuel : nat) (st st1 : state) (s : TransactionStatusEnum) :
  Transaction.status st = Some (Ok s, st1) ->
  s <> PENDING ->
  Transaction.wait fuel st = Some (Ok tt, st1).
Proof.
  intros Hrun Hs. unfold Transaction.wait.
  change 40%nat with (S 39). rewrite wait_checks_S.
  unfold bind at 1 2. rewrite Hrun.
  destruct s; try congruence; reflexivity.
Qed.

Lemma fetch_receipt_cached {A} (fuel : nat) (f : M A) (st : state) (rc : dict) :
  _tx_receipt (self st) = Some rc ->
  Transaction._fetch_tx_receipt fuel f st = f st.
Proof.
  intros Hrc. unfold Transaction._fetch_tx_receipt. run_m. rewrite Hrc. simpl.
  rewrite Hrc. simpl. reflexivity.
Qed.

(** Through the decorator, a handle whose status has just been read as
    settled goes straight to the body. *)
Lemma fetch_receipt_settled {A} (fuel : nat) (f : M A) (st st1 : state)
    (s : TransactionStatusEnum) :
  Transaction.status st = Some (Ok s, st1) ->
  s <> PENDING ->
  Transaction._fetch_tx_receipt fuel f st = f st1.
Proof.
  intros Hrun Hs.
  destruct (status_settles st st1 s Hrun Hs) as (rc & Hrc1 & _).
  destruct (_tx_receipt (self st)) as [rc0|] eqn:Hrc.
  - rewrite (status_cached st rc0 Hrc) in Hrun. inversion Hrun; subst.
    eapply fetch_receipt_cached; eauto.
  - unfold Transaction._fetch_tx_receipt. unfold bind at 1 2. unfold get_self at 1.
    rewrite Hrc. rewrite (wait_returns_at_once fuel st st1 s Hrun Hs).
    run_m. rewrite Hrc1. reflexivity.
Qed.

Lemma error_of_success (fuel : nat) (st : state) (rc : dict) :
  _tx_receipt (self st) = Some rc ->
  Transaction.status_of_receipt (Some rc) = Ok SUCCESS ->
  Transaction.error fuel st = Some (Ok None, st).
Proof.
  intros Hrc Hs. unfold Transaction.error.
  rewrite (fetch_receipt_cached fuel _ st rc Hrc).
  unfold bind at 1. rewrite (status_cached st rc Hrc), Hs. reflexivity.
Qed.

(** What [error] does on a cached FAILURE receipt. *)
Lemma error_of_failure (fuel : nat) (st : state) (rc : dict) :
  _tx_receipt (self st) = Some rc ->
  Transaction.status_of_receipt (Some rc) = Ok FAILURE ->
  Transaction.error fuel st =
    match _error (self st) with
    | Some err => Some (Ok (Some err), st)
    | None => (revert_data <- Transaction.replay ;;
               Transaction.decode_revert revert_data) st
    end.
Proof.
  intros Hrc Hs. unfold Transaction.error.
  rewrite (fetch_receipt_cached fuel _ st rc Hrc).
  unfold bind at 1. rewrite (status_cached st rc Hrc), Hs.
  unfold bind at 1, get_self at 1. simpl.
  destruct (_error (self st)); reflexivity.
Qed.

(** The replay only adds the call to the history. *)
Lemma replay_state (st st1 : state) (out : result pyval) :
  Transaction.replay st = Some (out, st1) ->
  st1 = asked (Call (_tx_params (self st))) st.
Proof.
  unfold Transaction.replay, Transaction.dev_call. run_m. intros Hrun.
  repeat case_match; simplify_eq; reflexivity.
Qed.

Lemma replay_total (st : state) : Transaction.replay st <> None.
Proof.
  unfold Transaction.replay, Transaction.dev_call. run_m.
  repeat case_match; simplify_eq; discriminate.
Qed.

(** The decoder leaves the state alone unless it caches the error it
    returns. *)
Lemma decode_revert_state (revert_data : pyval) (st st1 : state)
    (out : result (option pyval)) :
  Transaction.decode_revert revert_data st = Some (out, st1) ->
  match out with
  | Ok (Some err) => st1 = updated (set_error (Some err)) st
  | _ => st1 = st
  end.
Proof.
  unfold Transaction.decode_revert. run_m. intros Hrun.
  repeat case_match; simplify_eq; try reflexivity.
  all: destruct st; reflexivity.
Qed.

Lemma decode_revert_total (revert_data : pyval) (st : state) :
  Transaction.decode_revert revert_data st <> None.
Proof.
  unfold Transaction.decode_revert. run_m.
  repeat case_match; simplify_eq; discriminate.
Qed.

(** On a cached FAILURE receipt [error] always comes back, and an error it
    returns sits in the slot afterwards, next to the same receipt. *)
Lemma error_of_failure_total (fuel : nat) (st : state) (rc : dict) :
  _tx_receipt (self st) = Some rc ->
  Transaction.status_of_receipt (Some rc) = Ok FAILURE ->
  Transaction.error fuel st <> None.
Proof.
  intros Hrc Hs. rewrite (error_of_failure fuel st rc Hrc Hs).
  destruct (_error (self st)); [discriminate|].
  unfold bind. destruct (Transaction.replay st) as [[[rd|e] st1]|] eqn:Hr.
  - apply decode_revert_total.
  - discriminate.
  - exfalso. eapply replay_total; eauto.
Qed.

Lemma error_of_failure_cached (fuel : nat) (st st1 : state) (rc : dict) (err : pyval) :
  _tx_receipt (self st) = Some rc ->
  Transaction.status_of_receipt (Some rc) = Ok FAILURE ->
  Transaction.error fuel st = Some (Ok (Some err), st1) ->
  _error (self st1) = Some err /\ _tx_receipt (self st1) = Some rc.
Proof.
  intros Hrc Hs Hrun. rewrite (error_of_failure fuel st rc Hrc Hs) in Hrun.
  destruct (_error (self st)) as [err0|] eqn:He.
  - inversion Hrun; subst. auto.
  - unfold bind in Hrun.
    destruct (Transaction.replay st) as [[[rd|e] st2]|] eqn:Hr; try discriminate.
    apply replay_state in Hr. apply decode_revert_state in Hrun. subst. simpl. auto.
Qed.

(* ===================================================================== *)
(** ** The status accessor *)
(* ===================================================================== *)

(** C1. The status is read off the receipt alone.  With an empty receipt
    slot the backend is asked once: no receipt gives PENDING and leaves the
    handle as it was, so the slot stays empty; a receipt is stored and its
    flag decides.  With a cached receipt nothing is asked.  In both cases a
    flag that parses to zero gives FAILURE and any other parsed flag gives
    SUCCESS.  Whatever [status] does, a PENDING result leaves the handle
    unchanged, and a receipt found in the slot afterwards either was there
    before or is the non-null receipt the backend returned. *)
Theorem status_derived_from_receipt (st : state) :
  let h := self st in
  let req := GetTransactionReceipt (_tx_hash h) in
  (_tx_receipt h = None -> receipt_answer st = Ok None ->
     Transaction.status st = Some (Ok PENDING, asked req st)
     /\ _tx_receipt (self (asked req st)) = None)
  /\ (forall rc flag z,
        _tx_receipt h = None -> receipt_answer st = Ok (Some rc) ->
        Py.dict_get rc "status" = Some flag -> Py.int16 flag = Ok z ->
        Transaction.status st =
          Some (Ok (if z =? 0 then FAILURE else SUCCESS), receipt_stored rc st))
  /\ (forall rc flag z,
        _tx_receipt h = Some rc ->
        Py.dict_get rc "status" = Some flag -> Py.int16 flag = Ok z ->
        Transaction.status st =
          Some (Ok (if z =? 0 then FAILURE else SUCCESS), st))
  /\ (forall out st',
        Transaction.status st = Some (out, st') ->
        (out = Ok PENDING -> self st' = h /\ _tx_receipt h = None)
        /\ (forall rc, _tx_receipt (self st') = Some rc ->
              _tx_receipt h = Some rc \/
              (_tx_receipt h = None /\ receipt_answer st = Ok (Some rc)))).
Proof.
  intros h req. subst h req.
  split; [|split; [|split]].
  - intros Hnone Hans. split; [|exact Hnone].
    rewrite status_uncached by assumption. rewrite Hans. reflexivity.
  - intros rc flag z Hnone Hans Hflag Hz.
    rewrite status_uncached by assumption. rewrite Hans.
    rewrite (status_of_receipt_flag rc flag z) by assumption. reflexivity.
  - intros rc flag z Hsome Hflag Hz.
    rewrite (status_cached st rc) by assumption.
    rewrite (status_of_receipt_flag rc flag z) by assumption. reflexivity.
  - intros out st' Hrun.
    destruct (_tx_receipt (self st)) as [rc0|] eqn:Hrc.
    + rewrite (status_cached st rc0) in Hrun by assumption.
      inversion Hrun; subst. split.
      * intros Hp. exfalso. eapply status_of_receipt_not_pending; eauto.
      * intros rc Hafter. left. congruence.
    + rewrite status_uncached in Hrun by assumption.
      destruct (receipt_answer st) as [[rc1|]|e]; inversion Hrun; subst; split.
      * intros Hp. exfalso. eapply status_of_receipt_not_pending; eauto.
      * intros rc Hafter. right. simpl in Hafter. split; congruence.
      * intros _. split; reflexivity.
      * intros rc Hafter. simpl in Hafter. congruence.
      * intros Hp. discriminate.
      * intros rc Hafter. simpl in Hafter. congruence.
Qed.

(** The four parts of C1 on sample handles: a transaction that is not
    mined, one mined with flag [0x1] seen for the first time, one with a
    cached receipt of flag [0x0], and the handle left by a PENDING read. *)
Lemma status_derived_from_receipt_witness :
  Transaction.status (Sample.fresh Sample.stuck_node (Some Sample.fqn))
    = Some (Ok PENDING,
            asked (GetTransactionReceipt Sample.tx_hash)
              (Sample.fresh Sample.stuck_node (Some Sample.fqn)))
  /\ Transaction.status
       (Sample.fresh (Sample.node AnvilDevChain 0 Sample.success_receipt)
          (Some Sample.fqn))
     = Some (Ok SUCCESS,
             receipt_stored Sample.success_receipt
               (Sample.fresh (Sample.node AnvilDevChain 0 Sample.success_receipt)
                  (Some Sample.fqn)))
  /\ Transaction.status
       (Sample.resolved Sample.stuck_node (Some Sample.fqn) Sample.failure_receipt)
     = Some (Ok FAILURE,
             Sample.resolved Sample.stuck_node (Some Sample.fqn)
               Sample.failure_receipt)
  /\ _tx_receipt
       (self (asked (GetTransactionReceipt Sample.tx_hash)
                (Sample.fresh Sample.stuck_node (Some Sample.fqn)))) = None.
Proof.
  split; [|split; [|split]].
  - apply (status_derived_from_receipt
             (Sample.fresh Sample.stuck_node (Some Sample.fqn))); reflexivity.
  - apply (proj1 (proj2 (status_derived_from_receipt
             (Sample.fresh (Sample.node AnvilDevChain 0 Sample.success_receipt)
                (Some Sample.fqn))))
             Sample.success_receipt (PyStr "0x1") 1); reflexivity.
  - apply (proj1 (proj2 (proj2 (status_derived_from_receipt
             (Sample.resolved Sample.stuck_node (Some Sample.fqn)
                Sample.failure_receipt))))
             Sample.failure_receipt (PyStr "0x0") 0); reflexivity.
  - apply (proj2 (proj2 (proj2 (status_derived_from_receipt
             (Sample.fresh Sample.stuck_node (Some Sample.fqn)))))
             (Ok PENDING)
             (asked (GetTransactionReceipt Sample.tx_hash)
                (Sample.fresh Sample.stuck_node (Some Sample.fqn))));
      reflexivity.
Defined.

(* ===================================================================== *)
(** ** The error accessor and the return value of a failed transaction *)
(* ===================================================================== *)

(** C10. Once the status of a handle has been read as SUCCESS, the error
    accessor returns [None] and leaves the state as it is: nothing is asked
    of the backend, in particular the call is not replayed.  Read on the
    handle as it was before the status was known, it returns [None] too,
    and the only request made is the one for the receipt. *)
Theorem error_none_on_success (fuel : nat) (st st1 : state) :
  Transaction.status st = Some (Ok SUCCESS, st1) ->
  Transaction.error fuel st1 = Some (Ok None, st1)
  /\ Transaction.error fuel st = Some (Ok None, st1)
  /\ count_events is_call (history st1) = count_events is_call (history st).
Proof.
  intros Hrun.
  destruct (status_settles st st1 SUCCESS Hrun) as (rc & Hrc & Hs); [discriminate|].
  assert (Herr : Transaction.error fuel st1 = Some (Ok None, st1))
    by (eapply error_of_success; eauto).
  split; [exact Herr|]. split.
  - unfold Transaction.error in *.
    rewrite (fetch_receipt_settled fuel _ st st1 SUCCESS Hrun) by discriminate.
    rewrite (fetch_receipt_cached fuel _ st1 rc Hrc) in Herr. exact Herr.
  - destruct (_tx_receipt (self st)) as [rc0|] eqn:Hrc0.
    + rewrite (status_cached st rc0 Hrc0) in Hrun. inversion Hrun; subst. reflexivity.
    + rewrite (status_uncached st Hrc0) in Hrun.
      destruct (receipt_answer st) as [[rc1|]|e]; inversion Hrun; subst; reflexivity.
Qed.

Lemma error_none_on_success_witness :
  Transaction.error 0
    (receipt_stored Sample.success_receipt
       (Sample.fresh (Sample.node HardhatDevChain 0 Sample.success_receipt)
          (Some Sample.fqn)))
  = Some (Ok None,
          receipt_stored Sample.success_receipt
            (Sample.fresh (Sample.node HardhatDevChain 0 Sample.success_receipt)
               (Some Sample.fqn))).
Proof.
  apply (error_none_on_success 0
           (Sample.fresh (Sample.node HardhatDevChain 0 Sample.success_receipt)
              (Some Sample.fqn))).
  reflexivity.
Defined.

Lemma return_value_of_failure (fuel : nat) (st : state) (rc : dict) :
  _tx_receipt (self st) = Some rc ->
  Transaction.status_of_receipt (Some rc) = Ok FAILURE ->
  Transaction.return_value fuel st =
    match Transaction.error fuel st with
    | Some (Ok (Some err), st2) => Some (Raise (TransactionRevertedError err), st2)
    | Some (Ok None, st2) => Some (Raise (AssertionError ""), st2)
    | Some (Raise e, st2) => Some (Raise e, st2)
    | None => None
    end.
Proof.
  intros Hrc Hs. unfold Transaction.return_value.
  rewrite (fetch_receipt_cached fuel _ st rc Hrc).
  unfold bind at 1. rewrite (status_cached st rc Hrc), Hs. simpl.
  unfold bind. destruct (Transaction.error fuel st) as [[[[err|]|e] st2]|]; reflexivity.
Qed.

(** On a cached FAILURE receipt with an empty error slot: the handle has a
    recipient, the replay fails with a JSON-RPC error, the payload is read
    and the codec raises the revert error; [error] returns and caches it. *)
Lemma error_of_failure_decodes (fuel : nat) (st : state) (rc : dict)
    (fqn : string) (e_data revert_data : pyval) (payload : list Byte.byte)
    (err : pyval) :
  _tx_receipt (self st) = Some rc ->
  Transaction.status_of_receipt (Some rc) = Ok FAILURE ->
  _error (self st) = None ->
  _recipient_fqn (self st) = Some fqn ->
  call (dev_chain (_chain (self st))) (history st) (_tx_params (self st))
    = Raise (JsonRpcError e_data) ->
  Transaction.revert_data_of (dev_class (dev_chain (_chain (self st)))) e_data
    = Ok revert_data ->
  Py.bytes_fromhex revert_data = Ok payload ->
  _process_revert_data (_chain (self st)) (_tx_hash (self st)) payload fqn
    = Raise (TransactionRevertedError err) ->
  Transaction.error fuel st
    = Some (Ok (Some err),
            updated (set_error (Some err))
              (asked (Call (_tx_params (self st))) st)).
Proof.
  intros Hrc Hs He Hfqn Hcall Hrd Hpayload Hcodec.
  rewrite (error_of_failure fuel st rc Hrc Hs), He.
  unfold Transaction.replay, Transaction.decode_revert, Transaction.dev_call.
  run_m. simpl. rewrite Hcall. simpl. rewrite Hrd. simpl.
  rewrite Hfqn, Hpayload. simpl. rewrite Hcodec. reflexivity.
Qed.

(** C3. Once the status of a handle has been read as FAILURE, reading the
    return value never gives a value.  It raises what the error accessor
    gives: the decoded error when the accessor returns one, the exception
    the accessor raises otherwise (an assertion failure when it returns
    [None]).  The decoded error it raises is cached: read afterwards, the
    error accessor returns that same error without asking the backend
    again, and the return value raises it again.  The same holds when the
    return value is read on the handle as it was before the status was
    known.  The accessor returns a decoded error when the slot holds one,
    and, with an empty slot, when the handle has a recipient and the
    replayed call fails with a JSON-RPC error whose payload, read where
    the backend class puts it, the codec turns into a revert error: that
    error is raised, after one call, and cached. *)
Theorem return_value_of_failure_raises_error (fuel : nat) (st st1 : state) :
  Transaction.status st = Some (Ok FAILURE, st1) ->
  (forall v st2, Transaction.return_value fuel st1 <> Some (Ok v, st2))
  /\ Transaction.return_value fuel st1 =
       match Transaction.error fuel st1 with
       | Some (Ok (Some err), st2) =>
           Some (Raise (TransactionRevertedError err), st2)
       | Some (Ok None, st2) => Some (Raise (AssertionError ""), st2)
       | Some (Raise e, st2) => Some (Raise e, st2)
       | None => None
       end
  /\ Transaction.error fuel st1 <> None
  /\ (forall err st2,
        Transaction.error fuel st1 = Some (Ok (Some err), st2) ->
        Transaction.return_value fuel st1
          = Some (Raise (TransactionRevertedError err), st2)
        /\ Transaction.error fuel st2 = Some (Ok (Some err), st2)
        /\ Transaction.return_value fuel st2
          = Some (Raise (TransactionRevertedError err), st2))
  /\ Transaction.return_value fuel st = Transaction.return_value fuel st1
  /\ (forall err,
        _error (self st1) = Some err ->
        Transaction.return_value fuel st1
          = Some (Raise (TransactionRevertedError err), st1))
  /\ (forall fqn e_data revert_data payload err,
        _error (self st1) = None ->
        _recipient_fqn (self st1) = Some fqn ->
        call (dev_chain (_chain (self st1))) (history st1) (_tx_params (self st1))
          = Raise (JsonRpcError e_data) ->
        Transaction.revert_data_of
          (dev_class (dev_chain (_chain (self st1)))) e_data = Ok revert_data ->
        Py.bytes_fromhex revert_data = Ok payload ->
        _process_revert_data (_chain (self st1)) (_tx_hash (self st1)) payload fqn
          = Raise (TransactionRevertedError err) ->
        Transaction.return_value fuel st1
          = Some (Raise (TransactionRevertedError err),
                  updated (set_error (Some err))
                    (asked (Call (_tx_params (self st1))) st1))).
Proof.
  intros Hrun.
  destruct (status_settles st st1 FAILURE Hrun) as (rc & Hrc & Hs); [discriminate|].
  pose proof (return_value_of_failure fuel st1 rc Hrc Hs) as Hrv.
  split; [|split; [exact Hrv|split; [|split; [|split; [|split]]]]].
  - intros v st2. rewrite Hrv.
    destruct (Transaction.error fuel st1) as [[[[err|]|e] st3]|]; discriminate.
  - eapply error_of_failure_total; eauto.
  - intros err st2 Herr.
    destruct (error_of_failure_cached fuel st1 st2 rc err Hrc Hs Herr) as (He2 & Hrc2).
    assert (Herr2 : Transaction.error fuel st2 = Some (Ok (Some err), st2)).
    { rewrite (error_of_failure fuel st2 rc Hrc2 Hs), He2. reflexivity. }
    split; [|split].
    + rewrite Hrv, Herr. reflexivity.
    + exact Herr2.
    + rewrite (return_value_of_failure fuel st2 rc Hrc2 Hs), Herr2. reflexivity.
  - unfold Transaction.return_value.
    rewrite (fetch_receipt_settled fuel _ st st1 FAILURE Hrun) by discriminate.
    rewrite (fetch_receipt_cached fuel _ st1 rc Hrc). reflexivity.
  - intros err He. rewrite Hrv, (error_of_failure fuel st1 rc Hrc Hs), He.
    reflexivity.
  - intros fqn e_data revert_data payload err He Hfqn Hcall Hrd Hpayload Hcodec.
    rewrite Hrv.
    rewrite (error_of_failure_decodes fuel st1 rc fqn e_data revert_data payload
               err Hrc Hs He Hfqn Hcall Hrd Hpayload Hcodec).
    reflexivity.
Qed.

(** On a handle whose transaction failed on a Ganache backend: the return
    value raises the decoded error; the error accessor then returns that
    error from its slot although a new replay would revert differently. *)
Lemma return_value_of_failure_raises_error_witness :
  Transaction.return_value 0
    (Sample.resolved (Sample.node GanacheDevChain 0 Sample.failure_receipt)
       (Some Sample.fqn) Sample.failure_receipt)
  = Some (Raise (TransactionRevertedError
                   (PyList [PyInt 8; PyInt 195; PyInt 121; PyInt 160])),
          updated
            (set_error (Some (PyList [PyInt 8; PyInt 195; PyInt 121; PyInt 160])))
            (asked (Call Sample.tx_params)
               (Sample.resolved
                  (Sample.node GanacheDevChain 0 Sample.failure_receipt)
                  (Some Sample.fqn) Sample.failure_receipt)))
  /\ Transaction.error 0
       (updated
          (set_error (Some (PyList [PyInt 8; PyInt 195; PyInt 121; PyInt 160])))
          (asked (Call Sample.tx_params)
             (Sample.resolved
                (Sample.node GanacheDevChain 0 Sample.failure_receipt)
                (Some Sample.fqn) Sample.failure_receipt)))
     = Some (Ok (Some (PyList [PyInt 8; PyInt 195; PyInt 121; PyInt 160])),
             updated
               (set_error (Some (PyList [PyInt 8; PyInt 195; PyInt 121; PyInt 160])))
               (asked (Call Sample.tx_params)
                  (Sample.resolved
                     (Sample.node GanacheDevChain 0 Sample.failure_receipt)
                     (Some Sample.fqn) Sample.failure_receipt))).
Proof.
  pose proof (return_value_of_failure_raises_error 0
                (Sample.resolved
                   (Sample.node GanacheDevChain 0 Sample.failure_receipt)
                   (Some Sample.fqn) Sample.failure_receipt)
                (Sample.resolved
                   (Sample.node GanacheDevChain 0 Sample.failure_receipt)
                   (Some Sample.fqn) Sample.failure_receipt)
                eq_refl) as (_ & _ & _ & Hsame & _).
  destruct (Hsame (PyList [PyInt 8; PyInt 195; PyInt 121; PyInt 160]) _ eq_refl)
    as (Hrv & Herr & _).
  split; [exact Hrv | exact Herr].
Defined.

(** C3 as stated fails: the handle of a contract creation that reverted
    has no recipient, so no revert error is decoded; the error accessor
    raises an assertion failure after the call was replayed, and so does
    the return value. *)
Lemma failure_without_decoded_error :
  Transaction.status Fixture.failed_creation
  = Some (Ok FAILURE, Fixture.failed_creation)
  /\ Transaction.error 0 Fixture.failed_creation
     = Some (Raise (AssertionError ""),
             asked (Call Sample.tx_params) Fixture.failed_creation)
  /\ Transaction.return_value 0 Fixture.failed_creation
     = Some (Raise (AssertionError ""),
             asked (Call Sample.tx_params) Fixture.failed_creation)
  /\ ~ (forall fuel st st1,
          Transaction.status st = Some (Ok FAILURE, st1) ->
          exists err st2,
            Transaction.return_value fuel st1
            = Some (Raise (TransactionRevertedError err), st2)).
Proof.
  split; [reflexivity|]. split; [reflexivity|]. split; [reflexivity|].
  intros Hall.
  destruct (Hall O Fixture.failed_creation Fixture.failed_creation eq_refl)
    as (err & st2 & Hrv).
  discriminate Hrv.
Qed.

(* ===================================================================== *)
(** ** Accessors only make the moves of a handle *)
(* ===================================================================== *)

Lemma moves_trans (st1 st2 st3 : state) :
  moves st1 st2 -> moves st2 st3 -> moves st1 st3.
Proof.
  induction 1 as [|a b c Hab Hbc IH]; intros H3; [assumption|].
  eapply moves_step; eauto.
Qed.

Lemma moves_one (st1 st2 : state) : move st1 st2 -> moves st1 st2.
Proof. intros H. eapply moves_step; [exact H | apply moves_refl]. Qed.

Lemma pure_walks_at {A} (m : M A) (st : state) : pure m -> walks_at st m.
Proof. intros Hp out st' Hrun. rewrite (Hp _ _ _ Hrun). apply moves_refl. Qed.

Lemma pure_ret {A} (a : A) : pure (ret a).
Proof. intros st out st' H. inversion H; reflexivity. Qed.

Lemma pure_raise {A} (e : exn) : pure (@raise A e).
Proof. intros st out st' H. inversion H; reflexivity. Qed.

Lemma pure_lift {A} (r : result A) : pure (lift r).
Proof. intros st out st' H. inversion H; reflexivity. Qed.

Lemma pure_get_self : pure get_self.
Proof. intros st out st' H. inversion H; reflexivity. Qed.

Lemma pure_assert (b : bool) (msg : string) : pure (assert b msg).
Proof. destruct b; [apply pure_ret | apply pure_raise]. Qed.

Lemma pure_bind {A B} (m : M A) (k : A -> M B) :
  pure m -> (forall a, pure (k a)) -> pure (bind m k).
Proof.
  intros Hm Hk st out st' Hrun. unfold bind in Hrun.
  destruct (m st) as [[[a|e] st1]|] eqn:Hmst; [| |discriminate].
  - rewrite <- (Hm _ _ _ Hmst). eapply Hk; eauto.
  - inversion Hrun; subst. eapply Hm; eauto.
Qed.

Lemma walks_at_bind {A B} (st : state) (m : M A) (k : A -> M B) :
  walks_at st m ->
  (forall a st1, m st = Some (Ok a, st1) -> walks_at st1 (k a)) ->
  walks_at st (bind m k).
Proof.
  intros Hm Hk out st' Hrun. unfold bind in Hrun.
  destruct (m st) as [[[a|e] st1]|] eqn:Hmst; [| |discriminate].
  - eapply moves_trans; [eapply Hm; eauto | eapply Hk; eauto].
  - inversion Hrun; subst. eapply Hm; eauto.
Qed.

Lemma walks_at_bind_self {B} (st : state) (k : TransactionAbc -> M B) :
  walks_at st (k (self st)) -> walks_at st (bind get_self k).
Proof. intros Hk out st' Hrun. exact (Hk out st' Hrun). Qed.

Lemma walks_at_bind_pure {A B} (st : state) (m : M A) (k : A -> M B) :
  pure m -> (forall a, walks_at st (k a)) -> walks_at st (bind m k).
Proof.
  intros Hm Hk. apply walks_at_bind; [apply pure_walks_at, Hm|].
  intros a st1 Hrun. rewrite (Hm _ _ _ Hrun). apply Hk.
Qed.

Lemma walks_bind {A B} (m : M A) (k : A -> M B) :
  walks m -> (forall a, walks (k a)) -> walks (bind m k).
Proof. intros Hm Hk st. apply walks_at_bind; [apply Hm | intros; apply Hk]. Qed.

Lemma pure_walks {A} (m : M A) : pure m -> walks m.
Proof. intros Hp st. apply pure_walks_at, Hp. Qed.

Lemma walks_fmap {A B} (f : A -> B) (m : M A) : walks m -> walks (fmap_M f m).
Proof.
  intros Hm. unfold fmap_M. apply walks_bind; [exact Hm|].
  intros a. apply pure_walks, pure_ret.
Qed.

Ltac solve_pure :=
  repeat first
    [ apply pure_ret | apply pure_raise | apply pure_lift | apply pure_get_self
    | apply pure_assert
    | apply pure_bind; [|intros ?]
    | match goal with |- pure (match ?x with _ => _ end) => destruct x end
    | match goal with |- pure (if ?x then _ else _) => destruct x end ].

Lemma pure_tx_data_field (k : string) : pure (Transaction.tx_data_field k).
Proof. unfold Transaction.tx_data_field. solve_pure. Qed.

Lemma pure_tx_data_int (k : string) : pure (Transaction.tx_data_int k).
Proof.
  unfold Transaction.tx_data_int. apply pure_bind; [apply pure_tx_data_field|].
  intros. solve_pure.
Qed.

Lemma pure_tx_receipt_field (k : string) : pure (Transaction.tx_receipt_field k).
Proof. unfold Transaction.tx_receipt_field. solve_pure. Qed.

Lemma pure_tx_receipt_int (k : string) : pure (Transaction.tx_receipt_int k).
Proof.
  unfold Transaction.tx_receipt_int. apply pure_bind; [apply pure_tx_receipt_field|].
  intros. solve_pure.
Qed.

Lemma status_walks : walks Transaction.status.
Proof.
  intros st out st' Hrun.
  destruct (_tx_receipt (self st)) as [rc|] eqn:Hrc.
  - rewrite (status_cached st rc Hrc) in Hrun. inversion Hrun; subst. apply moves_refl.
  - rewrite (status_uncached st Hrc) in Hrun.
    destruct (receipt_answer st) as [[rc|]|e]; inversion Hrun; subst.
    + eapply moves_step; [apply (move_ask_receipt st (_tx_hash (self st)) Hrc)|].
      apply moves_one.
      apply (move_set_receipt (asked (GetTransactionReceipt (_tx_hash (self st))) st) rc Hrc).
    + apply moves_one. apply move_ask_receipt. exact Hrc.
    + apply moves_one. apply move_ask_receipt. exact Hrc.
Qed.

Lemma wait_checks_walks (n : nat) : walks (Transaction.wait_checks n).
Proof.
  induction n as [|n IH]; [apply pure_walks, pure_ret|].
  rewrite wait_checks_S. apply walks_bind; [apply status_walks|].
  intros s. destruct (negb (status_eqb s PENDING)); [apply pure_walks, pure_ret | exact IH].
Qed.

Lemma wait_poll_walks (fuel : nat) : walks (Transaction.wait_poll fuel).
Proof.
  induction fuel as [|fuel IH]; [intros st out st' H; discriminate|].
  rewrite wait_poll_S. intros st. apply walks_at_bind; [apply status_walks|].
  intros s st1 Hrun. destruct s; simpl; try (apply pure_walks, pure_ret).
  apply status_pending in Hrun. destruct Hrun as (Hrc & _ & ->).
  apply walks_at_bind; [|intros; apply IH].
  intros out st' Hs. inversion Hs; subst.
  apply moves_one.
  apply (move_sleep (asked (GetTransactionReceipt (_tx_hash (self st))) st) Hrc).
Qed.

Lemma wait_walks (fuel : nat) : walks (Transaction.wait fuel).
Proof.
  unfold Transaction.wait. apply walks_bind; [apply wait_checks_walks|].
  intros [|]; [apply pure_walks, pure_ret | apply wait_poll_walks].
Qed.

Lemma fetch_tx_data_walks {A} (f : M A) :
  walks f -> walks (Transaction._fetch_tx_data f).
Proof.
  intros Hf st. unfold Transaction._fetch_tx_data.
  apply walks_at_bind_self. apply walks_at_bind; [|intros; apply Hf].
  destruct (_tx_data (self st)) as [d|] eqn:Hd; [apply pure_walks_at, pure_ret|].
  unfold Transaction.dev_get_transaction. intros out st' Hrun. run_m.
  destruct (get_transaction _ _ _) as [d|e]; inversion Hrun; subst.
  - eapply moves_step; [apply (move_ask_tx_data st (_tx_hash (self st)) Hd)|].
    apply moves_one.
    apply (move_set_tx_data (asked (GetTransaction (_tx_hash (self st))) st) d Hd).
  - apply moves_one. apply move_ask_tx_data. exact Hd.
Qed.

Lemma fetch_tx_receipt_walks {A} (fuel : nat) (f : M A) :
  walks f -> walks (Transaction._fetch_tx_receipt fuel f).
Proof.
  intros Hf st. unfold Transaction._fetch_tx_receipt.
  apply walks_at_bind_self. apply walks_at_bind.
  - destruct (_tx_receipt (self st)); [apply pure_walks_at, pure_ret | apply wait_walks].
  - intros _ st1 _. apply walks_at_bind_self.
    apply walks_at_bind_pure; [apply pure_assert | intros; apply Hf].
Qed.

Lemma fetch_trace_transaction_walks : walks Transaction._fetch_trace_transaction.
Proof.
  intros st. unfold Transaction._fetch_trace_transaction.
  apply walks_at_bind_self.
  destruct (_trace_transaction (self st)) as [t|] eqn:Ht; [apply pure_walks_at, pure_ret|].
  apply walks_at_bind_pure; [apply pure_assert|]. intros _.
  unfold Transaction.dev_trace_transaction. intros out st' Hrun. run_m.
  destruct (trace_transaction _ _ _) as [t|e]; inversion Hrun; subst.
  - eapply moves_step; [apply (move_ask_trace st (_tx_hash (self st)) Ht)|].
    apply moves_one.
    apply (move_set_trace (asked (TraceTransaction (_tx_hash (self st))) st) t Ht).
  - apply moves_one. apply move_ask_trace. exact Ht.
Qed.

Lemma fetch_debug_trace_transaction_walks :
  walks Transaction._fetch_debug_trace_transaction.
Proof.
  intros st. unfold Transaction._fetch_debug_trace_transaction.
  apply walks_at_bind_self.
  destruct (_debug_trace_transaction (self st)) as [t|] eqn:Ht;
    [apply pure_walks_at, pure_ret|].
  unfold Transaction.dev_debug_trace_transaction. intros out st' Hrun. run_m.
  destruct (debug_trace_transaction _ _ _ _) as [t|e]; inversion Hrun; subst.
  - eapply moves_step;
      [apply (move_ask_debug_trace st (_tx_hash (self st))
                [("enableMemory", PyBool true)] Ht)|].
    apply moves_one.
    apply (move_set_debug_trace
             (asked (DebugTraceTransaction (_tx_hash (self st))
                       [("enableMemory", PyBool true)]) st) t Ht).
  - apply moves_one. apply move_ask_debug_trace. exact Ht.
Qed.

Lemma console_logs_walks (fuel : nat) : walks (Transaction.console_logs fuel).
Proof.
  unfold Transaction.console_logs. apply fetch_tx_receipt_walks. intros st.
  apply walks_at_bind_self.
  destruct (Transaction.is_anvil _); [|apply pure_walks_at, pure_raise].
  apply walks_at_bind; [apply fetch_trace_transaction_walks|].
  intros _ st1 _. apply pure_walks_at. solve_pure.
Qed.

Lemma events_walks (fuel : nat) : walks (Transaction.events fuel).
Proof.
  unfold Transaction.events. apply fetch_tx_receipt_walks. intros st.
  apply walks_at_bind_self.
  destruct (_events (self st)) as [evs|] eqn:Hev; [apply pure_walks_at, pure_ret|].
  apply walks_at_bind_pure; [apply pure_assert|]. intros _.
  destruct (_recipient_fqn (self st)) as [fqn|] eqn:Hfqn.
  - apply walks_at_bind_pure; [apply pure_tx_receipt_field|]. intros logs.
    apply walks_at_bind_pure; [apply pure_lift|]. intros evs.
    intros out st' Hrun. run_m. inversion Hrun; subst.
    apply moves_one. apply (move_set_events st evs Hev). congruence.
  - intros out st' Hrun. unfold Transaction.tx_receipt_field in Hrun. run_m.
    destruct (Py.slot_getitem (_tx_receipt (self st)) "logs") as [logs|e] eqn:Hlogs;
      [|inversion Hrun; subst; apply moves_refl].
    destruct (Py.len logs) as [n|e] eqn:Hlen;
      [|inversion Hrun; subst; apply moves_refl].
    destruct n as [|n]; simpl in Hrun; inversion Hrun; subst; [|apply moves_refl].
    apply moves_one. apply (move_set_events st [] Hev). intros _. split; [reflexivity|].
    unfold Py.slot_getitem, Py.dict_getitem in Hlogs.
    destruct (_tx_receipt (self st)) as [rc|] eqn:Hrc; [|discriminate].
    destruct (Py.dict_get rc "logs") as [l|] eqn:Hl; [|discriminate].
    inversion Hlogs; subst. exists rc, logs. auto.
Qed.

Lemma raw_events_walks (fuel : nat) : walks (Transaction.raw_events fuel).
Proof.
  unfold Transaction.raw_events. apply fetch_tx_receipt_walks. apply pure_walks.
  apply pure_bind; [apply pure_get_self|]. intros h.
  apply pure_bind; [apply pure_assert|]. intros _.
  apply pure_bind; [apply pure_tx_receipt_field|]. intros logs. solve_pure.
Qed.

Lemma error_walks (fuel : nat) : walks (Transaction.error fuel).
Proof.
  unfold Transaction.error. apply fetch_tx_receipt_walks. intros st.
  apply walks_at_bind; [apply status_walks|]. intros s st1 _.
  destruct (status_eqb s SUCCESS); [apply pure_walks_at, pure_ret|].
  apply walks_at_bind_self.
  destruct (_error (self st1)) as [err|] eqn:He; [apply pure_walks_at, pure_ret|].
  intros out st' Hrun. unfold bind in Hrun.
  destruct (Transaction.replay st1) as [[[rd|e] st2]|] eqn:Hr; try discriminate.
  - apply replay_state in Hr. apply decode_revert_state in Hrun. subst st2.
    eapply moves_step; [apply (move_ask_call st1 (_tx_params (self st1)) He)|].
    destruct out as [[err|]|e]; subst; try apply moves_refl.
    apply moves_one.
    apply (move_set_error (asked (Call (_tx_params (self st1))) st1) err He).
  - apply replay_state in Hr. inversion Hrun; subst.
    apply moves_one. apply move_ask_call. exact He.
Qed.

Lemma return_value_walks (fuel : nat) : walks (Transaction.return_value fuel).
Proof.
  unfold Transaction.return_value. apply fetch_tx_receipt_walks. intros st.
  apply walks_at_bind; [apply status_walks|]. intros s st1 _.
  destruct (negb (status_eqb s SUCCESS)).
  - apply walks_at_bind; [apply error_walks|]. intros e st2 _.
    apply pure_walks_at. solve_pure.
  - apply walks_at_bind_self.
    apply walks_at_bind_pure; [apply pure_assert|]. intros _.
    destruct (Transaction.created_contract _); [apply pure_walks_at, pure_ret|].
    destruct (_abi (self st1)) as [abi|]; [|apply pure_walks_at, pure_raise].
    destruct (Transaction.is_anvil _).
    + apply walks_at_bind; [apply fetch_trace_transaction_walks|].
      intros _ st2 _. apply pure_walks_at. solve_pure.
    + apply walks_at_bind; [apply fetch_debug_trace_transaction_walks|].
      intros _ st2 _. apply pure_walks_at. solve_pure.
Qed.

(** Every read of every accessor is a sequence of moves. *)
Lemma read_walks (a : accessor) (fuel : nat) : walks (read a fuel).
Proof.
  destruct a; simpl; apply walks_fmap;
    first
      [ apply fetch_tx_data_walks, pure_walks;
        first [ apply pure_tx_data_field | apply pure_tx_data_int
              | apply pure_bind; [apply pure_tx_data_field | intros; solve_pure]
              | apply pure_bind; [apply pure_tx_data_int | intros; solve_pure] ]
      | apply fetch_tx_receipt_walks, pure_walks, pure_tx_receipt_int
      | apply status_walks | apply wait_walks | apply console_logs_walks
      | apply events_walks | apply raw_events_walks | apply error_walks
      | apply return_value_walks
      | apply pure_walks; unfold Transaction.tx_hash, Transaction.chain; solve_pure ].
Qed.

(* ===================================================================== *)
(** ** What moves preserve *)
(* ===================================================================== *)

Lemma kept_refl (sl : slot) (h : TransactionAbc) : kept sl h h.
Proof. destruct sl; simpl; auto. Qed.

Lemma kept_trans (sl : slot) (h1 h2 h3 : TransactionAbc) :
  kept sl h1 h2 -> kept sl h2 h3 -> kept sl h1 h3.
Proof. destruct sl; simpl; auto. Qed.

Lemma populated_kept (sl : slot) (h h' : TransactionAbc) :
  kept sl h h' -> populated sl h = true -> populated sl h' = true.
Proof.
  destruct sl; simpl; intros Hk Hp; apply bool_decide_eq_true in Hp;
    destruct Hp as [x Hx]; apply bool_decide_eq_true; eauto.
Qed.

Lemma move_kept (st st' : state) (sl : slot) :
  move st st' -> kept sl (self st) (self st').
Proof.
  intros Hm. destruct Hm; destruct sl; simpl; intros y Hy; congruence.
Qed.

Lemma moves_kept (st st' : state) (sl : slot) :
  moves st st' -> kept sl (self st) (self st').
Proof.
  induction 1 as [|st1 st2 st3 H12 H23 IH]; [apply kept_refl|].
  eapply kept_trans; [eapply move_kept; eauto | exact IH].
Qed.

Lemma move_identity (st st' : state) :
  move st st' -> same_identity (self st) (self st').
Proof. intros Hm. destruct Hm; repeat split. Qed.

Lemma moves_identity (st st' : state) :
  moves st st' -> same_identity (self st) (self st').
Proof.
  induction 1 as [|st1 st2 st3 H12 H23 IH]; [repeat split|].
  apply move_identity in H12. unfold same_identity in *.
  destruct H12 as (?&?&?&?&?&?), IH as (?&?&?&?&?&?). repeat split; congruence.
Qed.

(** A move adds at most one event, and never a request for the data of a
    populated slot. *)
Lemma move_history (st st' : state) :
  move st st' ->
  exists new, history st' = (new ++ history st)%list
    /\ forall sl, populated sl (self st) = true ->
                  Forall (fun ev => fetches sl ev = false) new.
Proof.
  intros Hm. destruct Hm;
    first
      [ exists []; split; [reflexivity | intros; constructor]
      | eexists [_]; split; [reflexivity|];
        intros sl Hp; constructor; [|constructor];
        destruct sl; try reflexivity; simpl in Hp;
        apply bool_decide_eq_true in Hp; destruct Hp as [y Hy]; congruence ].
Qed.

Lemma moves_history (st st' : state) :
  moves st st' ->
  exists new, history st' = (new ++ history st)%list
    /\ forall sl, populated sl (self st) = true ->
                  Forall (fun ev => fetches sl ev = false) new.
Proof.
  induction 1 as [st|st1 st2 st3 H12 H23 IH].
  - exists []. split; [reflexivity | intros; constructor].
  - destruct (move_history _ _ H12) as (new1 & Hh1 & Hq1).
    destruct IH as (new2 & Hh2 & Hq2).
    exists (new2 ++ new1)%list. split.
    + rewrite Hh2, Hh1. apply app_assoc.
    + intros sl Hp. apply Forall_app. split.
      * apply Hq2. eapply populated_kept; [eapply move_kept; eauto | exact Hp].
      * apply Hq1, Hp.
Qed.

Lemma move_events_inv (st st' : state) :
  move st st' -> events_inv (self st) -> events_inv (self st').
Proof.
  intros Hm Hinv.
  destruct Hm; unfold events_inv, logs_empty in *; simpl; intros Hfqn evs' Hev;
    try (destruct (Hinv Hfqn evs' Hev) as (-> & rc' & logs & Hrc & Hl & Hn);
         split; [reflexivity|]; exists rc', logs; repeat split; congruence).
  inversion Hev; subst. destruct (H0 Hfqn) as (-> & rc' & logs & Hrc & Hl & Hn).
  split; [reflexivity|]. exists rc', logs. auto.
Qed.

Lemma moves_events_inv (st st' : state) :
  moves st st' -> events_inv (self st) -> events_inv (self st').
Proof.
  induction 1 as [|st1 st2 st3 H12 H23 IH]; [auto|].
  intros Hinv. apply IH. eapply move_events_inv; eauto.
Qed.

Lemma reachable_events_inv (st : state) : reachable st -> events_inv (self st).
Proof.
  induction 1 as [| a fuel st out st' Hreach IH Hrun].
  - intros _ evs Hev. discriminate.
  - eapply moves_events_inv; [|exact IH]. eapply read_walks; eauto.
Qed.

(* ===================================================================== *)
(** ** A read that returns leaves its slots populated *)
(* ===================================================================== *)

Lemma fmap_ok {A B} (f : A -> B) (m : M A) (st st' : state) (v : B) :
  fmap_M f m st = Some (Ok v, st') ->
  exists x, m st = Some (Ok x, st') /\ v = f x.
Proof.
  unfold fmap_M. run_m. intros Hrun.
  destruct (m st) as [[[x|e] st1]|]; inversion Hrun; subst. eauto.
Qed.

Lemma bind_ok {A B} (m : M A) (k : A -> M B) (st st' : state) (v : B) :
  bind m k st = Some (Ok v, st') ->
  exists x st1, m st = Some (Ok x, st1) /\ k x st1 = Some (Ok v, st').
Proof.
  unfold bind. intros Hrun.
  destruct (m st) as [[[x|e] st1]|]; try discriminate. eauto.
Qed.

Lemma reads_tx_data_field (k : string) : reads_tx_data (Transaction.tx_data_field k).
Proof.
  intros st v st'. unfold Transaction.tx_data_field. run_m. intros Hrun.
  destruct (_tx_data (self st)) as [d|] eqn:Hd; simpl in Hrun; [|discriminate].
  inversion Hrun; subst. rewrite Hd. eauto.
Qed.

Lemma reads_tx_data_bind {A B} (m : M A) (k : A -> M B) :
  reads_tx_data m -> (forall a, pure (k a)) -> reads_tx_data (bind m k).
Proof.
  intros Hm Hk st v st' Hrun. apply bind_ok in Hrun.
  destruct Hrun as (x & st1 & Hm1 & Hk1).
  rewrite (Hk _ _ _ _ Hk1). eapply Hm; eauto.
Qed.

Lemma reads_tx_data_int (k : string) : reads_tx_data (Transaction.tx_data_int k).
Proof.
  unfold Transaction.tx_data_int. apply reads_tx_data_bind;
    [apply reads_tx_data_field | intros; solve_pure].
Qed.

(** Past the decorator the body runs with a receipt in the slot. *)
Lemma fetch_tx_receipt_ok {A} (fuel : nat) (f : M A) (st st' : state) (v : A) :
  Transaction._fetch_tx_receipt fuel f st = Some (Ok v, st') ->
  exists st1 rc,
    moves st st1 /\ _tx_receipt (self st1) = Some rc
    /\ f st1 = Some (Ok v, st').
Proof.
  intros Hrun.
  unfold Transaction._fetch_tx_receipt in Hrun.
  apply bind_ok in Hrun. destruct Hrun as (h & st0 & Hg & Hrun).
  inversion Hg; subst h st0. clear Hg.
  apply bind_ok in Hrun. destruct Hrun as (u & st1 & Hwait & Hrun).
  assert (Hm : moves st st1).
  { destruct (_tx_receipt (self st)).
    - inversion Hwait; subst. apply moves_refl.
    - eapply wait_walks; eauto. }
  apply bind_ok in Hrun. destruct Hrun as (h & st0 & Hg & Hrun).
  inversion Hg; subst h st0. clear Hg.
  apply bind_ok in Hrun. destruct Hrun as (u' & st2 & Ha & Hrun).
  unfold assert in Ha.
  destruct (_tx_receipt (self st1)) as [rc|] eqn:Hrc; simpl in Ha; [|discriminate].
  inversion Ha; subst. eauto.
Qed.

Lemma receipt_after_walk {A} (f : M A) (st st' : state) (out : result A) (rc : dict) :
  walks f -> _tx_receipt (self st) = Some rc -> f st = Some (out, st') ->
  _tx_receipt (self st') = Some rc.
Proof.
  intros Hf Hrc Hrun. apply (moves_kept st st' Receipt); [eapply Hf; eauto | exact Hrc].
Qed.

Lemma populated_receipt (h : TransactionAbc) (rc : dict) :
  _tx_receipt h = Some rc -> populated Receipt h = true.
Proof. intros H. simpl. apply bool_decide_eq_true. eauto. Qed.

Lemma fetch_trace_transaction_ok (st st' : state) :
  Transaction._fetch_trace_transaction st = Some (Ok tt, st') ->
  forall rc, _tx_receipt (self st) = Some rc -> _tx_receipt (self st') = Some rc.
Proof.
  intros Hrun rc Hrc.
  eapply receipt_after_walk; [apply fetch_trace_transaction_walks | |]; eauto.
Qed.

Lemma events_ok (fuel : nat) (st st' : state) (v : list pyval) :
  Transaction.events fuel st = Some (Ok v, st') ->
  populated Receipt (self st') = true /\ _events (self st') = Some v.
Proof.
  intros Hrun. unfold Transaction.events in Hrun.
  apply fetch_tx_receipt_ok in Hrun. destruct Hrun as (st1 & rc & _ & Hrc & Hrun).
  unfold Transaction.tx_receipt_field in Hrun. run_m.
  destruct (_events (self st1)) as [evs|] eqn:Hev.
  - inversion Hrun; subst. split; [eapply populated_receipt; eauto | exact Hev].
  - rewrite Hrc in Hrun. simpl in Hrun.
    destruct (_recipient_fqn (self st1)).
    + destruct (Py.slot_getitem _ "logs") as [logs|]; simpl in Hrun;
        [|discriminate].
      destruct (_process_events _ _ _ _) as [evs|]; simpl in Hrun;
        inversion Hrun; subst.
      split; [eapply populated_receipt; eauto | reflexivity].
    + destruct (Py.slot_getitem _ "logs") as [logs|]; simpl in Hrun;
        [|discriminate].
      destruct (Py.len logs) as [n|]; simpl in Hrun; [|discriminate].
      destruct (Nat.eqb n 0); simpl in Hrun; inversion Hrun; subst.
      split; [eapply populated_receipt; eauto | reflexivity].
Qed.

Lemma error_ok (fuel : nat) (st st' : state) (v : option pyval) :
  Transaction.error fuel st = Some (Ok v, st') ->
  populated Receipt (self st') = true
  /\ forall err, v = Some err -> _error (self st') = Some err.
Proof.
  intros Hrun. split.
  - unfold Transaction.error in Hrun.
    apply fetch_tx_receipt_ok in Hrun. destruct Hrun as (st1 & rc & _ & Hrc & Hrun).
    eapply populated_receipt.
    rewrite <- (fetch_receipt_cached fuel _ st1 rc Hrc) in Hrun.
    apply (moves_kept st1 st' Receipt); [|exact Hrc].
    eapply (error_walks fuel); exact Hrun.
  - intros err ->. unfold Transaction.error in Hrun.
    apply fetch_tx_receipt_ok in Hrun. destruct Hrun as (st1 & rc & _ & Hrc & Hrun).
    apply bind_ok in Hrun. destruct Hrun as (s & st2 & Hs & Hrun).
    destruct (status_eqb s SUCCESS); [discriminate|].
    apply bind_ok in Hrun. destruct Hrun as (h & st0 & Hg & Hrun).
    inversion Hg; subst h st0. clear Hg.
    destruct (_error (self st2)) as [err0|] eqn:He.
    + inversion Hrun; subst. exact He.
    + apply bind_ok in Hrun. destruct Hrun as (rd & st3 & Hr & Hrun).
      apply decode_revert_state in Hrun. subst. reflexivity.
Qed.

Lemma return_value_ok (fuel : nat) (st st' : state) (v : return_value_t) :
  Transaction.return_value fuel st = Some (Ok v, st') ->
  populated Receipt (self st') = true
  /\ (Transaction.created_contract (_tx_receipt (self st')) = None ->
      if Transaction.is_anvil (dev_class (dev_chain (_chain (self st'))))
      then populated Trace (self st') = true
      else populated DebugTrace (self st') = true).
Proof.
  intros Hrun.
  pose proof (return_value_walks fuel st _ _ Hrun) as Hmoves.
  unfold Transaction.return_value in Hrun.
  apply fetch_tx_receipt_ok in Hrun. destruct Hrun as (st1 & rc & _ & Hrc & Hrun).
  apply bind_ok in Hrun. destruct Hrun as (s & st2 & Hs & Hrun).
  rewrite (status_cached st1 rc Hrc) in Hs. inversion Hs; subst st2. clear Hs.
  destruct (negb (status_eqb s SUCCESS)).
  { apply bind_ok in Hrun. destruct Hrun as (e & st3 & _ & Hrun).
    destruct e; discriminate. }
  apply bind_ok in Hrun. destruct Hrun as (h & st0 & Hg & Hrun).
  inversion Hg; subst h st0. clear Hg.
  apply bind_ok in Hrun. destruct Hrun as (u & st0 & Ha & Hrun).
  apply pure_assert in Ha. subst st0.
  destruct (Transaction.created_contract (_tx_receipt (self st1))) as [addr|] eqn:Hcc.
  { inversion Hrun; subst. split; [eapply populated_receipt; eauto|].
    intros Hn. congruence. }
  destruct (_abi (self st1)) as [abi|]; [|discriminate].
  destruct (Transaction.is_anvil (dev_class (dev_chain (_chain (self st1))))) eqn:Hanvil.
  - apply bind_ok in Hrun. destruct Hrun as (u' & st2 & Hf & Hrun).
    pose proof (fetch_trace_transaction_walks st1 _ _ Hf) as Hm2.
    apply bind_ok in Hrun. destruct Hrun as (h & st0 & Hg & Hrun).
    inversion Hg; subst h st0. clear Hg.
    destruct (_trace_transaction (self st2)) as [t|] eqn:Ht; [|discriminate].
    apply bind_ok in Hrun. destruct Hrun as (o & st3 & Ho & Hrun).
    apply pure_lift in Ho. subst st3.
    apply bind_ok in Hrun. destruct Hrun as (w & st3 & Hp & Hrun).
    apply pure_lift in Hp. subst st3. inversion Hrun; subst.
    split.
    + eapply populated_receipt. apply (moves_kept st1 st' Receipt Hm2). exact Hrc.
    + intros _. destruct (moves_identity _ _ Hm2) as (_&_&_&_&_&Hch).
      rewrite Hch, Hanvil. simpl. apply bool_decide_eq_true. rewrite Ht. eauto.
  - apply bind_ok in Hrun. destruct Hrun as (u' & st2 & Hf & Hrun).
    pose proof (fetch_debug_trace_transaction_walks st1 _ _ Hf) as Hm2.
    apply bind_ok in Hrun. destruct Hrun as (h & st0 & Hg & Hrun).
    inversion Hg; subst h st0. clear Hg.
    destruct (_debug_trace_transaction (self st2)) as [t|] eqn:Ht; [|discriminate].
    apply bind_ok in Hrun. destruct Hrun as (o & st3 & Ho & Hrun).
    apply pure_lift in Ho. subst st3.
    apply bind_ok in Hrun. destruct Hrun as (w & st3 & Hp & Hrun).
    apply pure_lift in Hp. subst st3. inversion Hrun; subst.
    split.
    + eapply populated_receipt. apply (moves_kept st1 st' Receipt Hm2). exact Hrc.
    + intros _. destruct (moves_identity _ _ Hm2) as (_&_&_&_&_&Hch).
      rewrite Hch, Hanvil. simpl. apply bool_decide_eq_true. rewrite Ht. eauto.
Qed.

(* ===================================================================== *)
(** ** The answers of the backend are stored *)
(* ===================================================================== *)

Lemma held_kept (sl : slot) (h h' : TransactionAbc) (x : content) :
  kept sl h h' -> held sl h = Some x -> held sl h' = Some x.
Proof.
  destruct sl; simpl; intros Hk Hh;
    match type of Hh with
    | option_map _ ?f = _ =>
        destruct f as [y|] eqn:Hy; [|discriminate]; rewrite (Hk y eq_refl); exact Hh
    end.
Qed.

Lemma held_populated (sl : slot) (h : TransactionAbc) (x : content) :
  held sl h = Some x -> populated sl h = true.
Proof.
  destruct sl; simpl; intros Hh; apply bool_decide_eq_true;
    match type of Hh with
    | option_map _ ?f = _ => destruct f; [eauto | discriminate]
    end.
Qed.

(** What an answer brings depends on the handle through the fields given
    to the constructor only. *)
Lemma brought_identity (h h' : TransactionAbc) (hist : list event) (ev : event) :
  same_identity h h' -> brought h' hist ev = brought h hist ev.
Proof.
  intros (Hh & _ & _ & _ & Hf & Hc).
  destruct ev; simpl; unfold replayed_error; rewrite ?Hh, ?Hf, ?Hc; reflexivity.
Qed.

Lemma history_no_shorter (post pre hist : list event) (ev : event) :
  hist <> (post ++ ev :: pre ++ hist)%list.
Proof.
  intros Heq. apply (f_equal (@length event)) in Heq.
  rewrite length_app in Heq. simpl in Heq. rewrite length_app in Heq. lia.
Qed.

Lemma new_events_split (new post pre hist : list event) (ev : event) :
  (new ++ hist)%list = (post ++ ev :: pre ++ hist)%list ->
  new = (post ++ ev :: pre)%list.
Proof.
  intros Heq. apply (app_inv_tail hist).
  rewrite Heq, <- app_assoc. reflexivity.
Qed.

Lemma orderly_refl (st : state) : orderly st st.
Proof.
  split; [apply moves_refl|]. split.
  - intros sl post ev pre x Hh. exfalso. eapply history_no_shorter; eauto.
  - intros sl x _ Hh. left. exact Hh.
Qed.

(** Moves that ask nothing and fill no slot but the event list. *)
Lemma orderly_silent (st st' : state) :
  moves st st' -> history st' = history st ->
  (forall sl x,
     sl <> DecodedEvents -> held sl (self st') = Some x ->
     held sl (self st) = Some x) ->
  orderly st st'.
Proof.
  intros Hm Hh Hsame. split; [exact Hm|]. split.
  - intros sl post ev pre x Hh'. rewrite Hh in Hh'.
    exfalso. eapply history_no_shorter; eauto.
  - intros sl x Hne Hheld. left. apply Hsame; assumption.
Qed.

(** Moves that make one request, store what its answer brings and fill no
    slot otherwise. *)
Lemma orderly_request (st st' : state) (ev : event) :
  moves st st' ->
  history st' = ev :: history st ->
  (forall sl x,
     fetches sl ev = true -> brought (self st) (history st) ev = Some x ->
     held sl (self st') = Some x) ->
  (forall sl x,
     sl <> DecodedEvents -> held sl (self st') = Some x ->
     held sl (self st) = Some x
     \/ (fetches sl ev = true /\ brought (self st) (history st) ev = Some x)) ->
  orderly st st'.
Proof.
  intros Hm Hh Hst Honly. split; [exact Hm|]. split.
  - intros sl post ev' pre x Hh' Hf Hb. rewrite Hh in Hh'.
    apply (new_events_split [ev]) in Hh'.
    destruct post as [|e post]; simpl in Hh'.
    + destruct pre; [|discriminate]. inversion Hh'; subst.
      split; [apply Hst; assumption | constructor].
    + inversion Hh' as [[He Hnil]]. destruct post; discriminate.
  - intros sl x Hne Hheld.
    destruct (Honly sl x Hne Hheld) as [Hold | (Hf & Hb)]; [left; exact Hold|].
    right. exists [], ev, []. rewrite Hh. auto.
Qed.

Lemma moves_new_events (st st' : state) (new : list event) (sl : slot) :
  moves st st' -> history st' = (new ++ history st)%list ->
  populated sl (self st) = true ->
  Forall (fun ev => fetches sl ev = false) new.
Proof.
  intros Hm Hh Hp. destruct (moves_history _ _ Hm) as (new' & Hh' & Hq).
  rewrite Hh in Hh'. apply app_inv_tail in Hh'. subst new'. apply Hq, Hp.
Qed.

Lemma orderly_only_trans (st st1 st' : state) (new1 new2 : list event) :
  moves st st1 ->
  history st1 = (new1 ++ history st)%list ->
  history st' = (new2 ++ history st1)%list ->
  answers_only st st1 -> answers_only st1 st' -> answers_only st st'.
Proof.
  intros Hm1 Hh1 Hh2 Ho1 Ho2 sl x Hne Hheld.
  destruct (Ho2 sl x Hne Hheld) as [Hold | (post & ev & pre & Hh & Hf & Hb)].
  - destruct (Ho1 sl x Hne Hold) as [Hold1 | (post & ev & pre & Hh & Hf & Hb)];
      [left; exact Hold1|].
    right. exists (new2 ++ post)%list, ev, pre.
    split; [|split; assumption].
    rewrite Hh2, Hh, <- app_assoc. reflexivity.
  - right. exists post, ev, (pre ++ new1)%list.
    split; [|split; [exact Hf|]].
    + rewrite Hh, Hh1, <- app_assoc. reflexivity.
    + rewrite (brought_identity _ _ _ _ (moves_identity _ _ Hm1)) in Hb.
      rewrite Hh1 in Hb. rewrite <- app_assoc. exact Hb.
Qed.

Lemma orderly_trans (st st1 st' : state) :
  orderly st st1 -> orderly st1 st' -> orderly st st'.
Proof.
  intros (Hm1 & Hs1 & Ho1) (Hm2 & Hs2 & Ho2).
  destruct (moves_history _ _ Hm1) as (new1 & Hh1 & _).
  destruct (moves_history _ _ Hm2) as (new2 & Hh2 & _).
  split; [eapply moves_trans; eauto|].
  split; [|apply (orderly_only_trans st st1 st' new1 new2); assumption].
  intros sl post ev pre x Hh Hf Hb.
  assert (Hnew : (new2 ++ new1)%list = (post ++ ev :: pre)%list).
  { apply (new_events_split _ _ _ (history st)).
    rewrite <- Hh, Hh2, Hh1, app_assoc. reflexivity. }
  assert (Hearly : forall post1,
            new1 = (post1 ++ ev :: pre)%list -> post = (new2 ++ post1)%list ->
            held sl (self st') = Some x
            /\ Forall (fun ev' => fetches sl ev' = false) post).
  { intros post1 Hn1 ->.
    destruct (Hs1 sl post1 ev pre x) as (Hheld & Hpost1);
      [rewrite Hh1, Hn1, <- app_assoc; reflexivity | assumption | assumption |].
    split.
    - eapply held_kept; [eapply moves_kept; eauto | exact Hheld].
    - apply Forall_app. split; [|exact Hpost1].
      eapply moves_new_events; eauto. eapply held_populated; eauto. }
  apply app_eq_app in Hnew. destruct Hnew as (l & [(Hn2 & Hl) | (Hp & Hn1)]).
  - destruct l as [|e l]; simpl in Hl.
    + apply (Hearly []); [symmetry; exact Hl|].
      rewrite Hn2, !app_nil_r. reflexivity.
    + inversion Hl; subst e pre.
      apply (Hs2 sl post ev l x); [| assumption |].
      * rewrite Hh2, Hn2, <- app_assoc. reflexivity.
      * rewrite (brought_identity _ _ _ _ (moves_identity _ _ Hm1)).
        rewrite Hh1. rewrite <- app_assoc in Hb. exact Hb.
  - apply (Hearly l); assumption.
Qed.

Lemma pure_orderly_at {A} (m : M A) (st : state) : pure m -> orderly_at st m.
Proof. intros Hp out st' Hrun. rewrite (Hp _ _ _ Hrun). apply orderly_refl. Qed.

Lemma orderly_at_bind {A B} (st : state) (m : M A) (k : A -> M B) :
  orderly_at st m ->
  (forall a st1, m st = Some (Ok a, st1) -> orderly_at st1 (k a)) ->
  orderly_at st (bind m k).
Proof.
  intros Hm Hk out st' Hrun. unfold bind in Hrun.
  destruct (m st) as [[[a|e] st1]|] eqn:Hmst; [| |discriminate].
  - eapply orderly_trans; [eapply Hm; eauto | eapply Hk; eauto].
  - inversion Hrun; subst. eapply Hm; eauto.
Qed.

Lemma orderly_at_bind_self {B} (st : state) (k : TransactionAbc -> M B) :
  orderly_at st (k (self st)) -> orderly_at st (bind get_self k).
Proof. intros Hk out st' Hrun. exact (Hk out st' Hrun). Qed.

Lemma orderly_at_bind_pure {A B} (st : state) (m : M A) (k : A -> M B) :
  pure m -> (forall a, orderly_at st (k a)) -> orderly_at st (bind m k).
Proof.
  intros Hm Hk. apply orderly_at_bind; [apply pure_orderly_at, Hm|].
  intros a st1 Hrun. rewrite (Hm _ _ _ Hrun). apply Hk.
Qed.

(** The last step of the proofs below: the one slot the request is for
    holds what the answer brought. *)
Ltac stored Hanswer :=
  let sl := fresh "sl" in
  let x := fresh "x" in
  let Hf := fresh "Hf" in
  let Hb := fresh "Hb" in
  intros sl x Hf Hb; destruct sl; try discriminate Hf;
  simpl in Hb; rewrite ?Hanswer in Hb; try discriminate Hb;
  inversion Hb; subst; reflexivity.

(** And the other one: a slot holds what it held, or what the answer
    brought. *)
Ltac only_stored Hanswer :=
  let sl := fresh "sl" in
  let x := fresh "x" in
  let Hne := fresh "Hne" in
  let Hh := fresh "Hh" in
  intros sl x Hne Hh; destruct sl;
  first
    [ left; exact Hh
    | exfalso; apply Hne; reflexivity
    | discriminate Hh
    | right; split; [reflexivity|]; simpl; rewrite ?Hanswer; exact Hh ].

Ltac unchanged :=
  let sl := fresh "sl" in
  let x := fresh "x" in
  let Hne := fresh "Hne" in
  let Hh := fresh "Hh" in
  intros sl x Hne Hh; destruct sl;
  first [exact Hh | exfalso; apply Hne; reflexivity].

Lemma status_orderly (st : state) : orderly_at st Transaction.status.
Proof.
  intros out st' Hrun. pose proof (status_walks st out st' Hrun) as Hm.
  destruct (_tx_receipt (self st)) as [rc|] eqn:Hrc.
  - rewrite (status_cached st rc Hrc) in Hrun. inversion Hrun; subst.
    apply orderly_refl.
  - rewrite (status_uncached st Hrc) in Hrun.
    destruct (receipt_answer st) as [[rc|]|e] eqn:Ha; unfold receipt_answer in Ha;
      inversion Hrun; subst;
      apply (orderly_request _ _ (GetTransactionReceipt (_tx_hash (self st))));
      first [exact Hm | reflexivity | stored Ha | only_stored Ha].
Qed.

Lemma wait_checks_orderly (n : nat) (st : state) :
  orderly_at st (Transaction.wait_checks n).
Proof.
  revert st. induction n as [|n IH]; intros st; [apply pure_orderly_at, pure_ret|].
  rewrite wait_checks_S. apply orderly_at_bind; [apply status_orderly|].
  intros s st1 _. destruct (negb (status_eqb s PENDING));
    [apply pure_orderly_at, pure_ret | apply IH].
Qed.

Lemma wait_poll_orderly (fuel : nat) (st : state) :
  orderly_at st (Transaction.wait_poll fuel).
Proof.
  revert st. induction fuel as [|fuel IH]; intros st;
    [intros out st' H; discriminate|].
  rewrite wait_poll_S. apply orderly_at_bind; [apply status_orderly|].
  intros s st1 Hrun. destruct s; simpl; try (apply pure_orderly_at, pure_ret).
  apply status_pending in Hrun. destruct Hrun as (Hrc & _ & ->).
  apply orderly_at_bind; [|intros; apply IH].
  intros out st' Hs. inversion Hs; subst.
  apply (orderly_request _ _ (Sleep 250)); [|reflexivity| |].
  - apply moves_one.
    apply (move_sleep (asked (GetTransactionReceipt (_tx_hash (self st))) st) Hrc).
  - intros sl x Hf. destruct sl; discriminate Hf.
  - intros sl x _ Hh. left. exact Hh.
Qed.

Lemma wait_orderly (fuel : nat) (st : state) :
  orderly_at st (Transaction.wait fuel).
Proof.
  unfold Transaction.wait. apply orderly_at_bind; [apply wait_checks_orderly|].
  intros [|] st1 _; [apply pure_orderly_at, pure_ret | apply wait_poll_orderly].
Qed.

Lemma fetch_tx_data_orderly {A} (f : M A) :
  (forall st, orderly_at st f) ->
  forall st, orderly_at st (Transaction._fetch_tx_data f).
Proof.
  intros Hf st. unfold Transaction._fetch_tx_data.
  apply orderly_at_bind_self. apply orderly_at_bind; [|intros; apply Hf].
  destruct (_tx_data (self st)) as [d|] eqn:Hd; [apply pure_orderly_at, pure_ret|].
  unfold Transaction.dev_get_transaction. intros out st' Hrun. run_m.
  destruct (get_transaction _ _ _) as [d|e] eqn:Ha; inversion Hrun; subst;
    apply (orderly_request _ _ (GetTransaction (_tx_hash (self st))));
    try reflexivity; try (stored Ha); try (only_stored Ha).
  - eapply moves_step; [apply (move_ask_tx_data st (_tx_hash (self st)) Hd)|].
    apply moves_one.
    apply (move_set_tx_data (asked (GetTransaction (_tx_hash (self st))) st) d Hd).
  - apply moves_one. apply move_ask_tx_data. exact Hd.
Qed.

Lemma fetch_tx_receipt_orderly {A} (fuel : nat) (f : M A) :
  (forall st, orderly_at st f) ->
  forall st, orderly_at st (Transaction._fetch_tx_receipt fuel f).
Proof.
  intros Hf st. unfold Transaction._fetch_tx_receipt.
  apply orderly_at_bind_self. apply orderly_at_bind.
  - destruct (_tx_receipt (self st));
      [apply pure_orderly_at, pure_ret | apply wait_orderly].
  - intros _ st1 _. apply orderly_at_bind_self.
    apply orderly_at_bind_pure; [apply pure_assert | intros; apply Hf].
Qed.

Lemma fetch_trace_transaction_orderly (st : state) :
  orderly_at st Transaction._fetch_trace_transaction.
Proof.
  unfold Transaction._fetch_trace_transaction.
  apply orderly_at_bind_self.
  destruct (_trace_transaction (self st)) as [t|] eqn:Ht;
    [apply pure_orderly_at, pure_ret|].
  apply orderly_at_bind_pure; [apply pure_assert|]. intros _.
  unfold Transaction.dev_trace_transaction. intros out st' Hrun. run_m.
  destruct (trace_transaction _ _ _) as [t|e] eqn:Ha; inversion Hrun; subst;
    apply (orderly_request _ _ (TraceTransaction (_tx_hash (self st))));
    try reflexivity; try (stored Ha); try (only_stored Ha).
  - eapply moves_step; [apply (move_ask_trace st (_tx_hash (self st)) Ht)|].
    apply moves_one.
    apply (move_set_trace (asked (TraceTransaction (_tx_hash (self st))) st) t Ht).
  - apply moves_one. apply move_ask_trace. exact Ht.
Qed.

Lemma fetch_debug_trace_transaction_orderly (st : state) :
  orderly_at st Transaction._fetch_debug_trace_transaction.
Proof.
  unfold Transaction._fetch_debug_trace_transaction.
  apply orderly_at_bind_self.
  destruct (_debug_trace_transaction (self st)) as [t|] eqn:Ht;
    [apply pure_orderly_at, pure_ret|].
  unfold Transaction.dev_debug_trace_transaction. intros out st' Hrun. run_m.
  destruct (debug_trace_transaction _ _ _ _) as [t|e] eqn:Ha;
    inversion Hrun; subst;
    apply (orderly_request _ _
             (DebugTraceTransaction (_tx_hash (self st))
                [("enableMemory", PyBool true)]));
    try reflexivity; try (stored Ha); try (only_stored Ha).
  - eapply moves_step;
      [apply (move_ask_debug_trace st (_tx_hash (self st))
                [("enableMemory", PyBool true)] Ht)|].
    apply moves_one.
    apply (move_set_debug_trace
             (asked (DebugTraceTransaction (_tx_hash (self st))
                       [("enableMemory", PyBool true)]) st) t Ht).
  - apply moves_one. apply move_ask_debug_trace. exact Ht.
Qed.

Lemma console_logs_orderly (fuel : nat) (st : state) :
  orderly_at st (Transaction.console_logs fuel).
Proof.
  revert st. unfold Transaction.console_logs. apply fetch_tx_receipt_orderly.
  intros st. apply orderly_at_bind_self.
  destruct (Transaction.is_anvil _); [|apply pure_orderly_at, pure_raise].
  apply orderly_at_bind; [apply fetch_trace_transaction_orderly|].
  intros _ st1 _. apply pure_orderly_at. solve_pure.
Qed.

Lemma events_orderly (fuel : nat) (st : state) :
  orderly_at st (Transaction.events fuel).
Proof.
  revert st. unfold Transaction.events. apply fetch_tx_receipt_orderly.
  intros st. apply orderly_at_bind_self.
  destruct (_events (self st)) as [evs|] eqn:Hev; [apply pure_orderly_at, pure_ret|].
  apply orderly_at_bind_pure; [apply pure_assert|]. intros _.
  destruct (_recipient_fqn (self st)) as [fqn|] eqn:Hfqn.
  - apply orderly_at_bind_pure; [apply pure_tx_receipt_field|]. intros logs.
    apply orderly_at_bind_pure; [apply pure_lift|]. intros evs.
    intros out st' Hrun. run_m. inversion Hrun; subst.
    apply orderly_silent; [|reflexivity|unchanged].
    apply moves_one. apply (move_set_events st evs Hev). congruence.
  - intros out st' Hrun. unfold Transaction.tx_receipt_field in Hrun. run_m.
    destruct (Py.slot_getitem (_tx_receipt (self st)) "logs") as [logs|e] eqn:Hlogs;
      [|inversion Hrun; subst; apply orderly_refl].
    destruct (Py.len logs) as [n|e] eqn:Hlen;
      [|inversion Hrun; subst; apply orderly_refl].
    destruct n as [|n]; simpl in Hrun; inversion Hrun; subst; [|apply orderly_refl].
    apply orderly_silent; [|reflexivity|unchanged].
    apply moves_one. apply (move_set_events st [] Hev). intros _. split; [reflexivity|].
    unfold Py.slot_getitem, Py.dict_getitem in Hlogs.
    destruct (_tx_receipt (self st)) as [rc|] eqn:Hrc; [|discriminate].
    destruct (Py.dict_get rc "logs") as [l|] eqn:Hl; [|discriminate].
    inversion Hlogs; subst. exists rc, logs. auto.
Qed.

Lemma raw_events_orderly (fuel : nat) (st : state) :
  orderly_at st (Transaction.raw_events fuel).
Proof.
  revert st. unfold Transaction.raw_events. apply fetch_tx_receipt_orderly.
  intros st. apply pure_orderly_at.
  apply pure_bind; [apply pure_get_self|]. intros h.
  apply pure_bind; [apply pure_assert|]. intros _.
  apply pure_bind; [apply pure_tx_receipt_field|]. intros logs. solve_pure.
Qed.

(** The replay and the decoding, with an empty error slot: one call, and
    the error its answer carries, if any, is cached. *)
Lemma replay_decode_run (st st' : state) (out : result (option pyval)) :
  (revert_data <- Transaction.replay ;; Transaction.decode_revert revert_data) st
    = Some (out, st') ->
  st' = match replayed_error (self st)
                (call (dev_chain (_chain (self st))) (history st)
                   (_tx_params (self st))) with
        | Some err =>
            updated (set_error (Some err)) (asked (Call (_tx_params (self st))) st)
        | None => asked (Call (_tx_params (self st))) st
        end.
Proof.
  unfold Transaction.replay, Transaction.decode_revert, Transaction.dev_call,
    replayed_error, rbind, updated, asked.
  run_m. intros Hrun. cbn [self history] in *.
  repeat (case_match; simplify_eq; cbn [self history] in * );
    first [reflexivity | congruence].
Qed.

Lemma error_orderly (fuel : nat) (st : state) :
  orderly_at st (Transaction.error fuel).
Proof.
  revert st. unfold Transaction.error. apply fetch_tx_receipt_orderly. intros st.
  apply orderly_at_bind; [apply status_orderly|]. intros s st1 _.
  destruct (status_eqb s SUCCESS); [apply pure_orderly_at, pure_ret|].
  apply orderly_at_bind_self.
  destruct (_error (self st1)) as [err|] eqn:He; [apply pure_orderly_at, pure_ret|].
  intros out st' Hrun. apply replay_decode_run in Hrun.
  destruct (replayed_error _ _) as [err|] eqn:Hre; subst st';
    apply (orderly_request _ _ (Call (_tx_params (self st1))));
    try reflexivity.
  - eapply moves_step; [apply (move_ask_call st1 (_tx_params (self st1)) He)|].
    apply moves_one.
    apply (move_set_error (asked (Call (_tx_params (self st1))) st1) err He).
  - intros sl x Hf Hb. destruct sl; try discriminate Hf.
    simpl in Hb. rewrite Hre in Hb. exact Hb.
  - intros sl x Hne Hh. destruct sl;
      first [ left; exact Hh | exfalso; apply Hne; reflexivity | idtac ].
    right. split; [reflexivity|]. simpl. rewrite Hre. exact Hh.
  - apply moves_one. apply move_ask_call. exact He.
  - intros sl x Hf Hb. destruct sl; try discriminate Hf.
    simpl in Hb. rewrite Hre in Hb. discriminate Hb.
  - intros sl x _ Hh. left. exact Hh.
Qed.

Lemma return_value_orderly (fuel : nat) (st : state) :
  orderly_at st (Transaction.return_value fuel).
Proof.
  revert st. unfold Transaction.return_value. apply fetch_tx_receipt_orderly.
  intros st.
  apply orderly_at_bind; [apply status_orderly|]. intros s st1 _.
  destruct (negb (status_eqb s SUCCESS)).
  - apply orderly_at_bind; [apply error_orderly|]. intros e st2 _.
    apply pure_orderly_at. solve_pure.
  - apply orderly_at_bind_self.
    apply orderly_at_bind_pure; [apply pure_assert|]. intros _.
    destruct (Transaction.created_contract _); [apply pure_orderly_at, pure_ret|].
    destruct (_abi (self st1)) as [abi|]; [|apply pure_orderly_at, pure_raise].
    destruct (Transaction.is_anvil _).
    + apply orderly_at_bind; [apply fetch_trace_transaction_orderly|].
      intros _ st2 _. apply pure_orderly_at. solve_pure.
    + apply orderly_at_bind; [apply fetch_debug_trace_transaction_orderly|].
      intros _ st2 _. apply pure_orderly_at. solve_pure.
Qed.

Lemma orderly_fmap {A B} (f : A -> B) (m : M A) (st : state) :
  orderly_at st m -> orderly_at st (fmap_M f m).
Proof.
  intros Hm. unfold fmap_M. apply orderly_at_bind; [exact Hm|].
  intros a st1 _. apply pure_orderly_at, pure_ret.
Qed.

(** Every read of every accessor stores the answers it gets. *)
Lemma read_orderly (a : accessor) (fuel : nat) (st : state) :
  orderly_at st (read a fuel).
Proof.
  destruct a; simpl; apply orderly_fmap;
    first
      [ apply fetch_tx_data_orderly; intros st0; apply pure_orderly_at;
        first [ apply pure_tx_data_field | apply pure_tx_data_int
              | apply pure_bind; [apply pure_tx_data_field | intros; solve_pure]
              | apply pure_bind; [apply pure_tx_data_int | intros; solve_pure] ]
      | apply fetch_tx_receipt_orderly; intros st0; apply pure_orderly_at;
        apply pure_tx_receipt_int
      | apply status_orderly | apply wait_orderly | apply console_logs_orderly
      | apply events_orderly | apply raw_events_orderly | apply error_orderly
      | apply return_value_orderly
      | apply pure_orderly_at; unfold Transaction.tx_hash, Transaction.chain;
        solve_pure ].
Qed.

Lemma after_reads_orderly (st st' : state) : after_reads st st' -> orderly st st'.
Proof.
  induction 1 as [|st st1 a fuel out st2 _ IH Hrun]; [apply orderly_refl|].
  eapply orderly_trans; [exact IH | eapply read_orderly; eauto].
Qed.

(* ===================================================================== *)
(** ** The caches of a handle *)
(* ===================================================================== *)

(** C5. Over any sequence of reads of any accessors, in whatever state of
    the handle and of the backend.  A slot that holds something keeps it,
    and no request for the data of a slot populated at the start is made.
    A request whose answer brings data (a transaction, receipt or trace
    that is not null, a replayed call whose revert payload the codec turns
    into a revert error) leaves that data in the slot, and no request for
    the slot follows it: the data of a slot is brought at most once.  A
    slot other than the event list holds nothing but what it held or what
    such an answer brought, so a request that brings nothing fills
    nothing.  The event list that [events] returns is the one in the slot
    afterwards. *)
Theorem slots_fetched_at_most_once (st st' : state) :
  after_reads st st' ->
  (forall sl, kept sl (self st) (self st'))
  /\ (exists new,
        history st' = (new ++ history st)%list
        /\ (forall sl, populated sl (self st) = true ->
                       Forall (fun ev => fetches sl ev = false) new)
        /\ (forall sl post ev pre x,
              new = (post ++ ev :: pre)%list ->
              fetches sl ev = true ->
              brought (self st) (pre ++ history st) ev = Some x ->
              held sl (self st') = Some x
              /\ Forall (fun ev' => fetches sl ev' = false) post)
        /\ (forall sl x,
              sl <> DecodedEvents ->
              held sl (self st') = Some x ->
              held sl (self st) = Some x
              \/ exists post ev pre,
                   new = (post ++ ev :: pre)%list
                   /\ fetches sl ev = true
                   /\ brought (self st) (pre ++ history st) ev = Some x))
  /\ (forall fuel evs st2,
        Transaction.events fuel st' = Some (Ok evs, st2) ->
        held DecodedEvents (self st2) = Some (EventList evs)).
Proof.
  intros Hreads. destruct (after_reads_orderly st st' Hreads) as (Hm & Hs & Ho).
  split; [intros sl; apply moves_kept; exact Hm|]. split.
  - destruct (moves_history _ _ Hm) as (new & Hh & Hq).
    exists new. split; [exact Hh|]. split; [exact Hq|]. split.
    + intros sl post ev pre x -> Hf Hb.
      apply (Hs sl post ev pre x); [|assumption..].
      rewrite Hh, <- app_assoc. reflexivity.
    + intros sl x Hne Hheld.
      destruct (Ho sl x Hne Hheld) as [Hold | (post & ev & pre & Hh' & Hf & Hb)];
        [left; exact Hold|].
      right. exists post, ev, pre. split; [|split; assumption].
      rewrite Hh in Hh'. apply new_events_split in Hh'. exact Hh'.
  - intros fuel evs st2 Hrun. apply events_ok in Hrun.
    destruct Hrun as (_ & Hev). simpl. rewrite Hev. reflexivity.
Qed.

(** A fresh handle of a failed transaction read five times: the block
    number twice, the error twice, the status.  Three requests are made,
    one for each of the three slots, and their answers are in the slots. *)
Lemma slots_fetched_at_most_once_witness :
  (forall sl,
     kept sl (self (Sample.fresh
                      (Sample.node AnvilDevChain 0 Sample.failure_receipt)
                      (Some Sample.fqn)))
       (self Fixture.read_five_times))
  /\ (exists new,
        history Fixture.read_five_times
        = (new ++ history (Sample.fresh
                             (Sample.node AnvilDevChain 0 Sample.failure_receipt)
                             (Some Sample.fqn)))%list
        /\ (forall sl,
              populated sl
                (self (Sample.fresh
                         (Sample.node AnvilDevChain 0 Sample.failure_receipt)
                         (Some Sample.fqn))) = true ->
              Forall (fun ev => fetches sl ev = false) new)
        /\ (forall sl post ev pre x,
              new = (post ++ ev :: pre)%list ->
              fetches sl ev = true ->
              brought
                (self (Sample.fresh
                         (Sample.node AnvilDevChain 0 Sample.failure_receipt)
                         (Some Sample.fqn)))
                (pre ++ history (Sample.fresh
                                   (Sample.node AnvilDevChain 0 Sample.failure_receipt)
                                   (Some Sample.fqn))) ev = Some x ->
              held sl (self Fixture.read_five_times) = Some x
              /\ Forall (fun ev' => fetches sl ev' = false) post)
        /\ (forall sl x,
              sl <> DecodedEvents ->
              held sl (self Fixture.read_five_times) = Some x ->
              held sl
                (self (Sample.fresh
                         (Sample.node AnvilDevChain 0 Sample.failure_receipt)
                         (Some Sample.fqn))) = Some x
              \/ exists post ev pre,
                   new = (post ++ ev :: pre)%list
                   /\ fetches sl ev = true
                   /\ brought
                        (self (Sample.fresh
                                 (Sample.node AnvilDevChain 0
                                    Sample.failure_receipt)
                                 (Some Sample.fqn)))
                        (pre ++ history
                                  (Sample.fresh
                                     (Sample.node AnvilDevChain 0
                                        Sample.failure_receipt)
                                     (Some Sample.fqn))) ev = Some x))
  /\ (forall fuel evs st2,
        Transaction.events fuel Fixture.read_five_times = Some (Ok evs, st2) ->
        held DecodedEvents (self st2) = Some (EventList evs)).
Proof.
  apply (slots_fetched_at_most_once
           (Sample.fresh (Sample.node AnvilDevChain 0 Sample.failure_receipt)
              (Some Sample.fqn))
           Fixture.read_five_times).
  eapply (after_one_more _ _ A_status 0);
    [eapply (after_one_more _ _ A_error 0);
       [eapply (after_one_more _ _ A_error 0);
          [eapply (after_one_more _ _ A_block_number 0);
             [eapply (after_one_more _ _ A_block_number 0);
                [apply after_no_read | reflexivity]
             | reflexivity]
          | reflexivity]
       | reflexivity]
    | reflexivity].
Defined.

(** C5 as stated fails: a second read fetches again when the first fetch
    brought nothing.  While the transaction is not mined the status is
    PENDING and every read of it asks for the receipt.  On a backend that
    does not know the transaction its data is null, the block number
    raises, and the next read asks for the transaction again.  On the
    handle of a failed contract creation, which has no recipient, every
    read of the error replays the call. *)
Lemma second_read_fetches_again :
  read A_status 0 (Sample.fresh Sample.stuck_node (Some Sample.fqn))
  = Some (Ok (ObsStatus PENDING),
          asked (GetTransactionReceipt Sample.tx_hash)
            (Sample.fresh Sample.stuck_node (Some Sample.fqn)))
  /\ read A_status 0
       (asked (GetTransactionReceipt Sample.tx_hash)
          (Sample.fresh Sample.stuck_node (Some Sample.fqn)))
     = Some (Ok (ObsStatus PENDING),
             asked (GetTransactionReceipt Sample.tx_hash)
               (asked (GetTransactionReceipt Sample.tx_hash)
                  (Sample.fresh Sample.stuck_node (Some Sample.fqn))))
  /\ read A_block_number 0 (Sample.fresh Fixture.forgetful_node (Some Sample.fqn))
  = Some (Raise TypeError,
          asked (GetTransaction Sample.tx_hash)
            (Sample.fresh Fixture.forgetful_node (Some Sample.fqn)))
  /\ read A_block_number 0
       (asked (GetTransaction Sample.tx_hash)
          (Sample.fresh Fixture.forgetful_node (Some Sample.fqn)))
     = Some (Raise TypeError,
             asked (GetTransaction Sample.tx_hash)
               (asked (GetTransaction Sample.tx_hash)
                  (Sample.fresh Fixture.forgetful_node (Some Sample.fqn))))
  /\ read A_error 0 Fixture.failed_creation
     = Some (Raise (AssertionError ""),
             asked (Call Sample.tx_params) Fixture.failed_creation)
  /\ read A_error 0 (asked (Call Sample.tx_params) Fixture.failed_creation)
     = Some (Raise (AssertionError ""),
             asked (Call Sample.tx_params)
               (asked (Call Sample.tx_params) Fixture.failed_creation))
  /\ ~ (forall a fuel st out st1 out2 st2 sl,
          read a fuel st = Some (out, st1) ->
          read a fuel st1 = Some (out2, st2) ->
          forall new,
            history st2 = (new ++ history st1)%list ->
            Forall (fun ev => fetches sl ev = false) new).
Proof.
  split; [reflexivity|]. split; [reflexivity|].
  split; [reflexivity|]. split; [reflexivity|].
  split; [reflexivity|]. split; [reflexivity|].
  intros Hall.
  pose proof (Hall A_error O Fixture.failed_creation _ _ _ _ DecodedError
                eq_refl eq_refl [Call Sample.tx_params] eq_refl) as Hno.
  inversion Hno as [|ev l Hf _]. discriminate Hf.
Qed.

(* ===================================================================== *)
(** ** Events of a transaction without recipient *)
(* ===================================================================== *)

Lemma events_without_recipient (fuel : nat) (st : state) (rc : dict)
    (logs : pyval) (n : nat) :
  _recipient_fqn (self st) = None ->
  _tx_receipt (self st) = Some rc ->
  _events (self st) = None ->
  Py.dict_get rc "logs" = Some logs ->
  Py.len logs = Ok n ->
  Transaction.events fuel st =
    match n with
    | O => Some (Ok [], updated (set_events (Some [])) st)
    | S _ => Some (Raise (AssertionError ""), st)
    end.
Proof.
  intros Hfqn Hrc Hev Hlogs Hlen. unfold Transaction.events.
  rewrite (fetch_receipt_cached fuel _ st rc Hrc).
  unfold Transaction.tx_receipt_field. run_m.
  rewrite Hev, Hrc, Hfqn. simpl. rewrite Hrc. simpl.
  unfold Py.dict_getitem. rewrite Hlogs. simpl. rewrite Hlen.
  destruct n; reflexivity.
Qed.

(** C8. On a handle without recipient whose receipt is at hand and whose
    event slot is empty, the events accessor looks at the length of the
    receipt's log list: zero gives the empty list, which is cached;
    anything else fails the assertion, and nothing is cached.  Over the
    whole life of such a handle, from its creation through any reads, the
    accessor can only return the empty list, and only when the log list of
    the receipt is empty: a non-empty log list never goes unnoticed. *)
Theorem events_of_contract_creation (fuel : nat) (st : state) :
  _recipient_fqn (self st) = None ->
  (forall rc logs n,
     _tx_receipt (self st) = Some rc -> _events (self st) = None ->
     Py.dict_get rc "logs" = Some logs -> Py.len logs = Ok n ->
     Transaction.events fuel st =
       match n with
       | O => Some (Ok [], updated (set_events (Some [])) st)
       | S _ => Some (Raise (AssertionError ""), st)
       end)
  /\ (reachable st ->
      forall out st',
        Transaction.events fuel st = Some (out, st') ->
        forall evs, out = Ok evs -> evs = [] /\ logs_empty (self st')).
Proof.
  intros Hfqn. split.
  - intros rc logs n Hrc Hev Hlogs Hlen.
    apply (events_without_recipient fuel st rc logs n); assumption.
  - intros Hreach out st' Hrun evs ->.
    pose proof (events_walks fuel st _ _ Hrun) as Hm.
    pose proof (moves_events_inv _ _ Hm (reachable_events_inv st Hreach)) as Hinv.
    destruct (events_ok fuel st st' evs Hrun) as (_ & Hev).
    apply (Hinv); [|exact Hev].
    destruct (moves_identity _ _ Hm) as (_&_&_&_&Hr&_). congruence.
Qed.

(** A contract creation whose receipt has no log, and one whose receipt
    has a log. *)
Lemma events_of_contract_creation_witness :
  Transaction.events 0
    (Sample.resolved Sample.stuck_node None Sample.created_receipt)
  = Some (Ok [],
          updated (set_events (Some []))
            (Sample.resolved Sample.stuck_node None Sample.created_receipt))
  /\ Transaction.events 0
       (Sample.resolved Sample.stuck_node None Sample.receipt_with_log)
     = Some (Raise (AssertionError ""),
             Sample.resolved Sample.stuck_node None Sample.receipt_with_log)
  /\ logs_empty
       (self (updated (set_events (Some []))
                (updated (set_tx_receipt (Some Sample.created_receipt))
                   (asked (GetTransactionReceipt Sample.tx_hash)
                      (Sample.fresh
                         (Sample.node AnvilDevChain 0 Sample.created_receipt)
                         None))))).
Proof.
  split; [|split].
  - apply (proj1 (events_of_contract_creation 0
             (Sample.resolved Sample.stuck_node None Sample.created_receipt)
             eq_refl)
             Sample.created_receipt (PyList []) 0%nat); reflexivity.
  - apply (proj1 (events_of_contract_creation 0
             (Sample.resolved Sample.stuck_node None Sample.receipt_with_log)
             eq_refl)
             Sample.receipt_with_log (PyList [Sample.a_log]) 1%nat); reflexivity.
  - apply (proj2 (events_of_contract_creation 0
             (Sample.fresh (Sample.node AnvilDevChain 0 Sample.created_receipt) None)
             eq_refl)
             (reachable_init _ _ _ _ _ _ _)
             (Ok [])
             (updated (set_events (Some []))
                (updated (set_tx_receipt (Some Sample.created_receipt))
                   (asked (GetTransactionReceipt Sample.tx_hash)
                      (Sample.fresh
                         (Sample.node AnvilDevChain 0 Sample.created_receipt)
                         None))))
             eq_refl [] eq_refl).
Defined.

(* ===================================================================== *)
(** ** The [wait] protocol *)
(* ===================================================================== *)

Lemma sleep_asked (millis : N) (st : state) :
  sleep millis st = Some (Ok tt, asked (Sleep millis) st).
Proof. reflexivity. Qed.

Lemma pending_history_S (x : string) (k : nat) (hist : list event) :
  pending_history x (S k) hist =
    ((if (40 <=? k)%nat then [Sleep 250] else [])
       ++ GetTransactionReceipt x :: pending_history x k hist)%list.
Proof. reflexivity. Qed.

Lemma polled_S_early (st : state) (k : nat) :
  (k < 40)%nat ->
  polled st (S k) = asked (GetTransactionReceipt (_tx_hash (self st))) (polled st k).
Proof.
  intros Hk. unfold polled, asked. rewrite pending_history_S.
  destruct (40 <=? k)%nat eqn:E; [apply Nat.leb_le in E; lia | reflexivity].
Qed.

Lemma polled_S_late (st : state) (k : nat) :
  (40 <= k)%nat ->
  polled st (S k) =
    asked (Sleep 250)
      (asked (GetTransactionReceipt (_tx_hash (self st))) (polled st k)).
Proof.
  intros Hk. unfold polled, asked. rewrite pending_history_S.
  destruct (40 <=? k)%nat eqn:E; [reflexivity | apply Nat.leb_gt in E; lia].
Qed.

Lemma count_sleeps_pending (x : string) (n : nat) (hist : list event) :
  count_events is_sleep (pending_history x n hist)
  = (n - 40 + count_events is_sleep hist)%nat.
Proof.
  induction n as [|n IH]; [reflexivity|]. rewrite pending_history_S.
  destruct (40 <=? n)%nat eqn:E; cbn [app count_events is_sleep]; rewrite IH.
  - apply Nat.leb_le in E. lia.
  - apply Nat.leb_gt in E. lia.
Qed.

Lemma count_requests_pending (x : string) (n : nat) (hist : list event) :
  count_events is_receipt_request (pending_history x n hist)
  = (n + count_events is_receipt_request hist)%nat.
Proof.
  induction n as [|n IH]; [reflexivity|]. rewrite pending_history_S.
  destruct (40 <=? n)%nat; cbn [app count_events is_receipt_request]; rewrite IH; lia.
Qed.

Section Wait.

Variable st : state.
Hypothesis no_receipt : _tx_receipt (self st) = None.

Lemma status_polled_pending (k : nat) :
  receipt_answer (polled st k) = Ok None ->
  Transaction.status (polled st k) =
    Some (Ok PENDING,
          asked (GetTransactionReceipt (_tx_hash (self st))) (polled st k)).
Proof.
  intros Hans. rewrite status_uncached by exact no_receipt. rewrite Hans. reflexivity.
Qed.

Lemma status_polled_mined (k : nat) (rc : dict) (s : TransactionStatusEnum) :
  receipt_answer (polled st k) = Ok (Some rc) ->
  Transaction.status_of_receipt (Some rc) = Ok s ->
  Transaction.status (polled st k) = Some (Ok s, receipt_stored rc (polled st k)).
Proof.
  intros Hans Hs. rewrite status_uncached by exact no_receipt.
  rewrite Hans, Hs. reflexivity.
Qed.

Section Mined.

Variables (n : nat) (rc : dict) (s : TransactionStatusEnum).
Hypothesis pending_before : forall k, (k < n)%nat -> receipt_answer (polled st k) = Ok None.
Hypothesis mined_at : receipt_answer (polled st n) = Ok (Some rc).
Hypothesis flag_parses : Transaction.status_of_receipt (Some rc) = Ok s.

Lemma settled_not_pending : status_eqb s PENDING = false.
Proof.
  destruct s; try reflexivity.
  exfalso. eapply status_of_receipt_not_pending; eauto.
Qed.

(** The bounded checks, started after [k] pending polls with [m] checks
    left. *)
Lemma wait_checks_run (m k : nat) :
  (k + m = 40)%nat -> (k <= n)%nat ->
  Transaction.wait_checks m (polled st k) =
    if (n <? 40)%nat then Some (Ok true, receipt_stored rc (polled st n))
    else Some (Ok false, polled st 40).
Proof.
  revert k. induction m as [|m IH]; intros k Hkm Hkn.
  - replace k with 40%nat by lia.
    destruct (n <? 40)%nat eqn:E; [apply Nat.ltb_lt in E; lia | reflexivity].
  - rewrite wait_checks_S. unfold bind at 1.
    destruct (Nat.eq_dec k n) as [->|Hne].
    + rewrite (status_polled_mined n rc s mined_at flag_parses).
      rewrite settled_not_pending. simpl.
      destruct (n <? 40)%nat eqn:E; [reflexivity | apply Nat.ltb_ge in E; lia].
    + rewrite (status_polled_pending k) by (apply pending_before; lia).
      simpl. rewrite <- polled_S_early by lia. apply IH; lia.
Qed.

(** The sleeping loop, started after [k] pending polls. *)
Lemma wait_poll_run (fuel k : nat) :
  (40 <= k)%nat -> (k <= n)%nat -> (n - k < fuel)%nat ->
  Transaction.wait_poll fuel (polled st k) =
    Some (Ok tt, receipt_stored rc (polled st n)).
Proof.
  revert k. induction fuel as [|fuel IH]; intros k H40 Hkn Hfuel; [lia|].
  rewrite wait_poll_S. unfold bind at 1.
  destruct (Nat.eq_dec k n) as [->|Hne].
  - rewrite (status_polled_mined n rc s mined_at flag_parses).
    rewrite settled_not_pending. reflexivity.
  - rewrite (status_polled_pending k) by (apply pending_before; lia).
    simpl. unfold bind at 1. rewrite sleep_asked.
    rewrite <- polled_S_late by lia. apply IH; lia.
Qed.

Lemma wait_run (fuel : nat) :
  (n - 39 <= fuel)%nat ->
  Transaction.wait fuel st = Some (Ok tt, receipt_stored rc (polled st n)).
Proof.
  intros Hfuel. unfold Transaction.wait. unfold bind.
  assert (Hst : st = polled st 0) by (destruct st; reflexivity).
  rewrite Hst at 1. rewrite (wait_checks_run 40 0) by lia.
  destruct (n <? 40)%nat eqn:E; [reflexivity|].
  apply Nat.ltb_ge in E. apply wait_poll_run; lia.
Qed.

End Mined.

Section Stuck.

Hypothesis never_mined : forall k, receipt_answer (polled st k) = Ok None.

Lemma wait_checks_stuck (m k : nat) :
  (k + m = 40)%nat ->
  Transaction.wait_checks m (polled st k) = Some (Ok false, polled st 40).
Proof.
  revert k. induction m as [|m IH]; intros k Hkm.
  - replace k with 40%nat by lia. reflexivity.
  - rewrite wait_checks_S. unfold bind at 1.
    rewrite (status_polled_pending k) by apply never_mined.
    simpl. rewrite <- polled_S_early by lia. apply IH; lia.
Qed.

Lemma wait_poll_stuck (fuel k : nat) :
  (40 <= k)%nat -> Transaction.wait_poll fuel (polled st k) = None.
Proof.
  revert k. induction fuel as [|fuel IH]; intros k H40; [reflexivity|].
  rewrite wait_poll_S. unfold bind at 1.
  rewrite (status_polled_pending k) by apply never_mined.
  simpl. unfold bind at 1. rewrite sleep_asked.
  rewrite <- polled_S_late by lia. apply IH; lia.
Qed.

Lemma wait_stuck (fuel : nat) : Transaction.wait fuel st = None.
Proof.
  unfold Transaction.wait. unfold bind.
  assert (Hst : st = polled st 0) by (destruct st; reflexivity).
  rewrite Hst at 1. rewrite (wait_checks_stuck 40 0) by lia.
  apply wait_poll_stuck. lia.
Qed.

End Stuck.

End Wait.

(** C6. [wait] on a handle whose receipt is cached returns at its first
    check, with the state as it was: no request, no sleep.  On a handle
    without receipt, let the backend answer [n] polls with no receipt and
    the next one with a receipt.  Then [wait] returns after exactly [n + 1]
    polls, with the receipt stored; it has slept [n - 40] times, never
    before the forty-first poll, 250 ms each time; and it needs no more
    than [n - 39] evaluations of the condition of its second loop,
    whatever [n] is.  If the backend never has a receipt, [wait] is still
    running after any number of iterations: there is no timeout. *)
Theorem wait_protocol (fuel : nat) (st : state) :
  (forall rc s,
     _tx_receipt (self st) = Some rc ->
     Transaction.status_of_receipt (Some rc) = Ok s ->
     Transaction.wait fuel st = Some (Ok tt, st))
  /\ (forall n rc s,
        _tx_receipt (self st) = None ->
        (forall k, (k < n)%nat -> receipt_answer (polled st k) = Ok None) ->
        receipt_answer (polled st n) = Ok (Some rc) ->
        Transaction.status_of_receipt (Some rc) = Ok s ->
        (n - 39 <= fuel)%nat ->
        Transaction.wait fuel st = Some (Ok tt, receipt_stored rc (polled st n))
        /\ count_events is_receipt_request (history (receipt_stored rc (polled st n)))
           = (n + 1 + count_events is_receipt_request (history st))%nat
        /\ count_events is_sleep (history (receipt_stored rc (polled st n)))
           = (n - 40 + count_events is_sleep (history st))%nat
        /\ (forall ms, In (Sleep ms) (history (receipt_stored rc (polled st n))) ->
                       ms = 250%N \/ In (Sleep ms) (history st)))
  /\ (_tx_receipt (self st) = None ->
      (forall k, receipt_answer (polled st k) = Ok None) ->
      Transaction.wait fuel st = None).
Proof.
  split; [|split].
  - intros rc s Hrc Hs. apply (wait_returns_at_once fuel st st s).
    + rewrite (status_cached st rc Hrc), Hs. reflexivity.
    + intros ->. eapply status_of_receipt_not_pending; eauto.
  - intros n rc s Hnone Hpending Hmined Hs Hfuel.
    split; [apply (wait_run st Hnone n rc s); assumption|].
    split; [|split].
    + simpl. rewrite count_requests_pending. lia.
    + simpl. rewrite count_sleeps_pending. lia.
    + intros ms Hin. simpl in Hin. destruct Hin as [Hin|Hin]; [discriminate|].
      clear - Hin. induction n as [|n IH]; [right; exact Hin|].
      rewrite pending_history_S in Hin. apply in_app_or in Hin.
      destruct Hin as [Hin|Hin].
      * destruct (40 <=? n)%nat; [|contradiction].
        destruct Hin as [Hin|[]]. left. congruence.
      * destruct Hin as [Hin|Hin]; [discriminate | auto].
  - intros Hnone Hnever. apply (wait_stuck st Hnone Hnever).
Qed.

(** A transaction mined when forty-one polls have found nothing: [wait]
    gets through with two evaluations of its second loop, after forty-two
    polls and one sleep.  A handle with a cached receipt: [wait] changes
    nothing.  A transaction that is never mined: [wait] is still running
    after a thousand iterations. *)
Lemma wait_protocol_witness :
  Transaction.wait 2
    (Sample.fresh (Sample.node GanacheDevChain 41 Sample.success_receipt)
       (Some Sample.fqn))
  = Some (Ok tt,
          receipt_stored Sample.success_receipt
            (polled
               (Sample.fresh (Sample.node GanacheDevChain 41 Sample.success_receipt)
                  (Some Sample.fqn)) 41))
  /\ Transaction.wait 0
       (Sample.resolved Sample.stuck_node (Some Sample.fqn) Sample.failure_receipt)
     = Some (Ok tt,
             Sample.resolved Sample.stuck_node (Some Sample.fqn)
               Sample.failure_receipt)
  /\ Transaction.wait 1000 (Sample.fresh Sample.stuck_node (Some Sample.fqn)) = None.
Proof.
  split; [|split].
  - apply (proj1 (proj2 (wait_protocol 2
             (Sample.fresh (Sample.node GanacheDevChain 41 Sample.success_receipt)
                (Some Sample.fqn))))
             41%nat Sample.success_receipt SUCCESS).
    + reflexivity.
    + intros k Hk. do 41 (destruct k as [|k]; [reflexivity|]). lia.
    + reflexivity.
    + reflexivity.
    + simpl. lia.
  - apply (proj1 (wait_protocol 0
             (Sample.resolved Sample.stuck_node (Some Sample.fqn)
                Sample.failure_receipt))
             Sample.failure_receipt FAILURE); reflexivity.
  - apply (proj2 (proj2 (wait_protocol 1000
             (Sample.fresh Sample.stuck_node (Some Sample.fqn)))));
      [reflexivity | intros k; reflexivity].
Defined.

(* ===================================================================== *)
(** ** The return value of a successful transaction *)
(* ===================================================================== *)

Lemma return_value_of_creation (fuel : nat) (st : state) (rc : dict)
    (address : pyval) :
  _tx_receipt (self st) = Some rc ->
  Transaction.status_of_receipt (Some rc) = Ok SUCCESS ->
  Transaction.created_contract (Some rc) = Some address ->
  Transaction.return_value fuel st =
    Some (Ok (Instance_of (_return_type (self st)) address), st).
Proof.
  intros Hrc Hs Hcc. unfold Transaction.return_value.
  rewrite (fetch_receipt_cached fuel _ st rc Hrc).
  unfold bind at 1. rewrite (status_cached st rc Hrc), Hs. simpl.
  run_m. repeat first [rewrite Hrc | rewrite Hcc | progress simpl]. reflexivity.
Qed.

(** C2, as the code has it.  The status comes first: when the status flag
    of the receipt says SUCCESS and the receipt carries a created-contract
    address that is not [None], the return value is [return_type(address,
    chain)], whatever the ABI (even none) and the return type, with nothing
    decoded and nothing asked of the backend.  When the flag says FAILURE,
    the address does not matter: no value is returned. *)
Theorem return_value_of_created_contract (fuel : nat) (st : state) (rc : dict)
    (address : pyval) :
  _tx_receipt (self st) = Some rc ->
  Transaction.created_contract (Some rc) = Some address ->
  (Transaction.status_of_receipt (Some rc) = Ok SUCCESS ->
   Transaction.return_value fuel st =
     Some (Ok (Instance_of (_return_type (self st)) address), st))
  /\ (Transaction.status_of_receipt (Some rc) = Ok FAILURE ->
      forall v st', Transaction.return_value fuel st <> Some (Ok v, st')).
Proof.
  intros Hrc Hcc. split.
  - intros Hs. apply (return_value_of_creation fuel st rc address); assumption.
  - intros Hs v st'. rewrite (return_value_of_failure fuel st rc Hrc Hs).
    destruct (Transaction.error fuel st) as [[[[err|]|e] st2]|]; discriminate.
Qed.

Lemma return_value_of_created_contract_witness :
  Transaction.return_value 0
    (Sample.resolved Sample.stuck_node None Sample.created_receipt)
  = Some (Ok (Instance_of "Storage" (PyStr "0x5fbd")),
          Sample.resolved Sample.stuck_node None Sample.created_receipt).
Proof.
  apply (proj1 (return_value_of_created_contract 0
           (Sample.resolved Sample.stuck_node None Sample.created_receipt)
           Sample.created_receipt (PyStr "0x5fbd") eq_refl eq_refl)).
  reflexivity.
Defined.

(** C2 as stated fails: the receipt of a contract creation that reverted
    carries a created-contract address, and the return value is not a
    reference to it; the decoded revert error is raised. *)
Lemma return_value_of_failed_creation :
  Transaction.created_contract (Some Sample.failed_creation_receipt)
    = Some (PyStr "0x5fbd")
  /\ Transaction.return_value 0
       (Sample.resolved
          (Sample.node AnvilDevChain 0 Sample.failed_creation_receipt)
          (Some Sample.fqn) Sample.failed_creation_receipt)
     = Some (Raise (TransactionRevertedError
                      (PyList [PyInt 8; PyInt 195; PyInt 121; PyInt 160])),
             updated
               (set_error (Some (PyList [PyInt 8; PyInt 195; PyInt 121; PyInt 160])))
               (asked (Call Sample.tx_params)
                  (Sample.resolved
                     (Sample.node AnvilDevChain 0 Sample.failed_creation_receipt)
                     (Some Sample.fqn) Sample.failed_creation_receipt)))
  /\ ~ (forall fuel st rc address,
          _tx_receipt (self st) = Some rc ->
          Transaction.created_contract (Some rc) = Some address ->
          exists st',
            Transaction.return_value fuel st =
              Some (Ok (Instance_of (_return_type (self st)) address), st')).
Proof.
  split; [reflexivity|]. split; [reflexivity|].
  intros Hall.
  destruct (Hall O
              (Sample.resolved
                 (Sample.node AnvilDevChain 0 Sample.failed_creation_receipt)
                 (Some Sample.fqn) Sample.failed_creation_receipt)
              Sample.failed_creation_receipt (PyStr "0x5fbd") eq_refl eq_refl)
    as (st' & Hrun).
  discriminate Hrun.
Qed.

Lemma trace_output_frame (frame : dict) (rest : list dict) (res : pyval)
    (hex : string) (output : list Byte.byte) :
  Py.dict_get frame "result" = Some res ->
  Py.getitem res "output" = Ok (PyStr hex) ->
  Py.bytes_fromhex_str (Py.str_from 2 hex) = Ok output ->
  Transaction.trace_output (frame :: rest) = Ok output.
Proof.
  intros Hres Hout Hhex. unfold Transaction.trace_output, Py.dict_getitem.
  simpl. rewrite Hres. simpl. rewrite Hout. simpl. exact Hhex.
Qed.

Lemma debug_trace_output_field (trace : dict) (hex : string)
    (output : list Byte.byte) :
  Py.dict_get trace "returnValue" = Some (PyStr hex) ->
  Py.bytes_fromhex_str hex = Ok output ->
  Transaction.debug_trace_output trace = Ok output.
Proof.
  intros Hrv Hhex. unfold Transaction.debug_trace_output, Py.dict_getitem.
  rewrite Hrv. simpl. exact Hhex.
Qed.

Section SuccessfulCall.

Variables (fuel : nat) (st : state) (rc abi : dict).
Hypothesis receipt_cached : _tx_receipt (self st) = Some rc.
Hypothesis succeeded : Transaction.status_of_receipt (Some rc) = Ok SUCCESS.
Hypothesis no_contract : Transaction.created_contract (Some rc) = None.
Hypothesis has_abi : _abi (self st) = Some abi.

Lemma return_value_full_trace (trace : list dict) (st1 : state)
    (output : list Byte.byte) :
  dev_class (dev_chain (_chain (self st))) = AnvilDevChain ->
  trace_at_hand st trace st1 ->
  Transaction.trace_output trace = Ok output ->
  Transaction.return_value fuel st = Some (decoded_output (self st) abi output, st1).
Proof.
  intros Hcls Hat Hout. unfold Transaction.return_value.
  rewrite (fetch_receipt_cached fuel _ st rc receipt_cached).
  unfold bind at 1. rewrite (status_cached st rc receipt_cached), succeeded. simpl.
  unfold Transaction._fetch_trace_transaction, Transaction.dev_trace_transaction,
    decoded_output.
  run_m.
  destruct Hat as [(Ht & ->)|(Ht & Hans & ->)];
    repeat first
      [ rewrite receipt_cached | rewrite no_contract | rewrite has_abi
      | rewrite Hcls | rewrite Ht | rewrite Hans | rewrite Hout
      | progress simpl ];
    destruct (_process_return_data _ _ _ _); reflexivity.
Qed.

Lemma return_value_debug_trace (trace : dict) (st1 : state)
    (output : list Byte.byte) :
  dev_class (dev_chain (_chain (self st))) <> AnvilDevChain ->
  debug_trace_at_hand st trace st1 ->
  Transaction.debug_trace_output trace = Ok output ->
  Transaction.return_value fuel st = Some (decoded_output (self st) abi output, st1).
Proof.
  intros Hcls Hat Hout. unfold Transaction.return_value.
  rewrite (fetch_receipt_cached fuel _ st rc receipt_cached).
  unfold bind at 1. rewrite (status_cached st rc receipt_cached), succeeded. simpl.
  unfold Transaction._fetch_debug_trace_transaction,
    Transaction.dev_debug_trace_transaction, decoded_output.
  assert (Hanvil : Transaction.is_anvil (dev_class (dev_chain (_chain (self st)))) = false)
    by (revert Hcls; destruct (dev_class (dev_chain (_chain (self st))));
        simpl; congruence).
  run_m.
  destruct Hat as [(Ht & ->)|(Ht & Hans & ->)];
    repeat first
      [ rewrite receipt_cached | rewrite no_contract | rewrite has_abi
      | rewrite Hanvil | rewrite Ht | rewrite Hans | rewrite Hout
      | progress simpl ];
    destruct (_process_return_data _ _ _ _); reflexivity.
Qed.

End SuccessfulCall.

Lemma trace_at_hand_after (st st1 : state) (trace : list dict) :
  trace_at_hand st trace st1 ->
  trace_at_hand st1 trace st1
  /\ same_identity (self st) (self st1)
  /\ _tx_receipt (self st1) = _tx_receipt (self st).
Proof.
  intros [(Ht & ->)|(Ht & Hans & ->)].
  - split; [left; auto|]. repeat split.
  - split; [left; auto|]. repeat split.
Qed.

Lemma debug_trace_at_hand_after (st st1 : state) (trace : dict) :
  debug_trace_at_hand st trace st1 ->
  debug_trace_at_hand st1 trace st1
  /\ same_identity (self st) (self st1)
  /\ _tx_receipt (self st1) = _tx_receipt (self st).
Proof.
  intros [(Ht & ->)|(Ht & Hans & ->)].
  - split; [left; auto|]. repeat split.
  - split; [left; auto|]. repeat split.
Qed.

(** C7. Take a handle whose cached receipt says SUCCESS and carries no
    created-contract address, with an ABI.  On an Anvil backend the return
    value is what the codec decodes, against the ABI and the return type,
    from the bytes of [trace[0]["result"]["output"]] without its first two
    characters, where the trace is the cached one or, with an empty slot,
    the one the backend returns to a single request.  On any other backend
    it is what the codec decodes from the bytes of [returnValue] in the
    debug trace, cached or asked once with the option enableMemory set.
    Either way the trace is in its slot afterwards and a second read
    returns the same without asking. *)
Theorem return_value_decodes_trace_output (fuel : nat) (st : state) (rc abi : dict) :
  _tx_receipt (self st) = Some rc ->
  Transaction.status_of_receipt (Some rc) = Ok SUCCESS ->
  Transaction.created_contract (Some rc) = None ->
  _abi (self st) = Some abi ->
  (forall trace st1 frame rest res hex output,
     dev_class (dev_chain (_chain (self st))) = AnvilDevChain ->
     trace_at_hand st trace st1 ->
     trace = frame :: rest ->
     Py.dict_get frame "result" = Some res ->
     Py.getitem res "output" = Ok (PyStr hex) ->
     Py.bytes_fromhex_str (Py.str_from 2 hex) = Ok output ->
     Transaction.return_value fuel st
       = Some (decoded_output (self st) abi output, st1)
     /\ Transaction.return_value fuel st1
       = Some (decoded_output (self st) abi output, st1))
  /\ (forall trace st1 hex output,
        dev_class (dev_chain (_chain (self st))) <> AnvilDevChain ->
        debug_trace_at_hand st trace st1 ->
        Py.dict_get trace "returnValue" = Some (PyStr hex) ->
        Py.bytes_fromhex_str hex = Ok output ->
        Transaction.return_value fuel st
          = Some (decoded_output (self st) abi output, st1)
        /\ Transaction.return_value fuel st1
          = Some (decoded_output (self st) abi output, st1)).
Proof.
  intros Hrc Hs Hcc Habi. split.
  - intros trace st1 frame rest res hex output Hcls Hat -> Hres Hout Hhex.
    pose proof (trace_output_frame frame rest res hex output Hres Hout Hhex) as Hto.
    split.
    + apply (return_value_full_trace fuel st rc abi Hrc Hs Hcc Habi
               (frame :: rest) st1 output Hcls Hat Hto).
    + destruct (trace_at_hand_after _ _ _ Hat) as (Hat1 & Hid & Hrc1).
      destruct Hid as (_ & _ & Habi1 & Hrt1 & _ & Hch1).
      replace (decoded_output (self st) abi output)
        with (decoded_output (self st1) abi output)
        by (unfold decoded_output; rewrite Hch1, Hrt1; reflexivity).
      apply (return_value_full_trace fuel st1 rc abi) with (trace := frame :: rest);
        first [congruence | assumption].
  - intros trace st1 hex output Hcls Hat Hrv Hhex.
    pose proof (debug_trace_output_field trace hex output Hrv Hhex) as Hto.
    split.
    + apply (return_value_debug_trace fuel st rc abi Hrc Hs Hcc Habi
               trace st1 output Hcls Hat Hto).
    + destruct (debug_trace_at_hand_after _ _ _ Hat) as (Hat1 & Hid & Hrc1).
      destruct Hid as (_ & _ & Habi1 & Hrt1 & _ & Hch1).
      replace (decoded_output (self st) abi output)
        with (decoded_output (self st1) abi output)
        by (unfold decoded_output; rewrite Hch1, Hrt1; reflexivity).
      apply (return_value_debug_trace fuel st1 rc abi) with (trace := trace);
        first [congruence | assumption].
Qed.

Lemma return_value_decodes_trace_output_witness :
  Transaction.return_value 0
    (Sample.resolved (Sample.node AnvilDevChain 0 Sample.success_receipt)
       (Some Sample.fqn) Sample.success_receipt)
  = Some (Ok (Decoded (PyList [PyInt 0; PyInt 42])),
          updated (set_trace_transaction (Some Sample.call_trace))
            (asked (TraceTransaction Sample.tx_hash)
               (Sample.resolved
                  (Sample.node AnvilDevChain 0 Sample.success_receipt)
                  (Some Sample.fqn) Sample.success_receipt)))
  /\ Transaction.return_value 0
       (Sample.resolved (Sample.node HardhatDevChain 0 Sample.success_receipt)
          (Some Sample.fqn) Sample.success_receipt)
     = Some (Ok (Decoded (PyList [PyInt 0; PyInt 42])),
             updated (set_debug_trace_transaction (Some Sample.debug_trace))
               (asked (DebugTraceTransaction Sample.tx_hash
                         [("enableMemory", PyBool true)])
                  (Sample.resolved
                     (Sample.node HardhatDevChain 0 Sample.success_receipt)
                     (Some Sample.fqn) Sample.success_receipt))).
Proof.
  split.
  - refine (proj1 (proj1 (return_value_decodes_trace_output 0
              (Sample.resolved (Sample.node AnvilDevChain 0 Sample.success_receipt)
                 (Some Sample.fqn) Sample.success_receipt)
              Sample.success_receipt Sample.abi eq_refl eq_refl eq_refl eq_refl)
              Sample.call_trace _
              [("result", PyDict [("output", PyStr "0x002a")])] []
              (PyDict [("output", PyStr "0x002a")]) "0x002a"
              [Byte.x00; Byte.x2a] eq_refl _ eq_refl eq_refl eq_refl eq_refl)).
    right. repeat split; reflexivity.
  - refine (proj1 (proj2 (return_value_decodes_trace_output 0
              (Sample.resolved (Sample.node HardhatDevChain 0 Sample.success_receipt)
                 (Some Sample.fqn) Sample.success_receipt)
              Sample.success_receipt Sample.abi eq_refl eq_refl eq_refl eq_refl)
              Sample.debug_trace _ "002a" [Byte.x00; Byte.x2a]
              _ _ eq_refl eq_refl)).
    + discriminate.
    + right. repeat split; reflexivity.
Defined.

(* ===================================================================== *)
(** ** Legacy transactions *)
(* ===================================================================== *)

Lemma fetch_tx_data_at_hand {A} (f : M A) (st st1 : state) (d : dict) :
  tx_data_at_hand st d st1 ->
  Transaction._fetch_tx_data f st = f st1 /\ _tx_data (self st1) = Some d.
Proof.
  unfold Transaction._fetch_tx_data, Transaction.dev_get_transaction. run_m.
  intros [(Hd & ->)|(Hd & Hans & ->)]; rewrite Hd.
  - split; reflexivity.
  - rewrite Hans. split; reflexivity.
Qed.

Lemma tx_data_int_at (k : string) (st : state) (d : dict) (x : pyval) (z : Z) :
  _tx_data (self st) = Some d ->
  Py.dict_get d k = Some x -> Py.int16 x = Ok z ->
  Transaction.tx_data_int k st = Some (Ok z, st).
Proof.
  intros Hd Hx Hz. unfold Transaction.tx_data_int, Transaction.tx_data_field. run_m.
  rewrite Hd. simpl. unfold Py.dict_getitem. rewrite Hx, Hz. reflexivity.
Qed.

(** C9. On a legacy handle with the raw transaction data at hand (cached,
    or returned by the backend to the one request made), [v] and
    [gas_price] return the fields [v] and [gasPrice] parsed as hexadecimal
    numbers, and [type] parses the field [type]: zero gives LEGACY, any
    other number fails the assertion instead of giving a tag. *)
Theorem legacy_accessors (st st1 : state) (d : dict) :
  tx_data_at_hand st d st1 ->
  (forall x z, Py.dict_get d "v" = Some x -> Py.int16 x = Ok z ->
     LegacyTransaction.v st = Some (Ok z, st1))
  /\ (forall x z, Py.dict_get d "gasPrice" = Some x -> Py.int16 x = Ok z ->
        LegacyTransaction.gas_price st = Some (Ok z, st1))
  /\ (forall x z, Py.dict_get d "type" = Some x -> Py.int16 x = Ok z ->
        LegacyTransaction.type st =
          Some (if z =? 0 then Ok LEGACY else Raise (AssertionError ""), st1)).
Proof.
  intros Hat. split; [|split]; intros x z Hx Hz.
  - unfold LegacyTransaction.v.
    destruct (fetch_tx_data_at_hand (Transaction.tx_data_int "v") st st1 d Hat)
      as (-> & Hd).
    apply (tx_data_int_at "v" st1 d x z Hd Hx Hz).
  - unfold LegacyTransaction.gas_price.
    destruct (fetch_tx_data_at_hand (Transaction.tx_data_int "gasPrice") st st1 d Hat)
      as (-> & Hd).
    apply (tx_data_int_at "gasPrice" st1 d x z Hd Hx Hz).
  - unfold LegacyTransaction.type.
    match goal with
    | |- Transaction._fetch_tx_data ?f st = _ =>
        destruct (fetch_tx_data_at_hand f st st1 d Hat) as (-> & Hd)
    end.
    unfold bind at 1. rewrite (tx_data_int_at "type" st1 d x z Hd Hx Hz).
    destruct (z =? 0); reflexivity.
Qed.

(** A legacy transaction read for the first time, and the raw data of a
    fee-market transaction behind a legacy handle. *)
Lemma legacy_accessors_witness :
  LegacyTransaction.v (Sample.fresh Sample.stuck_node (Some Sample.fqn))
    = Some (Ok 27,
            updated (set_tx_data (Some Sample.tx_data))
              (asked (GetTransaction Sample.tx_hash)
                 (Sample.fresh Sample.stuck_node (Some Sample.fqn))))
  /\ LegacyTransaction.gas_price (Sample.fresh Sample.stuck_node (Some Sample.fqn))
     = Some (Ok 1000000000,
             updated (set_tx_data (Some Sample.tx_data))
               (asked (GetTransaction Sample.tx_hash)
                  (Sample.fresh Sample.stuck_node (Some Sample.fqn))))
  /\ LegacyTransaction.type (Sample.fresh Sample.stuck_node (Some Sample.fqn))
     = Some (Ok LEGACY,
             updated (set_tx_data (Some Sample.tx_data))
               (asked (GetTransaction Sample.tx_hash)
                  (Sample.fresh Sample.stuck_node (Some Sample.fqn))))
  /\ LegacyTransaction.type
       (updated (set_tx_data (Some Sample.tx_data_eip1559))
          (Sample.fresh Sample.stuck_node (Some Sample.fqn)))
     = Some (Raise (AssertionError ""),
             updated (set_tx_data (Some Sample.tx_data_eip1559))
               (Sample.fresh Sample.stuck_node (Some Sample.fqn))).
Proof.
  assert (Hfresh :
    tx_data_at_hand (Sample.fresh Sample.stuck_node (Some Sample.fqn))
      Sample.tx_data
      (updated (set_tx_data (Some Sample.tx_data))
         (asked (GetTransaction Sample.tx_hash)
            (Sample.fresh Sample.stuck_node (Some Sample.fqn)))))
    by (right; repeat split; reflexivity).
  assert (Hcached :
    tx_data_at_hand
      (updated (set_tx_data (Some Sample.tx_data_eip1559))
         (Sample.fresh Sample.stuck_node (Some Sample.fqn)))
      Sample.tx_data_eip1559
      (updated (set_tx_data (Some Sample.tx_data_eip1559))
         (Sample.fresh Sample.stuck_node (Some Sample.fqn))))
    by (left; split; reflexivity).
  split; [|split; [|split]].
  - apply (proj1 (legacy_accessors _ _ _ Hfresh) (PyStr "0x1b") 27); reflexivity.
  - apply (proj1 (proj2 (legacy_accessors _ _ _ Hfresh)) (PyStr "0x3b9aca00")
             1000000000); reflexivity.
  - apply (proj2 (proj2 (legacy_accessors _ _ _ Hfresh)) (PyStr "0x0") 0); reflexivity.
  - apply (proj2 (proj2 (legacy_accessors _ _ _ Hcached)) (PyStr "0x2") 2); reflexivity.
Defined.

(* ===================================================================== *)
(** ** Where the revert payload is read *)
(* ===================================================================== *)

Lemma strip_0x_str (s : string) :
  (b <~ Py.startswith_val "0x" (PyStr s) ;
   if b : bool then Py.slice_from 2 (PyStr s) else Ok (PyStr s))%res
  = Ok (PyStr (without_0x s)).
Proof. unfold without_0x. simpl. destruct (Py.startswith "0x" s); reflexivity. Qed.

Section FailedCall.

Variables (fuel : nat) (st : state) (rc : dict) (fqn : string) (e_data : pyval).
Hypothesis receipt_cached : _tx_receipt (self st) = Some rc.
Hypothesis failed : Transaction.status_of_receipt (Some rc) = Ok FAILURE.
Hypothesis no_error_yet : _error (self st) = None.
Hypothesis replay_reverts :
  call (dev_chain (_chain (self st))) (history st) (_tx_params (self st))
    = Raise (JsonRpcError e_data).

Lemma replay_payload :
  Transaction.replay st =
    match Transaction.revert_data_of (dev_class (dev_chain (_chain (self st)))) e_data with
    | Ok revert_data => Some (Ok revert_data, asked (Call (_tx_params (self st))) st)
    | Raise _ => Some (Raise (JsonRpcError e_data),
                       asked (Call (_tx_params (self st))) st)
    end.
Proof.
  unfold Transaction.replay, Transaction.dev_call. run_m.
  rewrite replay_reverts. simpl.
  destruct (Transaction.revert_data_of _ _); reflexivity.
Qed.

Lemma error_reads_payload (hex : string) (payload : list Byte.byte) :
  _recipient_fqn (self st) = Some fqn ->
  Transaction.revert_data_of (dev_class (dev_chain (_chain (self st)))) e_data
    = Ok (PyStr hex) ->
  Py.bytes_fromhex_str hex = Ok payload ->
  Transaction.error fuel st = decoded_error st payload fqn.
Proof.
  intros Hfqn Hrd Hhex.
  rewrite (error_of_failure fuel st rc receipt_cached failed), no_error_yet.
  unfold bind at 1. rewrite replay_payload, Hrd.
  unfold Transaction.decode_revert, decoded_error. run_m. simpl.
  rewrite Hfqn. simpl. rewrite Hhex. simpl.
  destruct (_process_revert_data _ _ _ _) as [[]|[]]; reflexivity.
Qed.

Lemma error_without_payload (e : exn) :
  Transaction.revert_data_of (dev_class (dev_chain (_chain (self st)))) e_data
    = Raise e ->
  Transaction.error fuel st =
    Some (Raise (JsonRpcError e_data), asked (Call (_tx_params (self st))) st).
Proof.
  intros Hrd.
  rewrite (error_of_failure fuel st rc receipt_cached failed), no_error_yet.
  unfold bind at 1. rewrite replay_payload, Hrd. reflexivity.
Qed.

End FailedCall.

(** C4, as the code has it.  Let the replayed call fail with an error whose
    data is [e_data].  On an Anvil and on a Ganache backend the payload is
    the string at [e_data["data"]]; on a Hardhat backend it is the string
    one level deeper, at [e_data["data"]["data"]]; on a backend of none of
    the three classes no payload is read.  In the two cases that read a
    payload, a leading [0x] is removed.  For a handle with a cached FAILURE
    receipt, no cached error and a recipient, the error accessor then gives
    the codec the bytes of the payload so stripped and returns, and caches,
    the error the codec raises; on a backend of none of the three classes
    it raises the backend's error again and decodes nothing. *)
Theorem revert_payload_depth (e_data : pyval) :
  (forall s, Py.getitem e_data "data" = Ok (PyStr s) ->
     Transaction.revert_data_of AnvilDevChain e_data = Ok (PyStr (without_0x s))
     /\ Transaction.revert_data_of GanacheDevChain e_data = Ok (PyStr (without_0x s)))
  /\ (forall d s,
        Py.getitem e_data "data" = Ok d -> Py.getitem d "data" = Ok (PyStr s) ->
        Transaction.revert_data_of HardhatDevChain e_data = Ok (PyStr (without_0x s)))
  /\ Transaction.revert_data_of OtherDevChain e_data = Raise NotImplementedError
  /\ (forall fuel st rc fqn,
        _tx_receipt (self st) = Some rc ->
        Transaction.status_of_receipt (Some rc) = Ok FAILURE ->
        _error (self st) = None ->
        _recipient_fqn (self st) = Some fqn ->
        call (dev_chain (_chain (self st))) (history st) (_tx_params (self st))
          = Raise (JsonRpcError e_data) ->
        (forall hex payload,
           Transaction.revert_data_of (dev_class (dev_chain (_chain (self st))))
             e_data = Ok (PyStr hex) ->
           Py.bytes_fromhex_str hex = Ok payload ->
           Transaction.error fuel st = decoded_error st payload fqn)
        /\ (dev_class (dev_chain (_chain (self st))) = OtherDevChain ->
            Transaction.error fuel st =
              Some (Raise (JsonRpcError e_data),
                    asked (Call (_tx_params (self st))) st))).
Proof.
  split; [|split; [|split]].
  - intros s Hs. unfold Transaction.revert_data_of. rewrite Hs.
    split; apply strip_0x_str.
  - intros d s Hd Hs. unfold Transaction.revert_data_of. rewrite Hd. simpl.
    rewrite Hs. apply strip_0x_str.
  - reflexivity.
  - intros fuel st rc fqn Hrc Hfail Herr Hfqn Hcall. split.
    + intros hex payload Hrd Hhex.
      apply (error_reads_payload fuel st rc fqn e_data Hrc Hfail Herr Hcall
               hex payload Hfqn Hrd Hhex).
    + intros Hcls.
      apply (error_without_payload fuel st rc e_data Hrc Hfail Herr Hcall
               NotImplementedError).
      rewrite Hcls. reflexivity.
Qed.

(** The error of a failed call on a Hardhat backend, whose payload sits at
    the second level, and on a backend of no known class. *)
Lemma revert_payload_depth_witness :
  Transaction.revert_data_of AnvilDevChain (Sample.error_data AnvilDevChain 0)
    = Ok (PyStr "08c379a0")
  /\ Transaction.revert_data_of HardhatDevChain (Sample.error_data HardhatDevChain 0)
     = Ok (PyStr "08c379a0")
  /\ Transaction.error 0
       (Sample.resolved (Sample.node HardhatDevChain 0 Sample.failure_receipt)
          (Some Sample.fqn) Sample.failure_receipt)
     = Some (Ok (Some (PyList [PyInt 8; PyInt 195; PyInt 121; PyInt 160])),
             updated
               (set_error (Some (PyList [PyInt 8; PyInt 195; PyInt 121; PyInt 160])))
               (asked (Call Sample.tx_params)
                  (Sample.resolved
                     (Sample.node HardhatDevChain 0 Sample.failure_receipt)
                     (Some Sample.fqn) Sample.failure_receipt)))
  /\ Transaction.error 0
       (Sample.resolved (Sample.node OtherDevChain 0 Sample.failure_receipt)
          (Some Sample.fqn) Sample.failure_receipt)
     = Some (Raise (JsonRpcError (Sample.error_data OtherDevChain 0)),
             asked (Call Sample.tx_params)
               (Sample.resolved
                  (Sample.node OtherDevChain 0 Sample.failure_receipt)
                  (Some Sample.fqn) Sample.failure_receipt)).
Proof.
  split; [|split; [|split]].
  - apply (proj1 (proj1 (revert_payload_depth (Sample.error_data AnvilDevChain 0))
                    "0x08c379a0" eq_refl)).
  - apply (proj1 (proj2 (revert_payload_depth (Sample.error_data HardhatDevChain 0)))
             (PyDict [("data", PyStr "0x08c379a0")]) "0x08c379a0" eq_refl eq_refl).
  - apply (proj1 (proj2 (proj2 (proj2
             (revert_payload_depth (Sample.error_data HardhatDevChain 0)))) 0%nat
             (Sample.resolved (Sample.node HardhatDevChain 0 Sample.failure_receipt)
                (Some Sample.fqn) Sample.failure_receipt)
             Sample.failure_receipt Sample.fqn
             eq_refl eq_refl eq_refl eq_refl eq_refl)
             "08c379a0" [Byte.x08; Byte.xc3; Byte.x79; Byte.xa0] eq_refl eq_refl).
  - apply (proj2 (proj2 (proj2 (proj2
             (revert_payload_depth (Sample.error_data OtherDevChain 0)))) 0%nat
             (Sample.resolved (Sample.node OtherDevChain 0 Sample.failure_receipt)
                (Some Sample.fqn) Sample.failure_receipt)
             Sample.failure_receipt Sample.fqn
             eq_refl eq_refl eq_refl eq_refl eq_refl)
             eq_refl).
Defined.

(** C4 as stated fails on Ganache.  It is not the full-trace backend: it
    is no [AnvilDevChain], the only class [trace_transaction] is called
    on.  Yet its payload is read at [error.data] directly, not one level
    deeper, where there is nothing to read, and the error accessor returns
    the decoded revert error. *)
Lemma ganache_payload_read_at_first_level :
  Transaction.is_anvil GanacheDevChain = false
  /\ Py.getitem (Sample.error_data GanacheDevChain 0) "data" = Ok (PyStr "0x08c379a0")
  /\ (d <~ Py.getitem (Sample.error_data GanacheDevChain 0) "data" ;
      Py.getitem d "data")%res = Raise TypeError
  /\ Transaction.revert_data_of GanacheDevChain (Sample.error_data GanacheDevChain 0)
     = Ok (PyStr "08c379a0")
  /\ Transaction.error 0
       (Sample.resolved (Sample.node GanacheDevChain 0 Sample.failure_receipt)
          (Some Sample.fqn) Sample.failure_receipt)
     = Some (Ok (Some (PyList [PyInt 8; PyInt 195; PyInt 121; PyInt 160])),
             updated
               (set_error (Some (PyList [PyInt 8; PyInt 195; PyInt 121; PyInt 160])))
               (asked (Call Sample.tx_params)
                  (Sample.resolved
                     (Sample.node GanacheDevChain 0 Sample.failure_receipt)
                     (Some Sample.fqn) Sample.failure_receipt))).
Proof. repeat split. Qed.

(* ===================================================================== *)
(** ** Hexadecimal byte strings *)
(* ===================================================================== *)

Lemma fromhex_go_byte (b : Byte.byte) (rest : string) (fuel : nat) :
  Py.fromhex_go (S fuel) (Hex.byte_hex b rest) =
    (bs <~ Py.fromhex_go fuel rest ; Ok (b :: bs))%res.
Proof. destruct b; reflexivity. Qed.

Lemma fromhex_go_bytes_hex (bs : list Byte.byte) (fuel : nat) :
  (length bs < fuel)%nat -> Py.fromhex_go fuel (Hex.bytes_hex bs) = Ok bs.
Proof.
  revert fuel. induction bs as [|b bs IH]; intros fuel Hfuel.
  - destruct fuel; [lia | reflexivity].
  - destruct fuel as [|fuel]; [lia|]. cbn [Hex.bytes_hex].
    rewrite fromhex_go_byte. rewrite IH by (simpl in Hfuel; lia). reflexivity.
Qed.

Lemma length_bytes_hex (bs : list Byte.byte) :
  String.length (Hex.bytes_hex bs) = (2 * length bs)%nat.
Proof. induction bs as [|b bs IH]; simpl; [reflexivity | rewrite IH; lia]. Qed.

Lemma fromhex_bytes_hex (bs : list Byte.byte) :
  Py.bytes_fromhex_str (Hex.bytes_hex bs) = Ok bs.
Proof.
  unfold Py.bytes_fromhex_str. apply fromhex_go_bytes_hex.
  rewrite length_bytes_hex. lia.
Qed.

(** X1. Whatever bytes a [HexBytes] field holds, validating what the
    serializer writes gives these bytes back; and the validator hands a
    [bytes] or a [bytearray] through, so that a value that was validated
    validates to itself. *)
Theorem hex_bytes_round_trip (b : list Byte.byte) :
  BuildDataModel.hex_bytes_validator
    (BuildDataModel.Other (PyStr (BuildDataModel.hex_bytes_serializer b)))
  = BuildDataModel.Valid b
  /\ BuildDataModel.hex_bytes_validator (BuildDataModel.Bytes b)
     = BuildDataModel.Valid b
  /\ BuildDataModel.hex_bytes_validator (BuildDataModel.Bytearray b)
     = BuildDataModel.Valid b.
Proof.
  unfold BuildDataModel.hex_bytes_validator, BuildDataModel.hex_bytes_serializer.
  rewrite fromhex_bytes_hex. repeat split.
Qed.

Lemma hex_digit_char (c : ascii) (d : Z) :
  Py.hex_digit c = Some d ->
  Py.isspace c = false /\ 0 <= d < 16
  /\ Hex.hex_char (Z.to_N d) = Hex.lower c.
Proof.
  revert d. destruct c as [[] [] [] [] [] [] [] []]; intros d H; cbv in H;
    try discriminate; injection H as <-;
    (split; [reflexivity | split; [lia | reflexivity]]).
Qed.

Lemma byte_hex_of_nibbles (hi lo : Z) (rest : string) :
  0 <= hi < 16 -> 0 <= lo < 16 ->
  Hex.byte_hex (Py.byte_of_nibbles hi lo) rest =
    String (Hex.hex_char (Z.to_N hi)) (String (Hex.hex_char (Z.to_N lo)) rest).
Proof.
  intros Hhi Hlo.
  assert (Eh : hi = 0 \/ hi = 1 \/ hi = 2 \/ hi = 3 \/ hi = 4 \/ hi = 5 \/ hi = 6
               \/ hi = 7 \/ hi = 8 \/ hi = 9 \/ hi = 10 \/ hi = 11 \/ hi = 12
               \/ hi = 13 \/ hi = 14 \/ hi = 15) by lia.
  assert (El : lo = 0 \/ lo = 1 \/ lo = 2 \/ lo = 3 \/ lo = 4 \/ lo = 5 \/ lo = 6
               \/ lo = 7 \/ lo = 8 \/ lo = 9 \/ lo = 10 \/ lo = 11 \/ lo = 12
               \/ lo = 13 \/ lo = 14 \/ lo = 15) by lia.
  clear Hhi Hlo.
  repeat (destruct Eh as [->|Eh]); try subst hi;
    repeat (destruct El as [->|El]); try subst lo; reflexivity.
Qed.

Lemma canonical_skip_spaces (s : string) :
  Hex.canonical (Py.skip_spaces s) = Hex.canonical s.
Proof.
  induction s as [|c s IH]; [reflexivity|]. simpl.
  destruct (Py.isspace c) eqn:E; [exact IH|]. simpl. rewrite E. reflexivity.
Qed.

Lemma length_skip_spaces (s : string) :
  (String.length (Py.skip_spaces s) <= String.length s)%nat.
Proof.
  induction s as [|c s IH]; [reflexivity|]. simpl.
  destruct (Py.isspace c); simpl; lia.
Qed.

Lemma fromhex_go_canonical (fuel : nat) (s : string) (bs : list Byte.byte) :
  (String.length s < fuel)%nat ->
  Py.fromhex_go fuel s = Ok bs ->
  Hex.bytes_hex bs = Hex.canonical s.
Proof.
  revert s bs. induction fuel as [|fuel IH]; intros s bs Hfuel Hrun; [lia|].
  simpl in Hrun. rewrite <- canonical_skip_spaces.
  pose proof (length_skip_spaces s) as Hlen.
  destruct (Py.skip_spaces s) as [|c1 [|c2 s']]; try discriminate.
  - inversion Hrun; reflexivity.
  - destruct (Py.hex_digit c1) as [hi|] eqn:E1; [|discriminate].
    destruct (Py.hex_digit c2) as [lo|] eqn:E2; [|discriminate].
    destruct (Py.fromhex_go fuel s') as [bs'|] eqn:Hrec; [|discriminate].
    simpl in Hrun. inversion Hrun; subst bs. clear Hrun.
    destruct (hex_digit_char c1 hi E1) as (S1 & R1 & L1).
    destruct (hex_digit_char c2 lo E2) as (S2 & R2 & L2).
    cbn [Hex.bytes_hex Hex.canonical]. rewrite S1, S2.
    rewrite (byte_hex_of_nibbles hi lo _ R1 R2), L1, L2.
    rewrite (IH s' bs'); [reflexivity | simpl in Hlen; lia | exact Hrec].
Qed.

(** X2. When the validator accepts a string, the bytes it returns
    serialize to that string without its whitespace and in lower case: the
    only strings a [HexBytes] field accepts are hexadecimal spellings, two
    digits for a byte. *)
Theorem hex_bytes_canonical (s : string) (b : list Byte.byte) :
  BuildDataModel.hex_bytes_validator (BuildDataModel.Other (PyStr s))
    = BuildDataModel.Valid b ->
  BuildDataModel.hex_bytes_serializer b = Hex.canonical s
  /\ String.length (Hex.canonical s) = (2 * length b)%nat.
Proof.
  unfold BuildDataModel.hex_bytes_validator, BuildDataModel.hex_bytes_serializer.
  destruct (Py.bytes_fromhex_str s) as [bs|] eqn:Hrun; [|discriminate].
  intros H. inversion H; subst bs.
  assert (Hc : Hex.bytes_hex b = Hex.canonical s).
  { apply (fromhex_go_canonical (S (String.length s)) s b); [lia | exact Hrun]. }
  split; [exact Hc|]. rewrite <- Hc. apply length_bytes_hex.
Qed.

Lemma hex_bytes_canonical_witness :
  BuildDataModel.hex_bytes_serializer [Byte.xde; Byte.xad; Byte.xbe; Byte.xef]
    = Hex.canonical "DE ad  BEef"
  /\ String.length (Hex.canonical "DE ad  BEef")
     = (2 * length [Byte.xde; Byte.xad; Byte.xbe; Byte.xef])%nat.
Proof. apply (hex_bytes_canonical "DE ad  BEef"). reflexivity. Defined.

(* ===================================================================== *)
(** ** Reading twice *)
(* ===================================================================== *)

Lemma fmap_run {A B} (g : A -> B) (m : M A) (st st1 : state) (x : A) :
  m st = Some (Ok x, st1) -> fmap_M g m st = Some (Ok (g x), st1).
Proof. intros H. unfold fmap_M, bind. rewrite H. reflexivity. Qed.

Lemma fetch_tx_data_twice {A} (f : M A) (st st1 : state) (v : A) :
  pure f -> reads_tx_data f ->
  Transaction._fetch_tx_data f st = Some (Ok v, st1) ->
  Transaction._fetch_tx_data f st1 = Some (Ok v, st1).
Proof.
  intros Hp Hr Hrun. unfold Transaction._fetch_tx_data in Hrun.
  apply bind_ok in Hrun. destruct Hrun as (h & st0 & _ & Hrun).
  apply bind_ok in Hrun. destruct Hrun as (u & st2 & _ & Hrun).
  pose proof (Hp _ _ _ Hrun) as ->.
  destruct (Hr _ _ _ Hrun) as [d Hd].
  rewrite (proj1 (fetch_tx_data_at_hand f st2 st2 d (or_introl (conj Hd eq_refl)))).
  exact Hrun.
Qed.

Lemma fetch_tx_receipt_twice {A} (fuel fuel2 : nat) (f : M A)
    (st st1 : state) (v : A) :
  pure f ->
  Transaction._fetch_tx_receipt fuel f st = Some (Ok v, st1) ->
  Transaction._fetch_tx_receipt fuel2 f st1 = Some (Ok v, st1).
Proof.
  intros Hp Hrun. apply fetch_tx_receipt_ok in Hrun.
  destruct Hrun as (st2 & rc & _ & Hrc & Hrun).
  pose proof (Hp _ _ _ Hrun) as ->.
  rewrite (fetch_receipt_cached fuel2 f st2 rc Hrc). exact Hrun.
Qed.

(** [wait] returns only on a receipt whose status flag parses. *)
Lemma wait_checks_settled (n : nat) (st st' : state) :
  Transaction.wait_checks n st = Some (Ok true, st') ->
  exists rc s, _tx_receipt (self st') = Some rc
               /\ Transaction.status_of_receipt (Some rc) = Ok s.
Proof.
  revert st. induction n as [|n IH]; intros st Hrun; [inversion Hrun|].
  rewrite wait_checks_S in Hrun. apply bind_ok in Hrun.
  destruct Hrun as (s & st1 & Hs & Hrun).
  destruct (negb (status_eqb s PENDING)) eqn:Hp.
  - inversion Hrun; subst.
    destruct (status_settles st st' s Hs) as (rc & Hrc & Hst); [|eauto].
    intros ->. discriminate.
  - eapply IH; eauto.
Qed.

Lemma wait_poll_settled (fuel : nat) (st st' : state) :
  Transaction.wait_poll fuel st = Some (Ok tt, st') ->
  exists rc s, _tx_receipt (self st') = Some rc
               /\ Transaction.status_of_receipt (Some rc) = Ok s.
Proof.
  revert st. induction fuel as [|fuel IH]; intros st Hrun; [inversion Hrun|].
  rewrite wait_poll_S in Hrun. apply bind_ok in Hrun.
  destruct Hrun as (s & st1 & Hs & Hrun).
  destruct (status_eqb s PENDING) eqn:Hp.
  - apply bind_ok in Hrun. destruct Hrun as (u & st2 & _ & Hrun). eapply IH; eauto.
  - inversion Hrun; subst.
    destruct (status_settles st st' s Hs) as (rc & Hrc & Hst); [|eauto].
    intros ->. discriminate.
Qed.

Lemma wait_settled (fuel : nat) (st st' : state) :
  Transaction.wait fuel st = Some (Ok tt, st') ->
  exists rc s, _tx_receipt (self st') = Some rc
               /\ Transaction.status_of_receipt (Some rc) = Ok s.
Proof.
  unfold Transaction.wait. intros Hrun. apply bind_ok in Hrun.
  destruct Hrun as ([|] & st1 & Hc & Hrun).
  - inversion Hrun; subst. eapply wait_checks_settled; eauto.
  - eapply wait_poll_settled; eauto.
Qed.

Lemma wait_on_receipt (fuel : nat) (st : state) (rc : dict)
    (s : TransactionStatusEnum) :
  _tx_receipt (self st) = Some rc ->
  Transaction.status_of_receipt (Some rc) = Ok s ->
  Transaction.wait fuel st = Some (Ok tt, st).
Proof.
  intros Hrc Hs. apply (wait_returns_at_once fuel st st s).
  - rewrite (status_cached st rc Hrc), Hs. reflexivity.
  - intros ->. eapply status_of_receipt_not_pending; eauto.
Qed.

Lemma fetch_trace_cached (st : state) (t : list dict) :
  _trace_transaction (self st) = Some t ->
  Transaction._fetch_trace_transaction st = Some (Ok tt, st).
Proof.
  intros Ht. unfold Transaction._fetch_trace_transaction. run_m. rewrite Ht.
  reflexivity.
Qed.

Lemma fetch_debug_trace_cached (st : state) (t : dict) :
  _debug_trace_transaction (self st) = Some t ->
  Transaction._fetch_debug_trace_transaction st = Some (Ok tt, st).
Proof.
  intros Ht. unfold Transaction._fetch_debug_trace_transaction. run_m. rewrite Ht.
  reflexivity.
Qed.

Lemma console_logs_twice (fuel fuel2 : nat) (st st1 : state) (v : list pyval) :
  Transaction.console_logs fuel st = Some (Ok v, st1) ->
  Transaction.console_logs fuel2 st1 = Some (Ok v, st1).
Proof.
  intros Hrun. unfold Transaction.console_logs in *.
  apply fetch_tx_receipt_ok in Hrun. destruct Hrun as (st0 & rc & _ & Hrc & Hrun).
  apply bind_ok in Hrun. destruct Hrun as (h & st0' & Hg & Hrun).
  inversion Hg; subst h st0'. clear Hg.
  destruct (Transaction.is_anvil (dev_class (dev_chain (_chain (self st0)))))
    eqn:Hanvil; [|discriminate].
  apply bind_ok in Hrun. destruct Hrun as ([] & st2 & Hf & Hrun).
  pose proof (fetch_trace_transaction_ok _ _ Hf rc Hrc) as Hrc2.
  destruct (moves_identity _ _ (fetch_trace_transaction_walks st0 _ _ Hf))
    as (_&_&_&_&_&Hch).
  apply bind_ok in Hrun. destruct Hrun as (h & st2' & Hg & Hrun).
  inversion Hg; subst h st2'. clear Hg.
  destruct (_trace_transaction (self st2)) as [t|] eqn:Ht; [|discriminate].
  pose proof (pure_lift _ _ _ _ Hrun) as ->.
  rewrite (fetch_receipt_cached fuel2 _ st2 rc Hrc2).
  unfold bind at 1, get_self at 1. rewrite Hch, Hanvil.
  unfold bind at 1. rewrite (fetch_trace_cached st2 t Ht).
  unfold bind, get_self. rewrite Ht. exact Hrun.
Qed.

Lemma events_twice (fuel fuel2 : nat) (st st1 : state) (v : list pyval) :
  Transaction.events fuel st = Some (Ok v, st1) ->
  Transaction.events fuel2 st1 = Some (Ok v, st1).
Proof.
  intros Hrun. destruct (events_ok fuel st st1 v Hrun) as (Hp & Hev).
  simpl in Hp. apply bool_decide_eq_true in Hp. destruct Hp as [rc Hrc].
  unfold Transaction.events. rewrite (fetch_receipt_cached fuel2 _ st1 rc Hrc).
  unfold bind, get_self. rewrite Hev. reflexivity.
Qed.

Lemma error_twice (fuel fuel2 : nat) (st st1 : state) (v : option pyval) :
  Transaction.error fuel st = Some (Ok v, st1) ->
  settled A_error (ObsError v) (self st1) ->
  Transaction.error fuel2 st1 = Some (Ok v, st1).
Proof.
  intros Hrun Hset. destruct (error_ok fuel st st1 v Hrun) as (Hp & Hcached).
  simpl in Hp. apply bool_decide_eq_true in Hp. destruct Hp as [rc1 Hrc1].
  destruct v as [err|].
  - specialize (Hcached err eq_refl).
    unfold Transaction.error in Hrun.
    apply fetch_tx_receipt_ok in Hrun. destruct Hrun as (st0 & rc & _ & Hrc & Hrun).
    assert (Hkeep : _tx_receipt (self st1) = Some rc).
    { rewrite <- (fetch_receipt_cached fuel _ st0 rc Hrc) in Hrun.
      apply (moves_kept st0 st1 Receipt); [|exact Hrc].
      eapply (error_walks fuel); exact Hrun. }
    apply bind_ok in Hrun. destruct Hrun as (s & st2 & Hs & Hrun).
    rewrite (status_cached st0 rc Hrc) in Hs. inversion Hs as [[Hs' Hst]].
    destruct (status_eqb s SUCCESS) eqn:Hsucc; [discriminate|].
    unfold Transaction.error.
    rewrite (fetch_receipt_cached fuel2 _ st1 rc Hkeep).
    unfold bind at 1. rewrite (status_cached st1 rc Hkeep), Hs', Hsucc.
    unfold bind, get_self. rewrite Hcached. reflexivity.
  - simpl in Hset. rewrite Hrc1 in Hset.
    apply (error_of_success fuel2 st1 rc1 Hrc1 Hset).
Qed.

Lemma return_value_twice (fuel fuel2 : nat) (st st1 : state) (v : return_value_t) :
  Transaction.return_value fuel st = Some (Ok v, st1) ->
  Transaction.return_value fuel2 st1 = Some (Ok v, st1).
Proof.
  intros Hrun. unfold Transaction.return_value in Hrun.
  apply fetch_tx_receipt_ok in Hrun. destruct Hrun as (st0 & rc & _ & Hrc & Hrun).
  apply bind_ok in Hrun. destruct Hrun as (s & st2 & Hs & Hrun).
  rewrite (status_cached st0 rc Hrc) in Hs. inversion Hs as [[Hs' Hst]].
  subst st2. clear Hs.
  destruct (negb (status_eqb s SUCCESS)) eqn:Hsucc.
  { apply bind_ok in Hrun. destruct Hrun as (e & st3 & _ & Hrun).
    destruct e; discriminate. }
  assert (s = SUCCESS) as -> by (destruct s; simpl in Hsucc; congruence).
  apply bind_ok in Hrun. destruct Hrun as (h & st0' & Hg & Hrun).
  inversion Hg; subst h st0'. clear Hg.
  apply bind_ok in Hrun. destruct Hrun as (u & st0' & Ha & Hrun).
  apply pure_assert in Ha. subst st0'.
  rewrite Hrc in Hrun.
  destruct (Transaction.created_contract (Some rc)) as [addr|] eqn:Hcc.
  { inversion Hrun; subst.
    apply (return_value_of_creation fuel2 st1 rc addr Hrc Hs' Hcc). }
  destruct (_abi (self st0)) as [abi|] eqn:Habi; [|discriminate].
  destruct (Transaction.is_anvil (dev_class (dev_chain (_chain (self st0)))))
    eqn:Hanvil.
  - apply bind_ok in Hrun. destruct Hrun as ([] & st2 & Hf & Hrun).
    pose proof (fetch_trace_transaction_walks st0 _ _ Hf) as Hm.
    destruct (moves_identity _ _ Hm) as (_&_&Habi2&Hrt2&_&Hch2).
    pose proof (moves_kept _ _ Receipt Hm rc Hrc) as Hrc2.
    apply bind_ok in Hrun. destruct Hrun as (h & st2' & Hg & Hrun).
    inversion Hg; subst h st2'. clear Hg.
    destruct (_trace_transaction (self st2)) as [t|] eqn:Ht; [|discriminate].
    apply bind_ok in Hrun. destruct Hrun as (o & st3 & Ho & Hrun).
    pose proof (pure_lift _ _ _ _ Ho) as ->. unfold lift in Ho.
    apply bind_ok in Hrun. destruct Hrun as (w & st3 & Hw & Hrun).
    pose proof (pure_lift _ _ _ _ Hw) as ->. unfold lift in Hw.
    inversion Hrun; subst v st1. clear Hrun.
    rewrite (return_value_full_trace fuel2 st2 rc abi Hrc2 Hs' Hcc
               (eq_trans Habi2 Habi) t st2 o).
    + unfold decoded_output. inversion Hw as [Hw']. rewrite Hw'. reflexivity.
    + rewrite Hch2. destruct (dev_class _); simpl in Hanvil; congruence.
    + left. auto.
    + inversion Ho. reflexivity.
  - apply bind_ok in Hrun. destruct Hrun as ([] & st2 & Hf & Hrun).
    pose proof (fetch_debug_trace_transaction_walks st0 _ _ Hf) as Hm.
    destruct (moves_identity _ _ Hm) as (_&_&Habi2&Hrt2&_&Hch2).
    pose proof (moves_kept _ _ Receipt Hm rc Hrc) as Hrc2.
    apply bind_ok in Hrun. destruct Hrun as (h & st2' & Hg & Hrun).
    inversion Hg; subst h st2'. clear Hg.
    destruct (_debug_trace_transaction (self st2)) as [t|] eqn:Ht; [|discriminate].
    apply bind_ok in Hrun. destruct Hrun as (o & st3 & Ho & Hrun).
    pose proof (pure_lift _ _ _ _ Ho) as ->. unfold lift in Ho.
    apply bind_ok in Hrun. destruct Hrun as (w & st3 & Hw & Hrun).
    pose proof (pure_lift _ _ _ _ Hw) as ->. unfold lift in Hw.
    inversion Hrun; subst v st1. clear Hrun.
    rewrite (return_value_debug_trace fuel2 st2 rc abi Hrc2 Hs' Hcc
               (eq_trans Habi2 Habi) t st2 o).
    + unfold decoded_output. inversion Hw as [Hw']. rewrite Hw'. reflexivity.
    + rewrite Hch2. intros E. rewrite E in Hanvil. discriminate.
    + left. auto.
    + inversion Ho. reflexivity.
Qed.

(** X3. Reading is idempotent.  When a read of an accessor returns a value
    that is neither a PENDING status nor the missing error of a transaction
    that did not succeed, reading the same accessor again, with whatever
    bound on the polling loop, returns the same value and changes nothing:
    no field of the handle, no request, no sleep. *)
Theorem read_twice (a : accessor) (fuel fuel2 : nat) (st st1 : state)
    (v : observed) :
  read a fuel st = Some (Ok v, st1) ->
  settled a v (self st1) ->
  read a fuel2 st1 = Some (Ok v, st1).
Proof.
  intros Hrun Hset.
  destruct a; simpl in Hrun |- *; apply fmap_ok in Hrun;
    destruct Hrun as (x & Hrun & ->);
    first [apply fmap_run | apply (fmap_run (fun _ : unit => ObsNone) _ _ _ x)];
    try (refine (fetch_tx_data_twice _ st st1 x _ _ Hrun);
         [ first [ apply pure_tx_data_field | apply pure_tx_data_int
                 | apply pure_bind;
                   [ first [apply pure_tx_data_field | apply pure_tx_data_int]
                   | intros; solve_pure ] ]
         | first [ apply reads_tx_data_field | apply reads_tx_data_int
                 | apply reads_tx_data_bind;
                   [ first [apply reads_tx_data_field | apply reads_tx_data_int]
                   | intros; solve_pure ] ] ]);
    try (refine (fetch_tx_receipt_twice fuel fuel2 _ st st1 x _ Hrun);
         apply pure_tx_receipt_int).
  - (* tx_hash *)
    unfold Transaction.tx_hash in *. run_m. inversion Hrun; subst. reflexivity.
  - (* chain *)
    unfold Transaction.chain in *. run_m. inversion Hrun; subst. reflexivity.
  - (* status *)
    destruct (status_settles st st1 x Hrun) as (rc & Hrc & Hs).
    + intros ->. exact Hset.
    + rewrite (status_cached st1 rc Hrc), Hs. reflexivity.
  - (* wait *)
    destruct x. destruct (wait_settled fuel st st1 Hrun) as (rc & s & Hrc & Hs).
    apply (wait_on_receipt fuel2 st1 rc s Hrc Hs).
  - apply (console_logs_twice fuel fuel2 st st1 x Hrun).
  - apply (events_twice fuel fuel2 st st1 x Hrun).
  - (* raw_events *)
    refine (fetch_tx_receipt_twice fuel fuel2 _ st st1 x _ Hrun).
    apply pure_bind; [apply pure_get_self|]. intros h.
    apply pure_bind; [apply pure_assert|]. intros _.
    apply pure_bind; [apply pure_tx_receipt_field|]. intros logs. solve_pure.
  - apply (error_twice fuel fuel2 st st1 x Hrun Hset).
  - apply (return_value_twice fuel fuel2 st st1 x Hrun).
Qed.

(** The gas used by a transaction mined after two empty polls, read a
    second time. *)
Lemma read_twice_witness :
  read A_gas_used 7
    (receipt_stored Sample.success_receipt
       (polled (Sample.fresh (Sample.node HardhatDevChain 2 Sample.success_receipt)
                  (Some Sample.fqn)) 2))
  = Some (Ok (ObsInt 21000),
          receipt_stored Sample.success_receipt
            (polled (Sample.fresh
                       (Sample.node HardhatDevChain 2 Sample.success_receipt)
                       (Some Sample.fqn)) 2)).
Proof.
  apply (read_twice A_gas_used 0 7
           (Sample.fresh (Sample.node HardhatDevChain 2 Sample.success_receipt)
              (Some Sample.fqn))).
  - reflexivity.
  - exact I.
Defined.

(* ===================================================================== *)
(** ** Terminal states, and what the receipt decorator does *)
(* ===================================================================== *)

Lemma after_reads_moves (st st' : state) : after_reads st st' -> moves st st'.
Proof.
  induction 1 as [|st st1 a fuel out st2 _ IH Hrun]; [apply moves_refl|].
  eapply moves_trans; [exact IH | eapply read_walks; eauto].
Qed.

(** X4. SUCCESS and FAILURE are terminal.  Once the status has been read
    as one of them, it is read as the same after any further reads of any
    accessors, and reading it asks nothing of the backend. *)
Theorem status_is_terminal (st st1 st2 : state) (s : TransactionStatusEnum) :
  Transaction.status st = Some (Ok s, st1) ->
  s <> PENDING ->
  after_reads st1 st2 ->
  Transaction.status st2 = Some (Ok s, st2).
Proof.
  intros Hrun Hs Hafter.
  destruct (status_settles st st1 s Hrun Hs) as (rc & Hrc & Hst).
  pose proof (moves_kept st1 st2 Receipt (after_reads_moves _ _ Hafter) rc Hrc) as Hrc2.
  rewrite (status_cached st2 rc Hrc2), Hst. reflexivity.
Qed.

(** A failed transaction: its status after the error and the events have
    been read. *)
Lemma status_is_terminal_witness :
  Transaction.status
    (updated (set_events (Some []))
       (updated
          (set_error (Some (PyList [PyInt 8; PyInt 195; PyInt 121; PyInt 160])))
          (asked (Call Sample.tx_params)
             (receipt_stored Sample.failure_receipt
                (Sample.fresh (Sample.node AnvilDevChain 0 Sample.failure_receipt)
                   (Some Sample.fqn))))))
  = Some (Ok FAILURE,
          updated (set_events (Some []))
            (updated
               (set_error (Some (PyList [PyInt 8; PyInt 195; PyInt 121; PyInt 160])))
               (asked (Call Sample.tx_params)
                  (receipt_stored Sample.failure_receipt
                     (Sample.fresh
                        (Sample.node AnvilDevChain 0 Sample.failure_receipt)
                        (Some Sample.fqn)))))).
Proof.
  apply (status_is_terminal
           (Sample.fresh (Sample.node AnvilDevChain 0 Sample.failure_receipt)
              (Some Sample.fqn))
           (receipt_stored Sample.failure_receipt
              (Sample.fresh (Sample.node AnvilDevChain 0 Sample.failure_receipt)
                 (Some Sample.fqn)))).
  - reflexivity.
  - discriminate.
  - eapply (after_one_more _ _ A_events 0).
    + eapply (after_one_more _ _ A_error 0); [apply after_no_read | reflexivity].
    + reflexivity.
Defined.

Lemma fetch_tx_receipt_waits {A} (fuel : nat) (f : M A) (st : state) :
  _tx_receipt (self st) = None ->
  Transaction._fetch_tx_receipt fuel f st =
    match Transaction.wait fuel st with
    | Some (Ok _, st1) => Transaction._fetch_tx_receipt fuel f st1
    | Some (Raise e, st1) => Some (Raise e, st1)
    | None => None
    end.
Proof.
  intros Hnone. unfold Transaction._fetch_tx_receipt at 1.
  unfold bind at 1 2, get_self at 1. rewrite Hnone.
  destruct (Transaction.wait fuel st) as [[[[]|e] st1]|] eqn:Hw; try reflexivity.
  destruct (wait_settled fuel st st1 Hw) as (rc & s & Hrc & _).
  rewrite (fetch_receipt_cached fuel f st1 rc Hrc).
  run_m. rewrite Hrc. reflexivity.
Qed.

Lemma fmap_fetch_tx_receipt_waits {A B} (g : A -> B) (fuel : nat) (f : M A)
    (st : state) :
  _tx_receipt (self st) = None ->
  fmap_M g (Transaction._fetch_tx_receipt fuel f) st =
    match Transaction.wait fuel st with
    | Some (Ok _, st1) => fmap_M g (Transaction._fetch_tx_receipt fuel f) st1
    | Some (Raise e, st1) => Some (Raise e, st1)
    | None => None
    end.
Proof.
  intros Hnone. unfold fmap_M, bind at 1.
  rewrite (fetch_tx_receipt_waits fuel f st Hnone).
  destruct (Transaction.wait fuel st) as [[[[]|e] st1]|]; reflexivity.
Qed.

Lemma error_any_fuel (fuel fuel2 : nat) (st : state) (rc : dict) :
  _tx_receipt (self st) = Some rc ->
  Transaction.error fuel st = Transaction.error fuel2 st.
Proof.
  intros Hrc. unfold Transaction.error.
  rewrite (fetch_receipt_cached fuel _ st rc Hrc).
  rewrite (fetch_receipt_cached fuel2 _ st rc Hrc). reflexivity.
Qed.

Lemma bind_ext_at {A B} (m : M A) (k1 k2 : A -> M B) (st : state) :
  (forall a st1, m st = Some (Ok a, st1) -> k1 a st1 = k2 a st1) ->
  bind m k1 st = bind m k2 st.
Proof.
  intros Hk. unfold bind. destruct (m st) as [[[a|e] st1]|]; auto.
Qed.

Lemma return_value_any_fuel (fuel fuel2 : nat) (st : state) (rc : dict) :
  _tx_receipt (self st) = Some rc ->
  Transaction.return_value fuel st = Transaction.return_value fuel2 st.
Proof.
  intros Hrc. unfold Transaction.return_value.
  rewrite (fetch_receipt_cached fuel _ st rc Hrc).
  rewrite (fetch_receipt_cached fuel2 _ st rc Hrc).
  apply bind_ext_at. intros s st1 Hs.
  rewrite (status_cached st rc Hrc) in Hs. inversion Hs; subst st1.
  destruct (negb (status_eqb s SUCCESS)); [|reflexivity].
  unfold bind. rewrite (error_any_fuel fuel fuel2 st rc Hrc). reflexivity.
Qed.

(** X5. What [_fetch_tx_receipt] makes of an accessor.  On a handle without
    receipt, reading a decorated accessor is [wait] followed by the read on
    the handle [wait] leaves: what [wait] raises the accessor raises, and
    while [wait] is still running so is the accessor.  On a handle with a
    receipt the read does not depend on the bound of the polling loop: it
    never polls. *)
Theorem receipt_accessors_wait_first (a : accessor) (fuel : nat) (st : state) :
  is_receipt_accessor a = true ->
  (_tx_receipt (self st) = None ->
   read a fuel st =
     match Transaction.wait fuel st with
     | Some (Ok _, st1) => read a fuel st1
     | Some (Raise e, st1) => Some (Raise e, st1)
     | None => None
     end)
  /\ (forall rc fuel2, _tx_receipt (self st) = Some rc ->
        read a fuel st = read a fuel2 st).
Proof.
  intros Ha. split.
  - intros Hnone.
    destruct a; try discriminate Ha; simpl;
      apply fmap_fetch_tx_receipt_waits; exact Hnone.
  - intros rc fuel2 Hrc.
    destruct a; try discriminate Ha; simpl; unfold fmap_M, bind;
      first
        [ rewrite (error_any_fuel fuel fuel2 st rc Hrc); reflexivity
        | rewrite (return_value_any_fuel fuel fuel2 st rc Hrc); reflexivity
        | unfold Transaction.gas_used, Transaction.cumulative_gas_used,
            Transaction.console_logs, Transaction.events, Transaction.raw_events;
          rewrite (fetch_receipt_cached fuel _ st rc Hrc);
          rewrite (fetch_receipt_cached fuel2 _ st rc Hrc); reflexivity ].
Qed.

(** The gas used, read on a fresh handle whose transaction is mined after
    two empty polls, is the gas used read on the handle [wait] leaves. *)
Lemma receipt_accessors_wait_first_witness :
  read A_gas_used 0
    (Sample.fresh (Sample.node HardhatDevChain 2 Sample.success_receipt)
       (Some Sample.fqn))
  = match Transaction.wait 0
            (Sample.fresh (Sample.node HardhatDevChain 2 Sample.success_receipt)
               (Some Sample.fqn)) with
    | Some (Ok _, st1) => read A_gas_used 0 st1
    | Some (Raise e, st1) => Some (Raise e, st1)
    | None => None
    end.
Proof.
  apply (proj1 (receipt_accessors_wait_first A_gas_used 0
                  (Sample.fresh
                     (Sample.node HardhatDevChain 2 Sample.success_receipt)
                     (Some Sample.fqn)) eq_refl)).
  reflexivity.
Defined.

(* ===================================================================== *)
(** ** When polling fails *)
(* ===================================================================== *)

Section WaitStops.

Variables (st : state) (n : nat) (e : exn) (st_n : state).
Hypothesis no_receipt : _tx_receipt (self st) = None.
Hypothesis pending_before :
  forall k, (k < n)%nat -> receipt_answer (polled st k) = Ok None.
Hypothesis raises_at : Transaction.status (polled st n) = Some (Raise e, st_n).

Lemma wait_checks_raise (m k : nat) :
  (k + m = 40)%nat -> (k <= n)%nat ->
  Transaction.wait_checks m (polled st k) =
    if (n <? 40)%nat then Some (Raise e, st_n)
    else Some (Ok false, polled st 40).
Proof.
  revert k. induction m as [|m IH]; intros k Hkm Hkn.
  - replace k with 40%nat by lia.
    destruct (n <? 40)%nat eqn:E; [apply Nat.ltb_lt in E; lia | reflexivity].
  - rewrite wait_checks_S. unfold bind at 1.
    destruct (Nat.eq_dec k n) as [->|Hne].
    + rewrite raises_at.
      destruct (n <? 40)%nat eqn:E; [reflexivity | apply Nat.ltb_ge in E; lia].
    + rewrite (status_polled_pending st no_receipt k) by (apply pending_before; lia).
      simpl. rewrite <- polled_S_early by lia. apply IH; lia.
Qed.

Lemma wait_poll_raise (fuel k : nat) :
  (40 <= k)%nat -> (k <= n)%nat -> (n - k < fuel)%nat ->
  Transaction.wait_poll fuel (polled st k) = Some (Raise e, st_n).
Proof.
  revert k. induction fuel as [|fuel IH]; intros k H40 Hkn Hfuel; [lia|].
  rewrite wait_poll_S. unfold bind at 1.
  destruct (Nat.eq_dec k n) as [->|Hne].
  - rewrite raises_at. reflexivity.
  - rewrite (status_polled_pending st no_receipt k) by (apply pending_before; lia).
    simpl. unfold bind at 1. rewrite sleep_asked.
    rewrite <- polled_S_late by lia. apply IH; lia.
Qed.

Lemma wait_raise (fuel : nat) :
  (n - 39 <= fuel)%nat -> Transaction.wait fuel st = Some (Raise e, st_n).
Proof.
  intros Hfuel. unfold Transaction.wait. unfold bind.
  assert (Hst : st = polled st 0) by (destruct st; reflexivity).
  rewrite Hst at 1. rewrite (wait_checks_raise 40 0) by lia.
  destruct (n <? 40)%nat eqn:E; [reflexivity|].
  apply Nat.ltb_ge in E. apply wait_poll_raise; lia.
Qed.

End WaitStops.

(** X6. [wait] does not retry a poll that fails.  When the backend has
    answered [n] polls with no receipt and raises at the next one, [wait]
    raises that exception at once, after [n + 1] requests and with the
    receipt slot still empty, so that a later [wait] polls again. *)
Theorem wait_stops_at_backend_failure (fuel n : nat) (st : state) (e : exn) :
  _tx_receipt (self st) = None ->
  (forall k, (k < n)%nat -> receipt_answer (polled st k) = Ok None) ->
  receipt_answer (polled st n) = Raise e ->
  (n - 39 <= fuel)%nat ->
  Transaction.wait fuel st
    = Some (Raise e,
            asked (GetTransactionReceipt (_tx_hash (self st))) (polled st n))
  /\ _tx_receipt
       (self (asked (GetTransactionReceipt (_tx_hash (self st))) (polled st n)))
     = None.
Proof.
  intros Hnone Hpending Hraise Hfuel. split; [|exact Hnone].
  apply (wait_raise st n e _ Hnone Hpending); [|exact Hfuel].
  rewrite (status_uncached (polled st n) Hnone), Hraise. reflexivity.
Qed.

Lemma wait_stops_at_backend_failure_witness :
  Transaction.wait 0
    (Sample.fresh (Fixture.flaky_node 1) (Some Sample.fqn))
  = Some (Raise (TransportError "connection reset"),
          asked (GetTransactionReceipt Sample.tx_hash)
            (polled (Sample.fresh (Fixture.flaky_node 1) (Some Sample.fqn)) 1)).
Proof.
  apply (wait_stops_at_backend_failure 0 1
           (Sample.fresh (Fixture.flaky_node 1) (Some Sample.fqn))
           (TransportError "connection reset")).
  - reflexivity.
  - intros k Hk. destruct k as [|k]; [reflexivity | lia].
  - reflexivity.
  - simpl. lia.
Defined.

Lemma wait_raises_on_receipt (fuel : nat) (st : state) (rc : dict) (e : exn) :
  _tx_receipt (self st) = Some rc ->
  Transaction.status_of_receipt (Some rc) = Raise e ->
  Transaction.wait fuel st = Some (Raise e, st).
Proof.
  intros Hrc Hs. unfold Transaction.wait.
  change 40%nat with (S 39). rewrite wait_checks_S.
  unfold bind at 1 2. rewrite (status_cached st rc Hrc), Hs. reflexivity.
Qed.

(** X7. A receipt is cached before its status flag is looked at.  When the
    backend returns a receipt whose flag is missing or does not parse,
    [status] raises, and the receipt is in the slot.  From then on, after
    any reads, [status], [wait], [error] and [return_value] raise the same
    exception and change nothing: the backend is not asked again. *)
Theorem unparsable_status_is_cached (st : state) (rc : dict) (e : exn) :
  _tx_receipt (self st) = None ->
  receipt_answer st = Ok (Some rc) ->
  Transaction.status_of_receipt (Some rc) = Raise e ->
  Transaction.status st = Some (Raise e, receipt_stored rc st)
  /\ forall st2 fuel,
       after_reads (receipt_stored rc st) st2 ->
       Transaction.status st2 = Some (Raise e, st2)
       /\ Transaction.wait fuel st2 = Some (Raise e, st2)
       /\ Transaction.error fuel st2 = Some (Raise e, st2)
       /\ Transaction.return_value fuel st2 = Some (Raise e, st2).
Proof.
  intros Hnone Hans Hs. split.
  - rewrite (status_uncached st Hnone), Hans, Hs. reflexivity.
  - intros st2 fuel Hafter.
    assert (Hrc2 : _tx_receipt (self st2) = Some rc).
    { apply (moves_kept _ st2 Receipt (after_reads_moves _ _ Hafter)). reflexivity. }
    assert (Hst : Transaction.status st2 = Some (Raise e, st2))
      by (rewrite (status_cached st2 rc Hrc2), Hs; reflexivity).
    split; [exact Hst|]. split; [|split].
    + apply (wait_raises_on_receipt fuel st2 rc e Hrc2 Hs).
    + unfold Transaction.error. rewrite (fetch_receipt_cached fuel _ st2 rc Hrc2).
      unfold bind at 1. rewrite Hst. reflexivity.
    + unfold Transaction.return_value.
      rewrite (fetch_receipt_cached fuel _ st2 rc Hrc2).
      unfold bind at 1. rewrite Hst. reflexivity.
Qed.

(** A receipt that carries a state root and no status. *)
Lemma unparsable_status_is_cached_witness :
  Transaction.status
    (Sample.fresh (Sample.node AnvilDevChain 0 Fixture.receipt_with_root)
       (Some Sample.fqn))
  = Some (Raise (KeyError "status"),
          receipt_stored Fixture.receipt_with_root
            (Sample.fresh (Sample.node AnvilDevChain 0 Fixture.receipt_with_root)
               (Some Sample.fqn)))
  /\ Transaction.return_value 0
       (receipt_stored Fixture.receipt_with_root
          (Sample.fresh (Sample.node AnvilDevChain 0 Fixture.receipt_with_root)
             (Some Sample.fqn)))
     = Some (Raise (KeyError "status"),
             receipt_stored Fixture.receipt_with_root
               (Sample.fresh (Sample.node AnvilDevChain 0 Fixture.receipt_with_root)
                  (Some Sample.fqn))).
Proof.
  destruct (unparsable_status_is_cached
              (Sample.fresh (Sample.node AnvilDevChain 0 Fixture.receipt_with_root)
                 (Some Sample.fqn))
              Fixture.receipt_with_root (KeyError "status")
              eq_refl eq_refl eq_refl) as (Hstatus & Hlater).
  split; [exact Hstatus|].
  exact (proj2 (proj2 (proj2 (Hlater _ O (after_no_read _))))).
Defined.

(* ===================================================================== *)
(** ** The accessors of the raw transaction data *)
(* ===================================================================== *)

Lemma total_ret {A} (a : A) : total (ret a).
Proof. intros st. discriminate. Qed.

Lemma total_raise {A} (e : exn) : total (@raise A e).
Proof. intros st. discriminate. Qed.

Lemma total_lift {A} (r : result A) : total (lift r).
Proof. intros st. discriminate. Qed.

Lemma total_get_self : total get_self.
Proof. intros st. discriminate. Qed.

Lemma total_assert (b : bool) (msg : string) : total (assert b msg).
Proof. destruct b; [apply total_ret | apply total_raise]. Qed.

Lemma total_bind {A B} (m : M A) (k : A -> M B) :
  total m -> (forall a, total (k a)) -> total (bind m k).
Proof.
  intros Hm Hk st. unfold bind. specialize (Hm st).
  destruct (m st) as [[[a|e] st1]|]; [apply Hk | discriminate | congruence].
Qed.

Ltac solve_total :=
  repeat first
    [ apply total_ret | apply total_raise | apply total_lift | apply total_get_self
    | apply total_assert
    | apply total_bind; [|intros ?]
    | match goal with |- total (match ?x with _ => _ end) => destruct x end
    | match goal with |- total (if ?x then _ else _) => destruct x end ].

Lemma total_tx_data_field (k : string) : total (Transaction.tx_data_field k).
Proof. unfold Transaction.tx_data_field. solve_total. Qed.

Lemma total_tx_data_int (k : string) : total (Transaction.tx_data_int k).
Proof.
  unfold Transaction.tx_data_int. apply total_bind; [apply total_tx_data_field|].
  intros. solve_total.
Qed.

Lemma total_fmap {A B} (g : A -> B) (m : M A) : total m -> total (fmap_M g m).
Proof. intros Hm. unfold fmap_M. apply total_bind; [exact Hm | intros; solve_total]. Qed.

Lemma pure_fmap {A B} (g : A -> B) (m : M A) : pure m -> pure (fmap_M g m).
Proof. intros Hm. unfold fmap_M. apply pure_bind; [exact Hm | intros; solve_pure]. Qed.

(** What a body decorated with [_fetch_tx_data] does to the state when the
    body itself changes nothing and always comes back. *)
Lemma fetch_tx_data_run {A} (f : M A) (st : state) :
  pure f -> total f ->
  exists out st',
    Transaction._fetch_tx_data f st = Some (out, st')
    /\ _tx_receipt (self st') = _tx_receipt (self st)
    /\ (is_Some (_tx_data (self st)) -> st' = st)
    /\ (_tx_data (self st) = None ->
        history st' = GetTransaction (_tx_hash (self st)) :: history st).
Proof.
  intros Hp Ht. unfold Transaction._fetch_tx_data, Transaction.dev_get_transaction.
  unfold bind at 1 2, get_self at 1.
  destruct (_tx_data (self st)) as [d|] eqn:Hd.
  - unfold ret. destruct (f st) as [[out st']|] eqn:Hf; [|exfalso; eapply Ht; eauto].
    pose proof (Hp _ _ _ Hf) as ->. exists out, st.
    repeat split; auto. intros; discriminate.
  - unfold bind at 1, request.
    destruct (get_transaction _ _ _) as [d|e].
    + unfold update_self.
      match goal with |- context [f ?s] => set (st1 := s) end.
      destruct (f st1) as [[out st']|] eqn:Hf; [|exfalso; eapply Ht; eauto].
      pose proof (Hp _ _ _ Hf) as ->. exists out, st1.
      repeat split; auto. intros [x Hx]; discriminate.
    + eexists _, _. repeat split; auto. intros [x Hx]; discriminate.
Qed.

Lemma fmap_some {A B} (g : A -> B) (m : M A) (st st' : state) (out : result A) :
  m st = Some (out, st') ->
  exists out', fmap_M g m st = Some (out', st')
               /\ forall v, out' = Ok v -> exists x, out = Ok x /\ v = g x.
Proof.
  intros H. unfold fmap_M, bind, ret. rewrite H. destruct out as [x|e].
  - eexists. split; [reflexivity|]. intros v Hv. inversion Hv. eauto.
  - eexists. split; [reflexivity|]. intros v Hv. discriminate.
Qed.

(** The body under [_fetch_tx_data] of every accessor of the raw data
    changes nothing, always comes back, and returns only with the data in
    the slot. *)
Lemma tx_data_read_shape (a : accessor) (fuel : nat) :
  is_tx_data_accessor a = true ->
  exists (B : Type) (g : B -> observed) (f : M B),
    read a fuel = fmap_M g (Transaction._fetch_tx_data f)
    /\ pure f /\ total f /\ reads_tx_data f.
Proof.
  intros Ha.
  destruct a; try discriminate Ha; simpl;
    unfold Transaction.block_hash, Transaction.block_number, Transaction.from_,
      Transaction.to, Transaction.gas, Transaction.nonce, Transaction.tx_index,
      Transaction.value, Transaction.r, Transaction.s, LegacyTransaction.v,
      LegacyTransaction.gas_price, LegacyTransaction.type;
    eexists _, _, _; (split; [reflexivity|]);
    (split; [|split]);
    first
      [ apply pure_tx_data_field | apply pure_tx_data_int
      | apply total_tx_data_field | apply total_tx_data_int
      | apply reads_tx_data_field | apply reads_tx_data_int
      | apply pure_bind;
        [ first [apply pure_tx_data_field | apply pure_tx_data_int]
        | intros; solve_pure ]
      | apply total_bind;
        [ first [apply total_tx_data_field | apply total_tx_data_int]
        | intros; solve_total ]
      | apply reads_tx_data_bind;
        [ first [apply reads_tx_data_field | apply reads_tx_data_int]
        | intros; solve_pure ] ].
Qed.

(** X8. The accessors of the raw transaction data never wait for the
    transaction to be mined: whatever the state, a read comes back, leaves
    the receipt slot as it is, and sleeps never.  With the data in the slot
    the read changes nothing; with an empty slot it makes exactly one
    request, for the transaction.  And one fetch serves every field: once
    one of these accessors has returned, a read of any of them changes
    nothing. *)
Theorem raw_data_accessors (a : accessor) (fuel : nat) (st : state) :
  is_tx_data_accessor a = true ->
  exists out st',
    read a fuel st = Some (out, st')
    /\ _tx_receipt (self st') = _tx_receipt (self st)
    /\ (is_Some (_tx_data (self st)) -> st' = st)
    /\ (_tx_data (self st) = None ->
        history st' = GetTransaction (_tx_hash (self st)) :: history st)
    /\ (forall v, out = Ok v ->
        forall b fuel2, is_tx_data_accessor b = true ->
        exists out2, read b fuel2 st' = Some (out2, st')).
Proof.
  intros Ha.
  destruct (tx_data_read_shape a fuel Ha) as (B & g & f & Hread & Hp & Ht & Hr).
  destruct (fetch_tx_data_run f st Hp Ht) as (out & st' & Hrun & Hrc & Hsome & Hnone).
  destruct (fmap_some g _ st st' out Hrun) as (out' & Hrun' & Hok).
  exists out', st'. rewrite Hread.
  split; [exact Hrun'|]. split; [exact Hrc|]. split; [exact Hsome|].
  split; [exact Hnone|].
  intros v Hv b fuel2 Hb. destruct (Hok v Hv) as (x & -> & _).
  assert (Hdata : is_Some (_tx_data (self st'))).
  { unfold Transaction._fetch_tx_data in Hrun.
    apply bind_ok in Hrun. destruct Hrun as (h & st0 & _ & Hrun).
    apply bind_ok in Hrun. destruct Hrun as (u & st2 & _ & Hrun).
    eapply Hr; eauto. }
  destruct (tx_data_read_shape b fuel2 Hb) as (B2 & g2 & f2 & Hread2 & Hp2 & Ht2 & _).
  destruct (fetch_tx_data_run f2 st' Hp2 Ht2) as (out2 & st2 & Hrun2 & _ & Hsame & _).
  rewrite (Hsame Hdata) in Hrun2.
  destruct (fmap_some g2 _ st' st' out2 Hrun2) as (out2' & Hrun2' & _).
  exists out2'. rewrite Hread2. exact Hrun2'.
Qed.

(** The nonce of a transaction that is never mined, on a fresh handle. *)
Lemma raw_data_accessors_witness :
  exists out st',
    read A_nonce 0 (Sample.fresh Sample.stuck_node (Some Sample.fqn))
      = Some (out, st')
    /\ _tx_receipt (self st')
       = _tx_receipt (self (Sample.fresh Sample.stuck_node (Some Sample.fqn)))
    /\ (is_Some (_tx_data (self (Sample.fresh Sample.stuck_node (Some Sample.fqn))))
        -> st' = Sample.fresh Sample.stuck_node (Some Sample.fqn))
    /\ (_tx_data (self (Sample.fresh Sample.stuck_node (Some Sample.fqn))) = None ->
        history st'
        = GetTransaction
            (_tx_hash (self (Sample.fresh Sample.stuck_node (Some Sample.fqn))))
            :: history (Sample.fresh Sample.stuck_node (Some Sample.fqn)))
    /\ (forall v, out = Ok v ->
        forall b fuel2, is_tx_data_accessor b = true ->
        exists out2, read b fuel2 st' = Some (out2, st')).
Proof.
  apply (raw_data_accessors A_nonce 0
           (Sample.fresh Sample.stuck_node (Some Sample.fqn))).
  reflexivity.
Defined.

Lemma tx_data_int_run (k : string) (st : state) (d : dict) :
  _tx_data (self st) = Some d ->
  fmap_M ObsInt (Transaction.tx_data_int k) st = Some (parsed_field d k, st).
Proof.
  intros Hd.
  unfold fmap_M, Transaction.tx_data_int, Transaction.tx_data_field, parsed_field.
  run_m. rewrite Hd. simpl. unfold Py.dict_getitem.
  destruct (Py.dict_get d k) as [x|]; [|reflexivity]. simpl.
  destruct (Py.int16 x); reflexivity.
Qed.

Lemma tx_receipt_int_run (k : string) (st : state) (rc : dict) :
  _tx_receipt (self st) = Some rc ->
  fmap_M ObsInt (Transaction.tx_receipt_int k) st = Some (parsed_field rc k, st).
Proof.
  intros Hd.
  unfold fmap_M, Transaction.tx_receipt_int, Transaction.tx_receipt_field,
    parsed_field.
  run_m. rewrite Hd. simpl. unfold Py.dict_getitem.
  destruct (Py.dict_get rc k) as [x|]; [|reflexivity]. simpl.
  destruct (Py.int16 x); reflexivity.
Qed.

Lemma fmap_fetch_tx_data_at_hand {A B} (g : A -> B) (f : M A)
    (st st1 : state) (d : dict) :
  tx_data_at_hand st d st1 ->
  fmap_M g (Transaction._fetch_tx_data f) st = fmap_M g f st1.
Proof.
  intros Hat. unfold fmap_M, bind.
  rewrite (proj1 (fetch_tx_data_at_hand f st st1 d Hat)). reflexivity.
Qed.

(** X9. The eleven numeric accessors return [int(field, 16)] of their field,
    read in the raw transaction data at hand for nine of them and in the
    cached receipt for [gas_used] and [cumulative_gas_used].  A missing
    field raises [KeyError] with its key, and a field that is no string,
    such as the null block number of a transaction that is not mined,
    [TypeError]; the data stay cached all the same. *)
Theorem numeric_accessors_parse (a : accessor) (k : string) (fuel : nat)
    (st : state) :
  int_field a = Some k ->
  (is_tx_data_accessor a = true ->
   forall d st1, tx_data_at_hand st d st1 ->
     read a fuel st = Some (parsed_field d k, st1)
     /\ _tx_data (self st1) = Some d)
  /\ (is_receipt_accessor a = true ->
      forall rc, _tx_receipt (self st) = Some rc ->
        read a fuel st = Some (parsed_field rc k, st))
  /\ (forall d, Py.dict_get d k = None -> parsed_field d k = Raise (KeyError k))
  /\ (forall d x,
        Py.dict_get d k = Some x -> (forall s, x <> PyStr s) ->
        parsed_field d k = Raise TypeError).
Proof.
  intros Hk. split; [|split; [|split]].
  - intros Ha d st1 Hat.
    split; [|exact (proj2 (fetch_tx_data_at_hand (ret tt) st st1 d Hat))].
    destruct a; try discriminate Ha; try discriminate Hk;
      injection Hk as <-; simpl;
      unfold Transaction.block_number, Transaction.gas, Transaction.nonce,
        Transaction.tx_index, Transaction.value, Transaction.r, Transaction.s,
        LegacyTransaction.v, LegacyTransaction.gas_price;
      rewrite (fmap_fetch_tx_data_at_hand ObsInt _ st st1 d Hat);
      apply tx_data_int_run;
      exact (proj2 (fetch_tx_data_at_hand (ret tt) st st1 d Hat)).
  - intros Ha rc Hrc.
    destruct a; try discriminate Ha; try discriminate Hk;
      injection Hk as <-; simpl;
      unfold Transaction.gas_used, Transaction.cumulative_gas_used, fmap_M, bind;
      rewrite (fetch_receipt_cached fuel _ st rc Hrc);
      apply (tx_receipt_int_run _ st rc Hrc).
  - intros d Hd. unfold parsed_field. rewrite Hd. reflexivity.
  - intros d x Hx Hns. unfold parsed_field. rewrite Hx.
    destruct x; try reflexivity. exfalso. eapply Hns; eauto.
Qed.

(** A transaction that is not mined: its nonce is there, its block number
    is null. *)
Lemma numeric_accessors_parse_witness :
  read A_nonce 0
    (updated (set_tx_data (Some Fixture.pending_tx_data))
       (Sample.fresh Sample.stuck_node (Some Sample.fqn)))
  = Some (Ok (ObsInt 7),
          updated (set_tx_data (Some Fixture.pending_tx_data))
            (Sample.fresh Sample.stuck_node (Some Sample.fqn)))
  /\ read A_block_number 0
       (updated (set_tx_data (Some Fixture.pending_tx_data))
          (Sample.fresh Sample.stuck_node (Some Sample.fqn)))
     = Some (Raise TypeError,
             updated (set_tx_data (Some Fixture.pending_tx_data))
               (Sample.fresh Sample.stuck_node (Some Sample.fqn)))
  /\ read A_gas_used 0
       (Sample.resolved Sample.stuck_node (Some Sample.fqn) Sample.success_receipt)
     = Some (Ok (ObsInt 21000),
             Sample.resolved Sample.stuck_node (Some Sample.fqn)
               Sample.success_receipt)
  /\ parsed_field Fixture.pending_tx_data "value" = Raise (KeyError "value").
Proof.
  split; [|split; [|split]].
  - apply (proj1 (numeric_accessors_parse A_nonce "nonce" 0 _ eq_refl) eq_refl
             Fixture.pending_tx_data).
    left. split; reflexivity.
  - apply (proj1 (numeric_accessors_parse A_block_number "blockNumber" 0 _ eq_refl)
             eq_refl Fixture.pending_tx_data).
    left. split; reflexivity.
  - apply (proj1 (proj2 (numeric_accessors_parse A_gas_used "gasUsed" 0 _ eq_refl))
             eq_refl Sample.success_receipt).
    reflexivity.
  - apply (proj1 (proj2 (proj2
             (numeric_accessors_parse A_value "value" 0
                (Sample.fresh Sample.stuck_node (Some Sample.fqn)) eq_refl)))
             Fixture.pending_tx_data).
    reflexivity.
Defined.

(* ===================================================================== *)
(** ** Raw events *)
(* ===================================================================== *)

Lemma bytes_hex_no_prefix (b : list Byte.byte) :
  Py.startswith "0x" (Hex.bytes_hex b) = false.
Proof.
  destruct b as [|x b]; [reflexivity|]. cbn [Hex.bytes_hex].
  destruct x; reflexivity.
Qed.

Lemma startswith_prefixed (s : string) :
  Py.startswith "0x" (String "0" (String "x" s)) = true.
Proof. destruct s; reflexivity. Qed.

Lemma hex_to_bytes_encoded (x : pyval) (b : list Byte.byte) :
  encodes_bytes x b -> Transaction.hex_to_bytes x = Ok b.
Proof.
  intros [[|] ->]; unfold Transaction.hex_to_bytes, hex_str, Py.startswith_val;
    cbn [rbind].
  - rewrite startswith_prefixed.
    cbn [rbind Py.slice_from Py.str_from Py.bytes_fromhex].
    apply fromhex_bytes_hex.
  - rewrite bytes_hex_no_prefix. cbn [Py.bytes_fromhex]. apply fromhex_bytes_hex.
Qed.

Lemma mapM_Forall2 {A B} (f : A -> result B) (xs : list A) (ys : list B) :
  Forall2 (fun x y => f x = Ok y) xs ys -> Py.mapM f xs = Ok ys.
Proof.
  induction 1 as [|x y xs ys Hxy _ IH]; [reflexivity|].
  simpl. rewrite Hxy. simpl. rewrite IH. reflexivity.
Qed.

Lemma raw_event_of_encoded_log (log : pyval) (e : UnknownEvent) :
  encodes_event log e -> Transaction.raw_event_of_log log = Ok e.
Proof.
  intros (d & ts & x & -> & Hts & Henc & Hx & Hdata).
  unfold Transaction.raw_event_of_log. simpl. unfold Py.dict_getitem.
  rewrite Hts. simpl.
  rewrite (mapM_Forall2 Transaction.hex_to_bytes ts (topics e)).
  - simpl. rewrite Hx. simpl. rewrite (hex_to_bytes_encoded x (data e) Hdata).
    simpl. destruct e; reflexivity.
  - eapply Forall2_impl; [exact Henc|]. intros t b Htb.
    apply hex_to_bytes_encoded. exact Htb.
Qed.

(** X10. [raw_events] undoes the hexadecimal spelling of the logs.  When
    the log list of the cached receipt spells, entry by entry, the topics
    and the data of a list of events, each byte string with or without the
    prefix [0x], [raw_events] returns exactly these events, in order, and
    changes nothing; it needs neither recipient nor ABI. *)
Theorem raw_events_decode (fuel : nat) (st : state) (rc : dict)
    (logs : list pyval) (evs : list UnknownEvent) :
  _tx_receipt (self st) = Some rc ->
  Py.dict_get rc "logs" = Some (PyList logs) ->
  Forall2 encodes_event logs evs ->
  Transaction.raw_events fuel st = Some (Ok evs, st).
Proof.
  intros Hrc Hlogs Henc. unfold Transaction.raw_events.
  rewrite (fetch_receipt_cached fuel _ st rc Hrc).
  unfold Transaction.tx_receipt_field, Py.slot_getitem, Py.dict_getitem. run_m.
  repeat first [rewrite Hrc | rewrite Hlogs | progress simpl].
  rewrite (mapM_Forall2 Transaction.raw_event_of_log logs evs); [reflexivity|].
  eapply Forall2_impl; [exact Henc|]. intros log e Hle.
  apply raw_event_of_encoded_log. exact Hle.
Qed.

(** The log of a contract creation, on a handle without recipient. *)
Lemma raw_events_decode_witness :
  Transaction.raw_events 0
    (Sample.resolved Sample.stuck_node None Sample.receipt_with_log)
  = Some (Ok [{| topics := [[Byte.xdd; Byte.xf2]]; data := [Byte.x01] |}],
          Sample.resolved Sample.stuck_node None Sample.receipt_with_log).
Proof.
  apply (raw_events_decode 0 _ Sample.receipt_with_log [Sample.a_log]).
  - reflexivity.
  - reflexivity.
  - constructor; [|constructor].
    exists [("topics", PyList [PyStr "0xddf2"]); ("data", PyStr "0x01")],
           [PyStr "0xddf2"], (PyStr "0x01").
    split; [reflexivity|]. split; [reflexivity|]. split.
    + constructor; [|constructor]. exists true. reflexivity.
    + split; [reflexivity|]. exists true. reflexivity.
Defined.

(* ===================================================================== *)
(** ** Decoded events of a transaction with a recipient *)
(* ===================================================================== *)

(** X11. On a handle with a recipient, a cached receipt and an empty event
    slot, [events] hands the log list of the receipt to the codec with the
    recipient's name: what the codec returns is returned and cached; what
    the codec raises is raised and nothing is cached, so that the next
    read decodes again.  A receipt without log list raises [KeyError]. *)
Theorem events_with_recipient (fuel : nat) (st : state) (rc : dict)
    (fqn : string) :
  _tx_receipt (self st) = Some rc ->
  _recipient_fqn (self st) = Some fqn ->
  _events (self st) = None ->
  (Py.dict_get rc "logs" = None ->
   Transaction.events fuel st = Some (Raise (KeyError "logs"), st))
  /\ (forall logs, Py.dict_get rc "logs" = Some logs ->
        Transaction.events fuel st =
          match _process_events (_chain (self st)) (_tx_hash (self st)) logs fqn with
          | Ok evs => Some (Ok evs, updated (set_events (Some evs)) st)
          | Raise e => Some (Raise e, st)
          end).
Proof.
  intros Hrc Hfqn Hev. split.
  - intros Hlogs. unfold Transaction.events.
    rewrite (fetch_receipt_cached fuel _ st rc Hrc).
    unfold Transaction.tx_receipt_field. run_m.
    rewrite Hev, Hrc, Hfqn. simpl. rewrite Hrc. simpl.
    unfold Py.dict_getitem. rewrite Hlogs. reflexivity.
  - intros logs Hlogs. unfold Transaction.events.
    rewrite (fetch_receipt_cached fuel _ st rc Hrc).
    unfold Transaction.tx_receipt_field. run_m.
    rewrite Hev, Hrc, Hfqn. simpl. rewrite Hrc. simpl.
    unfold Py.dict_getitem. rewrite Hlogs. simpl.
    destruct (_process_events _ _ _ _); reflexivity.
Qed.

Lemma events_with_recipient_witness :
  Transaction.events 0
    (Sample.resolved Sample.stuck_node (Some Sample.fqn) Sample.receipt_with_log)
  = Some (Ok [Sample.a_log],
          updated (set_events (Some [Sample.a_log]))
            (Sample.resolved Sample.stuck_node (Some Sample.fqn)
               Sample.receipt_with_log))
  /\ Transaction.events 0
       (Sample.resolved Sample.stuck_node (Some Sample.fqn)
          Fixture.receipt_without_logs)
     = Some (Raise (KeyError "logs"),
             Sample.resolved Sample.stuck_node (Some Sample.fqn)
               Fixture.receipt_without_logs).
Proof.
  split.
  - apply (proj2 (events_with_recipient 0
             (Sample.resolved Sample.stuck_node (Some Sample.fqn)
                Sample.receipt_with_log)
             Sample.receipt_with_log Sample.fqn eq_refl eq_refl eq_refl)
             (PyList [Sample.a_log])).
    reflexivity.
  - apply (proj1 (events_with_recipient 0
             (Sample.resolved Sample.stuck_node (Some Sample.fqn)
                Fixture.receipt_without_logs)
             Fixture.receipt_without_logs Sample.fqn eq_refl eq_refl eq_refl)).
    reflexivity.
Defined.

(* ===================================================================== *)
(** ** Console logs *)
(* ===================================================================== *)

Lemma console_logs_on_receipt (fuel : nat) (st : state) (rc : dict) :
  _tx_receipt (self st) = Some rc ->
  Transaction.console_logs fuel st =
    if Transaction.is_anvil (dev_class (dev_chain (_chain (self st)))) then
      (Transaction._fetch_trace_transaction ;;
       h <- get_self ;;
       match _trace_transaction h with
       | None => raise (AssertionError "")
       | Some trace => lift (_process_console_logs (_chain h) trace)
       end) st
    else Some (Raise NotImplementedError, st).
Proof.
  intros Hrc. unfold Transaction.console_logs.
  rewrite (fetch_receipt_cached fuel _ st rc Hrc).
  unfold bind at 1, get_self at 1.
  destruct (Transaction.is_anvil _); reflexivity.
Qed.

(** X12. [console_logs] on a handle with a cached receipt.  On a backend
    that is no Anvil it raises [NotImplementedError] and asks nothing.  On
    Anvil it returns what the codec makes of the call trace, which is the
    cached one or, with an empty slot, the one the backend returns to a
    single request; the trace is the one [return_value] decodes from, so
    that after [return_value] has returned a decoded value the console
    logs are read without any request. *)
Theorem console_logs_on_backends (fuel : nat) (st : state) (rc : dict) :
  _tx_receipt (self st) = Some rc ->
  (Transaction.is_anvil (dev_class (dev_chain (_chain (self st)))) = false ->
   Transaction.console_logs fuel st = Some (Raise NotImplementedError, st))
  /\ (Transaction.is_anvil (dev_class (dev_chain (_chain (self st)))) = true ->
      (forall trace st1,
         trace_at_hand st trace st1 ->
         Transaction.console_logs fuel st
           = Some (_process_console_logs (_chain (self st)) trace, st1))
      /\ (forall fuel0 st0 v,
            Transaction.return_value fuel0 st0 = Some (Ok (Decoded v), st) ->
            exists out, Transaction.console_logs fuel st = Some (out, st))).
Proof.
  intros Hrc. split.
  - intros Hcls. rewrite (console_logs_on_receipt fuel st rc Hrc), Hcls. reflexivity.
  - intros Hcls. split.
    + intros trace st1 Hat.
      rewrite (console_logs_on_receipt fuel st rc Hrc), Hcls.
      unfold Transaction._fetch_trace_transaction, Transaction.dev_trace_transaction.
      run_m.
      destruct Hat as [(Ht & ->)|(Ht & Hans & ->)];
        repeat first [rewrite Ht | rewrite Hcls | rewrite Hans | progress simpl];
        reflexivity.
    + intros fuel0 st0 v Hrv.
      destruct (return_value_ok fuel0 st0 st (Decoded v) Hrv) as (_ & Htrace).
      pose proof (return_value_twice fuel0 fuel st0 st (Decoded v) Hrv) as Hrv2.
      destruct (Transaction.created_contract (_tx_receipt (self st)))
        as [addr|] eqn:Hcc.
      * exfalso. unfold Transaction.return_value in Hrv2.
        rewrite (fetch_receipt_cached fuel _ st rc Hrc) in Hrv2.
        apply bind_ok in Hrv2. destruct Hrv2 as (s & st2 & Hs & Hrv2).
        rewrite (status_cached st rc Hrc) in Hs. inversion Hs as [[Hs' Hst]].
        subst st2.
        destruct (negb (status_eqb s SUCCESS)).
        { apply bind_ok in Hrv2. destruct Hrv2 as (e & st3 & _ & Hrv2).
          destruct e; discriminate. }
        rewrite Hrc in Hcc. run_m.
        repeat first
          [rewrite Hrc in Hrv2 | rewrite Hcc in Hrv2 | progress simpl in Hrv2].
        discriminate.
      * specialize (Htrace eq_refl). rewrite Hcls in Htrace.
        simpl in Htrace. apply bool_decide_eq_true in Htrace.
        destruct Htrace as [t Ht].
        rewrite (console_logs_on_receipt fuel st rc Hrc), Hcls.
        unfold bind at 1. rewrite (fetch_trace_cached st t Ht).
        unfold bind, get_self. rewrite Ht. unfold lift. eauto.
Qed.

Lemma console_logs_on_backends_witness :
  Transaction.console_logs 0
    (Sample.resolved (Sample.node HardhatDevChain 0 Sample.success_receipt)
       (Some Sample.fqn) Sample.success_receipt)
  = Some (Raise NotImplementedError,
          Sample.resolved (Sample.node HardhatDevChain 0 Sample.success_receipt)
            (Some Sample.fqn) Sample.success_receipt)
  /\ Transaction.console_logs 0
       (Sample.resolved (Sample.node AnvilDevChain 0 Sample.success_receipt)
          (Some Sample.fqn) Sample.success_receipt)
     = Some (Ok [],
             updated (set_trace_transaction (Some Sample.call_trace))
               (asked (TraceTransaction Sample.tx_hash)
                  (Sample.resolved
                     (Sample.node AnvilDevChain 0 Sample.success_receipt)
                     (Some Sample.fqn) Sample.success_receipt))).
Proof.
  split.
  - apply (proj1 (console_logs_on_backends 0
             (Sample.resolved (Sample.node HardhatDevChain 0 Sample.success_receipt)
                (Some Sample.fqn) Sample.success_receipt)
             Sample.success_receipt eq_refl)).
    reflexivity.
  - apply (proj1 (proj2 (console_logs_on_backends 0
             (Sample.resolved (Sample.node AnvilDevChain 0 Sample.success_receipt)
                (Some Sample.fqn) Sample.success_receipt)
             Sample.success_receipt eq_refl) eq_refl) Sample.call_trace).
    right. repeat split; reflexivity.
Defined.

(* ===================================================================== *)
(** ** When the error cannot be decoded *)
(* ===================================================================== *)

Lemma fromhex_go_raises (fuel : nat) (s : string) (e : exn) :
  Py.fromhex_go fuel s = Raise e -> e = ValueError.
Proof.
  revert s. induction fuel as [|fuel IH]; intros s Hrun; [discriminate|].
  simpl in Hrun.
  destruct (Py.skip_spaces s) as [|c1 [|c2 s']]; try discriminate.
  - inversion Hrun; reflexivity.
  - destruct (Py.hex_digit c1); [|inversion Hrun; reflexivity].
    destruct (Py.hex_digit c2); [|inversion Hrun; reflexivity].
    destruct (Py.fromhex_go fuel s') eqn:Hrec; [discriminate|].
    simpl in Hrun. inversion Hrun; subst. eapply IH; eauto.
Qed.

(** [bytes.fromhex] raises nothing but [ValueError] and [TypeError]. *)
Lemma bytes_fromhex_raises (x : pyval) (e : exn) :
  Py.bytes_fromhex x = Raise e -> e = ValueError \/ e = TypeError.
Proof.
  destruct x; simpl; intros H; try (inversion H; auto; fail).
  left. eapply fromhex_go_raises; eauto.
Qed.

(** X13. [error] on a failed transaction with no cached error, when the
    replay does not give a payload to decode.  If the replayed call
    returns, the assertion that it should have reverted fails; if it raises
    anything but a JSON-RPC error, that is raised; if it reverts but the
    handle has no recipient, an assertion fails, after the call has been
    made; if the payload is no hexadecimal string, [bytes.fromhex] raises.
    In each case the call has been made once and no error is cached, so
    the next read replays the call. *)
Theorem error_without_decoding (fuel : nat) (st : state) (rc : dict) :
  _tx_receipt (self st) = Some rc ->
  Transaction.status_of_receipt (Some rc) = Ok FAILURE ->
  _error (self st) = None ->
  (forall x,
     call (dev_chain (_chain (self st))) (history st) (_tx_params (self st)) = Ok x ->
     Transaction.error fuel st
       = Some (Raise (AssertionError "Call should have reverted"),
               asked (Call (_tx_params (self st))) st))
  /\ (forall e,
        call (dev_chain (_chain (self st))) (history st) (_tx_params (self st))
          = Raise e ->
        (forall e_data, e <> JsonRpcError e_data) ->
        Transaction.error fuel st
          = Some (Raise e, asked (Call (_tx_params (self st))) st))
  /\ (forall e_data revert_data,
        call (dev_chain (_chain (self st))) (history st) (_tx_params (self st))
          = Raise (JsonRpcError e_data) ->
        Transaction.revert_data_of (dev_class (dev_chain (_chain (self st)))) e_data
          = Ok revert_data ->
        (_recipient_fqn (self st) = None ->
         Transaction.error fuel st
           = Some (Raise (AssertionError ""),
                   asked (Call (_tx_params (self st))) st))
        /\ (forall fqn e,
              _recipient_fqn (self st) = Some fqn ->
              Py.bytes_fromhex revert_data = Raise e ->
              Transaction.error fuel st
                = Some (Raise e, asked (Call (_tx_params (self st))) st)))
  /\ _error (self (asked (Call (_tx_params (self st))) st)) = None.
Proof.
  intros Hrc Hfail Herr.
  assert (Hstart : Transaction.error fuel st =
            (revert_data <- Transaction.replay ;;
             Transaction.decode_revert revert_data) st)
    by (rewrite (error_of_failure fuel st rc Hrc Hfail), Herr; reflexivity).
  split; [|split; [|split]].
  - intros x Hcall. rewrite Hstart.
    unfold Transaction.replay, Transaction.dev_call. run_m. rewrite Hcall.
    reflexivity.
  - intros e Hcall Hne. rewrite Hstart.
    unfold Transaction.replay, Transaction.dev_call. run_m. rewrite Hcall. simpl.
    destruct e; try reflexivity. exfalso. eapply Hne; eauto.
  - intros e_data revert_data Hcall Hrd.
    assert (Hdec : Transaction.error fuel st =
              Transaction.decode_revert revert_data
                (asked (Call (_tx_params (self st))) st)).
    { rewrite Hstart. unfold bind at 1.
      rewrite (replay_payload st e_data Hcall), Hrd. reflexivity. }
    split.
    + intros Hfqn. rewrite Hdec. unfold Transaction.decode_revert, asked. run_m.
      cbn [self history]. rewrite Hfqn. reflexivity.
    + intros fqn e Hfqn Hhex. rewrite Hdec.
      unfold Transaction.decode_revert, asked. run_m.
      cbn [self history]. rewrite Hfqn. cbn [self history]. rewrite Hhex.
      destruct (bytes_fromhex_raises revert_data e Hhex) as [-> | ->]; reflexivity.
  - exact Herr.
Qed.

(** A failed transaction on a backend whose replayed call does not revert,
    and a failed contract creation on a handle without recipient. *)
Lemma error_without_decoding_witness :
  Transaction.error 0
    (Sample.resolved Sample.stuck_node (Some Sample.fqn) Sample.failure_receipt)
  = Some (Raise (AssertionError "Call should have reverted"),
          asked (Call Sample.tx_params)
            (Sample.resolved Sample.stuck_node (Some Sample.fqn)
               Sample.failure_receipt))
  /\ Transaction.error 0
       (Sample.resolved (Sample.node AnvilDevChain 0 Sample.failed_creation_receipt)
          None Sample.failed_creation_receipt)
     = Some (Raise (AssertionError ""),
             asked (Call Sample.tx_params)
               (Sample.resolved
                  (Sample.node AnvilDevChain 0 Sample.failed_creation_receipt)
                  None Sample.failed_creation_receipt))
  /\ Transaction.error 0
       (Sample.resolved (Fixture.flaky_node 0) (Some Sample.fqn)
          Sample.failure_receipt)
     = Some (Raise (TransportError "connection reset"),
             asked (Call Sample.tx_params)
               (Sample.resolved (Fixture.flaky_node 0) (Some Sample.fqn)
                  Sample.failure_receipt)).
Proof.
  split; [|split].
  - apply (proj1 (error_without_decoding 0
             (Sample.resolved Sample.stuck_node (Some Sample.fqn)
                Sample.failure_receipt)
             Sample.failure_receipt eq_refl eq_refl eq_refl) PyNone).
    reflexivity.
  - apply (proj1 (proj1 (proj2 (proj2 (error_without_decoding 0
             (Sample.resolved
                (Sample.node AnvilDevChain 0 Sample.failed_creation_receipt)
                None Sample.failed_creation_receipt)
             Sample.failed_creation_receipt eq_refl eq_refl eq_refl)))
             (Sample.error_data AnvilDevChain 0) (PyStr "08c379a0")
             eq_refl eq_refl)).
    reflexivity.
  - apply (proj1 (proj2 (error_without_decoding 0
             (Sample.resolved (Fixture.flaky_node 0) (Some Sample.fqn)
                Sample.failure_receipt)
             Sample.failure_receipt eq_refl eq_refl eq_refl))
             (TransportError "connection reset")).
    + reflexivity.
    + intros e_data. discriminate.
Defined.

(* ===================================================================== *)
(** ** The return value: what can go wrong, and the bytes that get through *)
(* ===================================================================== *)

Section SuccessfulCallOutput.

Variables (fuel : nat) (st : state) (rc abi : dict).
Hypothesis receipt_cached : _tx_receipt (self st) = Some rc.
Hypothesis succeeded : Transaction.status_of_receipt (Some rc) = Ok SUCCESS.
Hypothesis no_contract : Transaction.created_contract (Some rc) = None.
Hypothesis has_abi : _abi (self st) = Some abi.

(** The return value in terms of the call trace at hand, whether its
    output can be read or not. *)
Lemma return_value_via_trace (trace : list dict) (st1 : state) :
  dev_class (dev_chain (_chain (self st))) = AnvilDevChain ->
  trace_at_hand st trace st1 ->
  Transaction.return_value fuel st =
    Some ((output <~ Transaction.trace_output trace ;
           decoded_output (self st) abi output)%res, st1).
Proof.
  intros Hcls Hat.
  destruct (Transaction.trace_output trace) as [output|e] eqn:Hout.
  - apply (return_value_full_trace fuel st rc abi receipt_cached succeeded
             no_contract has_abi trace st1 output Hcls Hat Hout).
  - unfold Transaction.return_value.
    rewrite (fetch_receipt_cached fuel _ st rc receipt_cached).
    unfold bind at 1. rewrite (status_cached st rc receipt_cached), succeeded. simpl.
    unfold Transaction._fetch_trace_transaction, Transaction.dev_trace_transaction.
    run_m.
    destruct Hat as [(Ht & ->)|(Ht & Hans & ->)];
      repeat first
        [ rewrite receipt_cached | rewrite no_contract | rewrite has_abi
        | rewrite Hcls | rewrite Ht | rewrite Hans | rewrite Hout
        | progress simpl ];
      reflexivity.
Qed.

Lemma return_value_via_debug_trace (trace : dict) (st1 : state) :
  dev_class (dev_chain (_chain (self st))) <> AnvilDevChain ->
  debug_trace_at_hand st trace st1 ->
  Transaction.return_value fuel st =
    Some ((output <~ Transaction.debug_trace_output trace ;
           decoded_output (self st) abi output)%res, st1).
Proof.
  intros Hcls Hat.
  destruct (Transaction.debug_trace_output trace) as [output|e] eqn:Hout.
  - apply (return_value_debug_trace fuel st rc abi receipt_cached succeeded
             no_contract has_abi trace st1 output Hcls Hat Hout).
  - unfold Transaction.return_value.
    rewrite (fetch_receipt_cached fuel _ st rc receipt_cached).
    unfold bind at 1. rewrite (status_cached st rc receipt_cached), succeeded. simpl.
    unfold Transaction._fetch_debug_trace_transaction,
      Transaction.dev_debug_trace_transaction.
    assert (Hanvil :
      Transaction.is_anvil (dev_class (dev_chain (_chain (self st)))) = false)
      by (revert Hcls; destruct (dev_class (dev_chain (_chain (self st))));
          simpl; congruence).
    run_m.
    destruct Hat as [(Ht & ->)|(Ht & Hans & ->)];
      repeat first
        [ rewrite receipt_cached | rewrite no_contract | rewrite has_abi
        | rewrite Hanvil | rewrite Ht | rewrite Hans | rewrite Hout
        | progress simpl ];
      reflexivity.
Qed.

End SuccessfulCallOutput.

Lemma fromhex_prefixed (s : string) :
  Py.bytes_fromhex_str (String "0" (String "x" s)) = Raise ValueError.
Proof. reflexivity. Qed.

(** X14. What [return_value] does, for a successful call that created no
    contract, when there is nothing to decode.  Without ABI the assertion
    fails before anything is asked of the backend.  With an ABI, on Anvil
    an empty call trace raises [IndexError]; on another backend a debug
    trace without [returnValue] raises [KeyError], and a [returnValue] that
    starts with [0x] raises [ValueError], because this path does not strip
    the prefix.  The trace that was fetched stays cached. *)
Theorem return_value_without_output (fuel : nat) (st : state) (rc : dict) :
  _tx_receipt (self st) = Some rc ->
  Transaction.status_of_receipt (Some rc) = Ok SUCCESS ->
  Transaction.created_contract (Some rc) = None ->
  (_abi (self st) = None ->
   Transaction.return_value fuel st = Some (Raise (AssertionError ""), st))
  /\ (forall abi st1,
        _abi (self st) = Some abi ->
        dev_class (dev_chain (_chain (self st))) = AnvilDevChain ->
        trace_at_hand st [] st1 ->
        Transaction.return_value fuel st = Some (Raise IndexError, st1))
  /\ (forall abi trace st1,
        _abi (self st) = Some abi ->
        dev_class (dev_chain (_chain (self st))) <> AnvilDevChain ->
        debug_trace_at_hand st trace st1 ->
        (Py.dict_get trace "returnValue" = None ->
         Transaction.return_value fuel st
           = Some (Raise (KeyError "returnValue"), st1))
        /\ (forall s,
              Py.dict_get trace "returnValue"
                = Some (PyStr (String "0" (String "x" s))) ->
              Transaction.return_value fuel st = Some (Raise ValueError, st1))).
Proof.
  intros Hrc Hs Hcc. split; [|split].
  - intros Habi. unfold Transaction.return_value.
    rewrite (fetch_receipt_cached fuel _ st rc Hrc).
    unfold bind at 1. rewrite (status_cached st rc Hrc), Hs. simpl. run_m.
    repeat first [rewrite Hrc | rewrite Hcc | rewrite Habi | progress simpl].
    reflexivity.
  - intros abi st1 Habi Hcls Hat.
    rewrite (return_value_via_trace fuel st rc abi Hrc Hs Hcc Habi [] st1 Hcls Hat).
    reflexivity.
  - intros abi trace st1 Habi Hcls Hat. split.
    + intros Hrv.
      rewrite (return_value_via_debug_trace fuel st rc abi Hrc Hs Hcc Habi
                 trace st1 Hcls Hat).
      unfold Transaction.debug_trace_output, Py.dict_getitem. rewrite Hrv.
      reflexivity.
    + intros s Hrv.
      rewrite (return_value_via_debug_trace fuel st rc abi Hrc Hs Hcc Habi
                 trace st1 Hcls Hat).
      unfold Transaction.debug_trace_output, Py.dict_getitem. rewrite Hrv.
      cbn [rbind Py.bytes_fromhex]. rewrite fromhex_prefixed. reflexivity.
Qed.

(** A handle without ABI, and a Ganache backend whose debug trace spells
    the return value with the prefix. *)
Lemma return_value_without_output_witness :
  Transaction.return_value 0 Fixture.without_abi
  = Some (Raise (AssertionError ""), Fixture.without_abi)
  /\ Transaction.return_value 0
       (updated (set_debug_trace_transaction (Some Fixture.prefixed_debug_trace))
          (Sample.resolved (Sample.node GanacheDevChain 0 Sample.success_receipt)
             (Some Sample.fqn) Sample.success_receipt))
     = Some (Raise ValueError,
             updated (set_debug_trace_transaction (Some Fixture.prefixed_debug_trace))
               (Sample.resolved
                  (Sample.node GanacheDevChain 0 Sample.success_receipt)
                  (Some Sample.fqn) Sample.success_receipt)).
Proof.
  split.
  - apply (proj1 (return_value_without_output 0 Fixture.without_abi
                    Sample.success_receipt eq_refl eq_refl eq_refl)).
    reflexivity.
  - refine (proj2 (proj2 (proj2 (return_value_without_output 0
              (updated
                 (set_debug_trace_transaction (Some Fixture.prefixed_debug_trace))
                 (Sample.resolved
                    (Sample.node GanacheDevChain 0 Sample.success_receipt)
                    (Some Sample.fqn) Sample.success_receipt))
              Sample.success_receipt eq_refl eq_refl eq_refl))
              Sample.abi Fixture.prefixed_debug_trace _ eq_refl _ _)
              "002a" eq_refl).
    + discriminate.
    + left. split; reflexivity.
Defined.

(** X15. The codec gets the very bytes the node returned.  For a
    successful call that created no contract: when the first frame of the
    Anvil call trace spells the bytes [b] as [0x] followed by their
    hexadecimal digits, or when the debug trace of another backend spells
    them as bare hexadecimal digits, [return_value] is what the codec
    decodes from [b], against the ABI and the return type. *)
Theorem return_value_round_trip (b : list Byte.byte) (fuel : nat) (st : state)
    (rc abi : dict) :
  _tx_receipt (self st) = Some rc ->
  Transaction.status_of_receipt (Some rc) = Ok SUCCESS ->
  Transaction.created_contract (Some rc) = None ->
  _abi (self st) = Some abi ->
  (forall frame rest res st1,
     dev_class (dev_chain (_chain (self st))) = AnvilDevChain ->
     trace_at_hand st (frame :: rest) st1 ->
     Py.dict_get frame "result" = Some res ->
     Py.getitem res "output" = Ok (hex_str true b) ->
     Transaction.return_value fuel st
       = Some (decoded_output (self st) abi b, st1))
  /\ (forall trace st1,
        dev_class (dev_chain (_chain (self st))) <> AnvilDevChain ->
        debug_trace_at_hand st trace st1 ->
        Py.dict_get trace "returnValue" = Some (hex_str false b) ->
        Transaction.return_value fuel st
          = Some (decoded_output (self st) abi b, st1)).
Proof.
  intros Hrc Hs Hcc Habi. split.
  - intros frame rest res st1 Hcls Hat Hres Hout.
    rewrite (return_value_via_trace fuel st rc abi Hrc Hs Hcc Habi
               (frame :: rest) st1 Hcls Hat).
    unfold Transaction.trace_output, Py.dict_getitem. cbn [rbind].
    rewrite Hres. cbn [rbind]. rewrite Hout. unfold hex_str.
    cbn [rbind Py.slice_from Py.str_from Py.bytes_fromhex].
    rewrite fromhex_bytes_hex. reflexivity.
  - intros trace st1 Hcls Hat Hrv.
    rewrite (return_value_via_debug_trace fuel st rc abi Hrc Hs Hcc Habi
               trace st1 Hcls Hat).
    unfold Transaction.debug_trace_output, Py.dict_getitem. rewrite Hrv.
    unfold hex_str. cbn [rbind Py.bytes_fromhex].
    rewrite fromhex_bytes_hex. reflexivity.
Qed.

Lemma return_value_round_trip_witness :
  Transaction.return_value 0
    (Sample.resolved (Sample.node AnvilDevChain 0 Sample.success_receipt)
       (Some Sample.fqn) Sample.success_receipt)
  = Some (Ok (Decoded (PyList [PyInt 0; PyInt 42])),
          updated (set_trace_transaction (Some Sample.call_trace))
            (asked (TraceTransaction Sample.tx_hash)
               (Sample.resolved
                  (Sample.node AnvilDevChain 0 Sample.success_receipt)
                  (Some Sample.fqn) Sample.success_receipt))).
Proof.
  refine (proj1 (return_value_round_trip [Byte.x00; Byte.x2a] 0
            (Sample.resolved (Sample.node AnvilDevChain 0 Sample.success_receipt)
               (Some Sample.fqn) Sample.success_receipt)
            Sample.success_receipt Sample.abi eq_refl eq_refl eq_refl eq_refl)
            [("result", PyDict [("output", PyStr "0x002a")])] []
            (PyDict [("output", PyStr "0x002a")]) _ eq_refl _ eq_refl eq_refl).
  right. repeat split; reflexivity.
Defined.

(** X16. The codec gets the very bytes of the revert payload.  For a failed
    transaction with a recipient and no cached error whose replay fails
    with a JSON-RPC error: when the payload, read at [data] on Anvil and
    Ganache and at [data.data] on Hardhat, spells the bytes [b] in
    hexadecimal, with or without [0x], the error accessor decodes [b]. *)
Theorem revert_payload_round_trip (b : list Byte.byte) (prefixed : bool)
    (fuel : nat) (st : state) (rc : dict) (fqn : string) (e_data : pyval) :
  _tx_receipt (self st) = Some rc ->
  Transaction.status_of_receipt (Some rc) = Ok FAILURE ->
  _error (self st) = None ->
  _recipient_fqn (self st) = Some fqn ->
  call (dev_chain (_chain (self st))) (history st) (_tx_params (self st))
    = Raise (JsonRpcError e_data) ->
  (dev_class (dev_chain (_chain (self st))) = AnvilDevChain
   \/ dev_class (dev_chain (_chain (self st))) = GanacheDevChain ->
   Py.getitem e_data "data" = Ok (hex_str prefixed b) ->
   Transaction.error fuel st = decoded_error st b fqn)
  /\ (forall d,
        dev_class (dev_chain (_chain (self st))) = HardhatDevChain ->
        Py.getitem e_data "data" = Ok d ->
        Py.getitem d "data" = Ok (hex_str prefixed b) ->
        Transaction.error fuel st = decoded_error st b fqn).
Proof.
  intros Hrc Hfail Herr Hfqn Hcall.
  assert (Hpayload :
            (b0 <~ Py.startswith_val "0x" (hex_str prefixed b) ;
             if b0 : bool then Py.slice_from 2 (hex_str prefixed b)
             else Ok (hex_str prefixed b))%res
            = Ok (PyStr (Hex.bytes_hex b))).
  { unfold hex_str, Py.startswith_val. cbn [rbind]. destruct prefixed.
    - rewrite startswith_prefixed. reflexivity.
    - rewrite bytes_hex_no_prefix. reflexivity. }
  split.
  - intros Hcls Hdata.
    apply (error_reads_payload fuel st rc fqn e_data Hrc Hfail Herr Hcall
             (Hex.bytes_hex b) b Hfqn); [|apply fromhex_bytes_hex].
    unfold Transaction.revert_data_of.
    destruct Hcls as [-> | ->]; rewrite Hdata; cbn [rbind]; exact Hpayload.
  - intros d Hcls Hd Hdata.
    apply (error_reads_payload fuel st rc fqn e_data Hrc Hfail Herr Hcall
             (Hex.bytes_hex b) b Hfqn); [|apply fromhex_bytes_hex].
    unfold Transaction.revert_data_of. rewrite Hcls, Hd. cbn [rbind].
    rewrite Hdata. cbn [rbind]. exact Hpayload.
Qed.

Lemma revert_payload_round_trip_witness :
  Transaction.error 0
    (Sample.resolved (Sample.node GanacheDevChain 0 Sample.failure_receipt)
       (Some Sample.fqn) Sample.failure_receipt)
  = decoded_error
      (Sample.resolved (Sample.node GanacheDevChain 0 Sample.failure_receipt)
         (Some Sample.fqn) Sample.failure_receipt)
      [Byte.x08; Byte.xc3; Byte.x79; Byte.xa0] Sample.fqn.
Proof.
  apply (proj1 (revert_payload_round_trip
                  [Byte.x08; Byte.xc3; Byte.x79; Byte.xa0] true 0
                  (Sample.resolved
                     (Sample.node GanacheDevChain 0 Sample.failure_receipt)
                     (Some Sample.fqn) Sample.failure_receipt)
                  Sample.failure_receipt Sample.fqn
                  (Sample.error_data GanacheDevChain 0)
                  eq_refl eq_refl eq_refl eq_refl eq_refl)).
  - right. reflexivity.
  - reflexivity.
Defined.
